(** * Skill-Sharing: the database layer and the tutorial form, verified

    A shallow embedding of
    - [supabase/migrations/20251123161127_0c68652d-388f-4767-9b17-946055808463.sql]:
      tables, constraints, row-level-security policies, storage policies and
      the PL/pgSQL trigger functions;
    - the [CreateTutorial] page: [tutorialSchema], [handleThumbnailChange],
      [handleSubmit].

    A table is the list of its rows.  A statement is a function from the
    database to a [result]: PostgreSQL aborts a statement on the first error
    and leaves the database as it was, so [Err] carries no state. *)

From Stdlib Require Import ZArith List String Ascii Bool Lia.
Import ListNotations.

Open Scope string_scope.
Open Scope list_scope.
Open Scope Z_scope.

(* ================================================================= *)
(** ** PostgreSQL values *)

(** SQLSTATE classes the statements below can raise. *)
Inductive pg_error : Type :=
| unique_violation (constraint : string)           (* 23505 *)
| foreign_key_violation (constraint : string)      (* 23503 *)
| insufficient_privilege (table : string)          (* 42501: row-level security *)
| numeric_value_out_of_range.                      (* 22003 *)

Inductive result (A : Type) : Type :=
| Ok (a : A)
| Err (e : pg_error).
Arguments Ok {A} a.
Arguments Err {A} e.

Definition bind {A B : Type} (c : result A) (k : A -> result B) : result B :=
  match c with
  | Ok a => k a
  | Err e => Err e
  end.

Notation "x <- c ;; k" := (bind c (fun x => k))
  (at level 61, c at next level, right associativity).
Notation "'check' b 'else' e ;; k" := (if b then k else Err e)
  (at level 61, b at next level, e at next level, right associativity).

(** UUIDs are carried by their canonical text, so that [auth.uid()::text]
    is the identity. *)
Definition uuid : Type := string.
Definition uuid_eqb : uuid -> uuid -> bool := String.eqb.
Definition uuid_text (u : uuid) : string := u.

(** TIMESTAMP WITH TIME ZONE: microseconds since the epoch. *)
Definition timestamptz : Type := Z.

(** INTEGER is a signed 32-bit type whose arithmetic raises instead of
    wrapping. *)
Definition int4_min : Z := -2147483648.
Definition int4_max : Z := 2147483647.

Definition int4 (z : Z) : result Z :=
  if (int4_min <=? z) && (z <=? int4_max) then Ok z
  else Err numeric_value_out_of_range.

Definition int4pl (a b : Z) : result Z := int4 (a + b).
Definition int4mi (a b : Z) : result Z := int4 (a - b).
Definition GREATEST (a b : Z) : Z := Z.max a b.

(** Three-valued logic: [None] is SQL NULL. *)
Definition sql_bool : Type := option bool.

Definition sql_eq {A : Type} (eqb : A -> A -> bool) (x y : option A) : sql_bool :=
  match x, y with
  | Some a, Some b => Some (eqb a b)
  | _, _ => None
  end.

Definition sql_and (p q : sql_bool) : sql_bool :=
  match p, q with
  | Some false, _ | _, Some false => Some false
  | Some true, Some true => Some true
  | _, _ => None
  end.

(** A policy or WHERE expression admits a row only when it is true;
    NULL counts as false. *)
Definition is_true (p : sql_bool) : bool :=
  match p with
  | Some true => true
  | _ => false
  end.

Definition COALESCE {A : Type} (x : option A) (d : A) : A :=
  match x with
  | Some a => a
  | None => d
  end.

(** The values of a JSONB object as [->>] sees them: JSON null, a JSON
    string, or any other JSON value, carried by the text [->>] renders. *)
Inductive jsonb_value : Type :=
| JNull
| JString (s : string)
| JOther (text : string).

Definition jsonb : Type := list (string * jsonb_value).

Fixpoint jsonb_field (j : jsonb) (key : string) : option jsonb_value :=
  match j with
  | [] => None
  | (k, v) :: rest => if String.eqb k key then Some v else jsonb_field rest key
  end.

(** [j ->> key]: NULL when [j] is NULL, the key is missing or the value is
    JSON null. *)
Definition jsonb_get_text (j : option jsonb) (key : string) : option string :=
  match j with
  | None => None
  | Some o =>
      match jsonb_field o key with
      | None | Some JNull => None
      | Some (JString s) => Some s
      | Some (JOther t) => Some t
      end
  end.

(** The caller, as the request's JWT presents it: [auth.uid()] is the [sub]
    claim and [auth.role()] the [role] claim. *)
Record jwt : Type := {
  sub : option uuid;
  role : option string
}.

Definition auth_uid (j : jwt) : option uuid := sub j.
Definition auth_role (j : jwt) : option string := role j.

(* ================================================================= *)
(** ** Schema (migration lines 1-139) *)

Inductive difficulty_level : Type := beginner | intermediate | advanced.

Inductive tutorial_category : Type :=
| programming | design | music | art | cooking
| photography | business | fitness | languages | other.

Module AuthUsers.
Record row : Type := {
    id : uuid;
    raw_user_meta_data : option jsonb
  }.
End AuthUsers.

Module Profiles.
Record row : Type := {
    id : uuid;
    full_name : string;
    bio : option string;
    avatar_url : option string;
    created_at : timestamptz;
    updated_at : timestamptz
  }.

Definition set_updated_at (t : timestamptz) (r : row) : row :=
    {| id := id r; full_name := full_name r; bio := bio r;
       avatar_url := avatar_url r; created_at := created_at r;
       updated_at := t |}.
End Profiles.

Module Tutorials.
Record row : Type := {
    id : uuid;
    user_id : uuid;
    title : string;
    description : string;
    category : tutorial_category;
    difficulty : difficulty_level;
    thumbnail_url : option string;
    video_url : option string;
    resources : option string;
    likes_count : Z;
    comments_count : Z;
    enrollments_count : Z;
    created_at : timestamptz;
    updated_at : timestamptz
  }.

Definition set_likes_count (c : Z) (r : row) : row :=
    {| id := id r; user_id := user_id r; title := title r;
       description := description r; category := category r;
       difficulty := difficulty r; thumbnail_url := thumbnail_url r;
       video_url := video_url r; resources := resources r;
       likes_count := c;
       comments_count := comments_count r;
       enrollments_count := enrollments_count r;
       created_at := created_at r; updated_at := updated_at r |}.

Definition set_comments_count (c : Z) (r : row) : row :=
    {| id := id r; user_id := user_id r; title := title r;
       description := description r; category := category r;
       difficulty := difficulty r; thumbnail_url := thumbnail_url r;
       video_url := video_url r; resources := resources r;
       likes_count := likes_count r;
       comments_count := c;
       enrollments_count := enrollments_count r;
       created_at := created_at r; updated_at := updated_at r |}.

Definition set_enrollments_count (c : Z) (r : row) : row :=
    {| id := id r; user_id := user_id r; title := title r;
       description := description r; category := category r;
       difficulty := difficulty r; thumbnail_url := thumbnail_url r;
       video_url := video_url r; resources := resources r;
       likes_count := likes_count r;
       comments_count := comments_count r;
       enrollments_count := c;
       created_at := created_at r; updated_at := updated_at r |}.

Definition set_updated_at (t : timestamptz) (r : row) : row :=
    {| id := id r; user_id := user_id r; title := title r;
       description := description r; category := category r;
       difficulty := difficulty r; thumbnail_url := thumbnail_url r;
       video_url := video_url r; resources := resources r;
       likes_count := likes_count r;
       comments_count := comments_count r;
       enrollments_count := enrollments_count r;
       created_at := created_at r; updated_at := t |}.
End Tutorials.

Module TutorialLikes.
Record row : Type := {
    id : uuid;
    tutorial_id : uuid;
    user_id : uuid;
    created_at : timestamptz
  }.
End TutorialLikes.

Module TutorialComments.
Record row : Type := {
    id : uuid;
    tutorial_id : uuid;
    user_id : uuid;
    content : string;
    created_at : timestamptz
  }.
End TutorialComments.

Module Enrollments.
Record row : Type := {
    id : uuid;
    tutorial_id : uuid;
    user_id : uuid;
    enrolled_at : timestamptz
  }.
End Enrollments.

Record db : Type := {
  auth_users : list AuthUsers.row;
  profiles : list Profiles.row;
  tutorials : list Tutorials.row;
  tutorial_likes : list TutorialLikes.row;
  tutorial_comments : list TutorialComments.row;
  enrollments : list Enrollments.row
}.

Definition empty_db : db :=
  {| auth_users := []; profiles := []; tutorials := [];
     tutorial_likes := []; tutorial_comments := []; enrollments := [] |}.

(* ================================================================= *)
(** ** Row-level-security policies (migration lines 11-155)

    Each definition carries the policy's name and is its USING or WITH CHECK
    expression. *)

(** "Profiles are viewable by everyone": FOR SELECT USING (true). *)
Definition Profiles_are_viewable_by_everyone (j : jwt) (r : Profiles.row) : sql_bool :=
  Some true.

(** "Users can update own profile": FOR UPDATE USING (auth.uid() = id). *)
Definition Users_can_update_own_profile (j : jwt) (r : Profiles.row) : sql_bool :=
  sql_eq uuid_eqb (auth_uid j) (Some (Profiles.id r)).

(** "Users can insert own profile": FOR INSERT WITH CHECK (auth.uid() = id). *)
Definition Users_can_insert_own_profile (j : jwt) (NEW : Profiles.row) : sql_bool :=
  sql_eq uuid_eqb (auth_uid j) (Some (Profiles.id NEW)).

(** "Tutorials are viewable by everyone". *)
Definition Tutorials_are_viewable_by_everyone (j : jwt) (r : Tutorials.row) : sql_bool :=
  Some true.

(** "Users can create tutorials": WITH CHECK (auth.uid() = user_id). *)
Definition Users_can_create_tutorials (j : jwt) (NEW : Tutorials.row) : sql_bool :=
  sql_eq uuid_eqb (auth_uid j) (Some (Tutorials.user_id NEW)).

(** "Users can update own tutorials": USING (auth.uid() = user_id). *)
Definition Users_can_update_own_tutorials (j : jwt) (r : Tutorials.row) : sql_bool :=
  sql_eq uuid_eqb (auth_uid j) (Some (Tutorials.user_id r)).

(** "Users can delete own tutorials": USING (auth.uid() = user_id). *)
Definition Users_can_delete_own_tutorials (j : jwt) (r : Tutorials.row) : sql_bool :=
  sql_eq uuid_eqb (auth_uid j) (Some (Tutorials.user_id r)).

(** "Likes are viewable by everyone". *)
Definition Likes_are_viewable_by_everyone (j : jwt) (r : TutorialLikes.row) : sql_bool :=
  Some true.

(** "Users can like tutorials": WITH CHECK (auth.uid() = user_id). *)
Definition Users_can_like_tutorials (j : jwt) (NEW : TutorialLikes.row) : sql_bool :=
  sql_eq uuid_eqb (auth_uid j) (Some (TutorialLikes.user_id NEW)).

(** "Users can unlike tutorials": USING (auth.uid() = user_id). *)
Definition Users_can_unlike_tutorials (j : jwt) (r : TutorialLikes.row) : sql_bool :=
  sql_eq uuid_eqb (auth_uid j) (Some (TutorialLikes.user_id r)).

(** "Comments are viewable by everyone". *)
Definition Comments_are_viewable_by_everyone (j : jwt) (r : TutorialComments.row) : sql_bool :=
  Some true.

(** "Users can create comments": WITH CHECK (auth.uid() = user_id). *)
Definition Users_can_create_comments (j : jwt) (NEW : TutorialComments.row) : sql_bool :=
  sql_eq uuid_eqb (auth_uid j) (Some (TutorialComments.user_id NEW)).

(** "Users can delete own comments": USING (auth.uid() = user_id). *)
Definition Users_can_delete_own_comments (j : jwt) (r : TutorialComments.row) : sql_bool :=
  sql_eq uuid_eqb (auth_uid j) (Some (TutorialComments.user_id r)).

(** "Users can view their own enrollments": USING (auth.uid() = user_id). *)
Definition Users_can_view_their_own_enrollments (j : jwt) (r : Enrollments.row) : sql_bool :=
  sql_eq uuid_eqb (auth_uid j) (Some (Enrollments.user_id r)).

(** "Users can enroll in tutorials": WITH CHECK (auth.uid() = user_id). *)
Definition Users_can_enroll_in_tutorials (j : jwt) (NEW : Enrollments.row) : sql_bool :=
  sql_eq uuid_eqb (auth_uid j) (Some (Enrollments.user_id NEW)).

(** "Users can unenroll from tutorials": USING (auth.uid() = user_id). *)
Definition Users_can_unenroll_from_tutorials (j : jwt) (r : Enrollments.row) : sql_bool :=
  sql_eq uuid_eqb (auth_uid j) (Some (Enrollments.user_id r)).

(* ================================================================= *)
(** ** Storage bucket and its policies (migration lines 157-185) *)

Module StorageObjects.
Record row : Type := {
  bucket_id : string;
  name : string
}.
End StorageObjects.

(** [string_to_array(s, sep)] for a one-character separator; the empty
    string has one (empty) part here, which [foldername] drops. *)
Fixpoint string_to_array (s : string) (sep : ascii) : list string :=
  match s with
  | EmptyString => [EmptyString]
  | String c rest =>
      if Ascii.eqb c sep then EmptyString :: string_to_array rest sep
      else
        match string_to_array rest sep with
        | [] => [String c EmptyString]
        | p :: ps => String c p :: ps
        end
  end.

(** [storage.foldername(name)] of the storage extension: the parts of the
    path between slashes, without the last one (the file name). *)
Definition storage_foldername (name : string) : list string :=
  removelast (string_to_array name "/"%char).

(** SQL array subscript [a[1]]: NULL when the array has no first element. *)
Definition array_first {A : Type} (a : list A) : option A := hd_error a.

(** "Tutorial media is publicly accessible". *)
Definition Tutorial_media_is_publicly_accessible (j : jwt) (o : StorageObjects.row) : sql_bool :=
  Some (String.eqb (StorageObjects.bucket_id o) "tutorial-media").

(** "Authenticated users can upload tutorial media". *)
Definition Authenticated_users_can_upload_tutorial_media (j : jwt) (NEW : StorageObjects.row) : sql_bool :=
  sql_and (Some (String.eqb (StorageObjects.bucket_id NEW) "tutorial-media"))
          (sql_eq String.eqb (auth_role j) (Some "authenticated")).

(** "Users can update their own tutorial media". *)
Definition Users_can_update_their_own_tutorial_media (j : jwt) (o : StorageObjects.row) : sql_bool :=
  sql_and (Some (String.eqb (StorageObjects.bucket_id o) "tutorial-media"))
          (sql_eq String.eqb (option_map uuid_text (auth_uid j))
                  (array_first (storage_foldername (StorageObjects.name o)))).

(** "Users can delete their own tutorial media". *)
Definition Users_can_delete_their_own_tutorial_media (j : jwt) (o : StorageObjects.row) : sql_bool :=
  sql_and (Some (String.eqb (StorageObjects.bucket_id o) "tutorial-media"))
          (sql_eq String.eqb (option_map uuid_text (auth_uid j))
                  (array_first (storage_foldername (StorageObjects.name o)))).

Inductive storage_command : Type := SELECT | INSERT | UPDATE | DELETE.

(** What the policies on [storage.objects] let caller [j] do with object
    [o]; one permissive policy per command. *)
Definition storage_permitted (cmd : storage_command) (j : jwt) (o : StorageObjects.row) : bool :=
  match cmd with
  | SELECT => is_true (Tutorial_media_is_publicly_accessible j o)
  | INSERT => is_true (Authenticated_users_can_upload_tutorial_media j o)
  | UPDATE => is_true (Users_can_update_their_own_tutorial_media j o)
  | DELETE => is_true (Users_can_delete_their_own_tutorial_media j o)
  end.

(* ================================================================= *)
(** ** Trigger functions (migration lines 187-307) *)

Inductive trigger_event (R : Type) : Type :=
| TG_INSERT (NEW : R)
| TG_UPDATE (OLD NEW : R)
| TG_DELETE (OLD : R).
Arguments TG_INSERT {R} NEW.
Arguments TG_UPDATE {R} OLD NEW.
Arguments TG_DELETE {R} OLD.

(** Tables with an [updated_at] column: the record type [NEW] may have in
    [update_updated_at_column]. *)
Class has_updated_at (R : Type) : Type := {
  with_updated_at : timestamptz -> R -> R;
  get_updated_at : R -> timestamptz
}.

#[export] Instance profiles_updated_at : has_updated_at Profiles.row :=
  {| with_updated_at := Profiles.set_updated_at;
     get_updated_at := Profiles.updated_at |}.

#[export] Instance tutorials_updated_at : has_updated_at Tutorials.row :=
  {| with_updated_at := Tutorials.set_updated_at;
     get_updated_at := Tutorials.updated_at |}.

(** [update_updated_at_column]: NEW.updated_at = NOW(); RETURN NEW.
    Attached BEFORE UPDATE FOR EACH ROW to profiles and tutorials. *)
Definition update_updated_at_column {R : Type} `{has_updated_at R}
    (now : timestamptz) (NEW : R) : R :=
  with_updated_at now NEW.

(** [UPDATE public.tutorials SET ... WHERE ...] as a SECURITY DEFINER
    function issues it: no policy applies, and the BEFORE UPDATE trigger
    [update_tutorials_updated_at] rewrites each new row. *)
Fixpoint definer_update_tutorials (now : timestamptz)
    (where_ : Tutorials.row -> bool) (set : Tutorials.row -> result Tutorials.row)
    (rows : list Tutorials.row) : result (list Tutorials.row) :=
  match rows with
  | [] => Ok []
  | OLD :: rest =>
      r <- (if where_ OLD
            then NEW <- set OLD ;; Ok (update_updated_at_column now NEW)
            else Ok OLD) ;;
      rest' <- definer_update_tutorials now where_ set rest ;;
      Ok (r :: rest')
  end.

(** [update_tutorial_likes_count] (lines 212-230). *)
Definition update_tutorial_likes_count (now : timestamptz)
    (ev : trigger_event TutorialLikes.row) (tuts : list Tutorials.row)
    : result (list Tutorials.row) :=
  match ev with
  | TG_INSERT NEW =>
      definer_update_tutorials now
        (fun t => uuid_eqb (Tutorials.id t) (TutorialLikes.tutorial_id NEW))
        (fun t => c <- int4pl (Tutorials.likes_count t) 1 ;;
                  Ok (Tutorials.set_likes_count c t))
        tuts
  | TG_DELETE OLD =>
      definer_update_tutorials now
        (fun t => uuid_eqb (Tutorials.id t) (TutorialLikes.tutorial_id OLD))
        (fun t => c <- int4mi (Tutorials.likes_count t) 1 ;;
                  Ok (Tutorials.set_likes_count (GREATEST c 0) t))
        tuts
  | TG_UPDATE _ _ => Ok tuts
  end.

(** [update_tutorial_comments_count] (lines 238-256). *)
Definition update_tutorial_comments_count (now : timestamptz)
    (ev : trigger_event TutorialComments.row) (tuts : list Tutorials.row)
    : result (list Tutorials.row) :=
  match ev with
  | TG_INSERT NEW =>
      definer_update_tutorials now
        (fun t => uuid_eqb (Tutorials.id t) (TutorialComments.tutorial_id NEW))
        (fun t => c <- int4pl (Tutorials.comments_count t) 1 ;;
                  Ok (Tutorials.set_comments_count c t))
        tuts
  | TG_DELETE OLD =>
      definer_update_tutorials now
        (fun t => uuid_eqb (Tutorials.id t) (TutorialComments.tutorial_id OLD))
        (fun t => c <- int4mi (Tutorials.comments_count t) 1 ;;
                  Ok (Tutorials.set_comments_count (GREATEST c 0) t))
        tuts
  | TG_UPDATE _ _ => Ok tuts
  end.

(** [update_tutorial_enrollments_count] (lines 264-282). *)
Definition update_tutorial_enrollments_count (now : timestamptz)
    (ev : trigger_event Enrollments.row) (tuts : list Tutorials.row)
    : result (list Tutorials.row) :=
  match ev with
  | TG_INSERT NEW =>
      definer_update_tutorials now
        (fun t => uuid_eqb (Tutorials.id t) (Enrollments.tutorial_id NEW))
        (fun t => c <- int4pl (Tutorials.enrollments_count t) 1 ;;
                  Ok (Tutorials.set_enrollments_count c t))
        tuts
  | TG_DELETE OLD =>
      definer_update_tutorials now
        (fun t => uuid_eqb (Tutorials.id t) (Enrollments.tutorial_id OLD))
        (fun t => c <- int4mi (Tutorials.enrollments_count t) 1 ;;
                  Ok (Tutorials.set_enrollments_count (GREATEST c 0) t))
        tuts
  | TG_UPDATE _ _ => Ok tuts
  end.

(** AFTER ... FOR EACH ROW: the trigger function runs once per affected
    row, each run seeing the previous one's writes. *)
Fixpoint for_each_row {R T : Type} (f : R -> T -> result T)
    (rows : list R) (t : T) : result T :=
  match rows with
  | [] => Ok t
  | r :: rest => t' <- f r t ;; for_each_row f rest t'
  end.

(* ================================================================= *)
(** ** Constraints and statements *)

Definition mem_uuid (i : uuid) (ids : list uuid) : bool :=
  existsb (uuid_eqb i) ids.

Fixpoint unique_ids (ids : list uuid) : bool :=
  match ids with
  | [] => true
  | i :: rest => negb (mem_uuid i rest) && unique_ids rest
  end.

Definition set_profiles (v : list Profiles.row) (s : db) : db :=
  {| auth_users := auth_users s; profiles := v; tutorials := tutorials s;
     tutorial_likes := tutorial_likes s;
     tutorial_comments := tutorial_comments s; enrollments := enrollments s |}.

Definition set_tutorials (v : list Tutorials.row) (s : db) : db :=
  {| auth_users := auth_users s; profiles := profiles s; tutorials := v;
     tutorial_likes := tutorial_likes s;
     tutorial_comments := tutorial_comments s; enrollments := enrollments s |}.

(** INSERT INTO public.profiles by the table owner: PRIMARY KEY, then the
    foreign key to auth.users. *)
Definition insert_into_profiles (NEW : Profiles.row) (s : db) : result db :=
  check negb (mem_uuid (Profiles.id NEW) (map Profiles.id (profiles s)))
    else unique_violation "profiles_pkey" ;;
  check mem_uuid (Profiles.id NEW) (map AuthUsers.id (auth_users s))
    else foreign_key_violation "profiles_id_fkey" ;;
  Ok (set_profiles (profiles s ++ [NEW]) s).

(** [handle_new_user] (lines 188-204), SECURITY DEFINER: the insert runs
    as the owner of the table, outside row-level security.  The columns it
    leaves out take their DEFAULT NOW(). *)
Definition handle_new_user (now : timestamptz) (NEW : AuthUsers.row)
    (s : db) : result db :=
  insert_into_profiles
    {| Profiles.id := AuthUsers.id NEW;
       Profiles.full_name :=
         COALESCE (jsonb_get_text (AuthUsers.raw_user_meta_data NEW) "full_name")
                  "New User";
       Profiles.bio := None;
       Profiles.avatar_url := None;
       Profiles.created_at := now;
       Profiles.updated_at := now |}
    s.

(** Account creation by the identity provider: the row enters auth.users
    and [on_auth_user_created] fires AFTER INSERT. *)
Definition insert_auth_user (now : timestamptz) (NEW : AuthUsers.row)
    (s : db) : result db :=
  check negb (mem_uuid (AuthUsers.id NEW) (map AuthUsers.id (auth_users s)))
    else unique_violation "users_pkey" ;;
  handle_new_user now NEW
    {| auth_users := auth_users s ++ [NEW]; profiles := profiles s;
       tutorials := tutorials s; tutorial_likes := tutorial_likes s;
       tutorial_comments := tutorial_comments s;
       enrollments := enrollments s |}.

(** INSERT INTO profiles through the API: the policy's WITH CHECK first. *)
Definition insert_profile (j : jwt) (NEW : Profiles.row) (s : db) : result db :=
  check is_true (Users_can_insert_own_profile j NEW)
    else insufficient_privilege "profiles" ;;
  insert_into_profiles NEW s.

(** UPDATE profiles SET ... WHERE ... through the API.  Rows the SELECT and
    UPDATE policies hide are not touched; the BEFORE UPDATE trigger
    [update_profiles_updated_at] rewrites each new row; the UPDATE policy,
    having no WITH CHECK of its own, also checks the new row.  The keys
    that reference profiles(id) have no ON UPDATE action. *)
Definition update_profiles (j : jwt) (now : timestamptz)
    (where_ : Profiles.row -> bool) (set : Profiles.row -> Profiles.row)
    (s : db) : result db :=
  let hit r := is_true (Profiles_are_viewable_by_everyone j r)
               && is_true (Users_can_update_own_profile j r) && where_ r in
  let NEW_of OLD := update_updated_at_column now (set OLD) in
  let rows := map (fun r => if hit r then NEW_of r else r) (profiles s) in
  let referenced i :=
    mem_uuid i (map Tutorials.user_id (tutorials s))
    || mem_uuid i (map TutorialLikes.user_id (tutorial_likes s))
    || mem_uuid i (map TutorialComments.user_id (tutorial_comments s))
    || mem_uuid i (map Enrollments.user_id (enrollments s)) in
  check forallb (fun OLD => negb (hit OLD)
                   || is_true (Users_can_update_own_profile j (NEW_of OLD)))
                (profiles s)
    else insufficient_privilege "profiles" ;;
  check unique_ids (map Profiles.id rows)
    else unique_violation "profiles_pkey" ;;
  check forallb (fun OLD => negb (hit OLD)
                   || mem_uuid (Profiles.id (NEW_of OLD))
                               (map AuthUsers.id (auth_users s)))
                (profiles s)
    else foreign_key_violation "profiles_id_fkey" ;;
  check forallb (fun OLD => negb (hit OLD)
                   || mem_uuid (Profiles.id OLD) (map Profiles.id rows)
                   || negb (referenced (Profiles.id OLD)))
                (profiles s)
    else foreign_key_violation "user_id_fkey" ;;
  Ok (set_profiles rows s).

(** INSERT INTO tutorials through the API. *)
Definition insert_tutorial (j : jwt) (NEW : Tutorials.row) (s : db) : result db :=
  check is_true (Users_can_create_tutorials j NEW)
    else insufficient_privilege "tutorials" ;;
  check negb (mem_uuid (Tutorials.id NEW) (map Tutorials.id (tutorials s)))
    else unique_violation "tutorials_pkey" ;;
  check mem_uuid (Tutorials.user_id NEW) (map Profiles.id (profiles s))
    else foreign_key_violation "tutorials_user_id_fkey" ;;
  Ok (set_tutorials (tutorials s ++ [NEW]) s).

(** UPDATE tutorials SET ... WHERE ... through the API; as for profiles,
    with [update_tutorials_updated_at] BEFORE UPDATE. *)
Definition update_tutorials (j : jwt) (now : timestamptz)
    (where_ : Tutorials.row -> bool) (set : Tutorials.row -> Tutorials.row)
    (s : db) : result db :=
  let hit r := is_true (Tutorials_are_viewable_by_everyone j r)
               && is_true (Users_can_update_own_tutorials j r) && where_ r in
  let NEW_of OLD := update_updated_at_column now (set OLD) in
  let rows := map (fun r => if hit r then NEW_of r else r) (tutorials s) in
  let referenced i :=
    mem_uuid i (map TutorialLikes.tutorial_id (tutorial_likes s))
    || mem_uuid i (map TutorialComments.tutorial_id (tutorial_comments s))
    || mem_uuid i (map Enrollments.tutorial_id (enrollments s)) in
  check forallb (fun OLD => negb (hit OLD)
                   || is_true (Users_can_update_own_tutorials j (NEW_of OLD)))
                (tutorials s)
    else insufficient_privilege "tutorials" ;;
  check unique_ids (map Tutorials.id rows)
    else unique_violation "tutorials_pkey" ;;
  check forallb (fun OLD => negb (hit OLD)
                   || mem_uuid (Tutorials.user_id (NEW_of OLD))
                               (map Profiles.id (profiles s)))
                (tutorials s)
    else foreign_key_violation "tutorials_user_id_fkey" ;;
  check forallb (fun OLD => negb (hit OLD)
                   || mem_uuid (Tutorials.id OLD) (map Tutorials.id rows)
                   || negb (referenced (Tutorials.id OLD)))
                (tutorials s)
    else foreign_key_violation "tutorial_id_fkey" ;;
  Ok (set_tutorials rows s).

(** INSERT INTO tutorial_likes: WITH CHECK, PRIMARY KEY,
    UNIQUE(tutorial_id, user_id), both foreign keys, then
    [on_tutorial_like_change] AFTER INSERT. *)
Definition insert_tutorial_like (j : jwt) (now : timestamptz)
    (NEW : TutorialLikes.row) (s : db) : result db :=
  check is_true (Users_can_like_tutorials j NEW)
    else insufficient_privilege "tutorial_likes" ;;
  check negb (mem_uuid (TutorialLikes.id NEW)
                       (map TutorialLikes.id (tutorial_likes s)))
    else unique_violation "tutorial_likes_pkey" ;;
  check negb (existsb (fun r =>
                 uuid_eqb (TutorialLikes.tutorial_id r) (TutorialLikes.tutorial_id NEW)
                 && uuid_eqb (TutorialLikes.user_id r) (TutorialLikes.user_id NEW))
               (tutorial_likes s))
    else unique_violation "tutorial_likes_tutorial_id_user_id_key" ;;
  check mem_uuid (TutorialLikes.tutorial_id NEW) (map Tutorials.id (tutorials s))
    else foreign_key_violation "tutorial_likes_tutorial_id_fkey" ;;
  check mem_uuid (TutorialLikes.user_id NEW) (map Profiles.id (profiles s))
    else foreign_key_violation "tutorial_likes_user_id_fkey" ;;
  tuts <- update_tutorial_likes_count now (TG_INSERT NEW) (tutorials s) ;;
  Ok {| auth_users := auth_users s; profiles := profiles s; tutorials := tuts;
        tutorial_likes := tutorial_likes s ++ [NEW];
        tutorial_comments := tutorial_comments s;
        enrollments := enrollments s |}.

(** DELETE FROM tutorial_likes WHERE ...: the rows the SELECT and DELETE
    policies show and the WHERE clause picks go, and
    [on_tutorial_like_change] fires AFTER DELETE for each of them. *)
Definition delete_tutorial_likes (j : jwt) (now : timestamptz)
    (where_ : TutorialLikes.row -> bool) (s : db) : result db :=
  let hit r := is_true (Likes_are_viewable_by_everyone j r)
               && is_true (Users_can_unlike_tutorials j r) && where_ r in
  tuts <- for_each_row (fun OLD => update_tutorial_likes_count now (TG_DELETE OLD))
            (filter hit (tutorial_likes s)) (tutorials s) ;;
  Ok {| auth_users := auth_users s; profiles := profiles s; tutorials := tuts;
        tutorial_likes := filter (fun r => negb (hit r)) (tutorial_likes s);
        tutorial_comments := tutorial_comments s;
        enrollments := enrollments s |}.

(** INSERT INTO tutorial_comments: no uniqueness beyond the primary key. *)
Definition insert_tutorial_comment (j : jwt) (now : timestamptz)
    (NEW : TutorialComments.row) (s : db) : result db :=
  check is_true (Users_can_create_comments j NEW)
    else insufficient_privilege "tutorial_comments" ;;
  check negb (mem_uuid (TutorialComments.id NEW)
                       (map TutorialComments.id (tutorial_comments s)))
    else unique_violation "tutorial_comments_pkey" ;;
  check mem_uuid (TutorialComments.tutorial_id NEW) (map Tutorials.id (tutorials s))
    else foreign_key_violation "tutorial_comments_tutorial_id_fkey" ;;
  check mem_uuid (TutorialComments.user_id NEW) (map Profiles.id (profiles s))
    else foreign_key_violation "tutorial_comments_user_id_fkey" ;;
  tuts <- update_tutorial_comments_count now (TG_INSERT NEW) (tutorials s) ;;
  Ok {| auth_users := auth_users s; profiles := profiles s; tutorials := tuts;
        tutorial_likes := tutorial_likes s;
        tutorial_comments := tutorial_comments s ++ [NEW];
        enrollments := enrollments s |}.

Definition delete_tutorial_comments (j : jwt) (now : timestamptz)
    (where_ : TutorialComments.row -> bool) (s : db) : result db :=
  let hit r := is_true (Comments_are_viewable_by_everyone j r)
               && is_true (Users_can_delete_own_comments j r) && where_ r in
  tuts <- for_each_row (fun OLD => update_tutorial_comments_count now (TG_DELETE OLD))
            (filter hit (tutorial_comments s)) (tutorials s) ;;
  Ok {| auth_users := auth_users s; profiles := profiles s; tutorials := tuts;
        tutorial_likes := tutorial_likes s;
        tutorial_comments := filter (fun r => negb (hit r)) (tutorial_comments s);
        enrollments := enrollments s |}.

(** INSERT INTO enrollments: as for likes, with UNIQUE(tutorial_id, user_id). *)
Definition insert_enrollment (j : jwt) (now : timestamptz)
    (NEW : Enrollments.row) (s : db) : result db :=
  check is_true (Users_can_enroll_in_tutorials j NEW)
    else insufficient_privilege "enrollments" ;;
  check negb (mem_uuid (Enrollments.id NEW) (map Enrollments.id (enrollments s)))
    else unique_violation "enrollments_pkey" ;;
  check negb (existsb (fun r =>
                 uuid_eqb (Enrollments.tutorial_id r) (Enrollments.tutorial_id NEW)
                 && uuid_eqb (Enrollments.user_id r) (Enrollments.user_id NEW))
               (enrollments s))
    else unique_violation "enrollments_tutorial_id_user_id_key" ;;
  check mem_uuid (Enrollments.tutorial_id NEW) (map Tutorials.id (tutorials s))
    else foreign_key_violation "enrollments_tutorial_id_fkey" ;;
  check mem_uuid (Enrollments.user_id NEW) (map Profiles.id (profiles s))
    else foreign_key_violation "enrollments_user_id_fkey" ;;
  tuts <- update_tutorial_enrollments_count now (TG_INSERT NEW) (tutorials s) ;;
  Ok {| auth_users := auth_users s; profiles := profiles s; tutorials := tuts;
        tutorial_likes := tutorial_likes s;
        tutorial_comments := tutorial_comments s;
        enrollments := enrollments s ++ [NEW] |}.

Definition delete_enrollments (j : jwt) (now : timestamptz)
    (where_ : Enrollments.row -> bool) (s : db) : result db :=
  let hit r := is_true (Users_can_view_their_own_enrollments j r)
               && is_true (Users_can_unenroll_from_tutorials j r) && where_ r in
  tuts <- for_each_row (fun OLD => update_tutorial_enrollments_count now (TG_DELETE OLD))
            (filter hit (enrollments s)) (tutorials s) ;;
  Ok {| auth_users := auth_users s; profiles := profiles s; tutorials := tuts;
        tutorial_likes := tutorial_likes s;
        tutorial_comments := tutorial_comments s;
        enrollments := filter (fun r => negb (hit r)) (enrollments s) |}.

(** DELETE FROM tutorials WHERE ...: the rows go, then ON DELETE CASCADE
    removes every like, comment and enrollment whose [tutorial_id] is the id
    of a deleted row, the child tables' AFTER DELETE triggers firing for each
    cascaded row against what is left of the tutorials table. *)
Definition delete_tutorials (j : jwt) (now : timestamptz)
    (where_ : Tutorials.row -> bool) (s : db) : result db :=
  let hit r := is_true (Tutorials_are_viewable_by_everyone j r)
               && is_true (Users_can_delete_own_tutorials j r) && where_ r in
  let gone i := mem_uuid i (map Tutorials.id (filter hit (tutorials s))) in
  let kept := filter (fun r => negb (hit r)) (tutorials s) in
  t1 <- for_each_row (fun OLD => update_tutorial_likes_count now (TG_DELETE OLD))
          (filter (fun r => gone (TutorialLikes.tutorial_id r)) (tutorial_likes s))
          kept ;;
  t2 <- for_each_row (fun OLD => update_tutorial_comments_count now (TG_DELETE OLD))
          (filter (fun r => gone (TutorialComments.tutorial_id r)) (tutorial_comments s))
          t1 ;;
  t3 <- for_each_row (fun OLD => update_tutorial_enrollments_count now (TG_DELETE OLD))
          (filter (fun r => gone (Enrollments.tutorial_id r)) (enrollments s))
          t2 ;;
  Ok {| auth_users := auth_users s; profiles := profiles s; tutorials := t3;
        tutorial_likes :=
          filter (fun r => negb (gone (TutorialLikes.tutorial_id r))) (tutorial_likes s);
        tutorial_comments :=
          filter (fun r => negb (gone (TutorialComments.tutorial_id r))) (tutorial_comments s);
        enrollments :=
          filter (fun r => negb (gone (Enrollments.tutorial_id r))) (enrollments s) |}.

(** Account removal by the identity provider.  ON DELETE CASCADE takes the
    account's profile; from the profile, the tutorials it owns and the likes,
    comments and enrollments it made; from those tutorials, every child row
    that references them.  The child tables' AFTER DELETE triggers fire for
    each cascaded row against the tutorials that are left. *)
Definition delete_auth_users (now : timestamptz)
    (where_ : AuthUsers.row -> bool) (s : db) : result db :=
  let gone_u i := mem_uuid i (map AuthUsers.id (filter where_ (auth_users s))) in
  let dead_p p := gone_u (Profiles.id p) in
  let gone_p i := mem_uuid i (map Profiles.id (filter dead_p (profiles s))) in
  let dead_t t := gone_p (Tutorials.user_id t) in
  let gone_t i := mem_uuid i (map Tutorials.id (filter dead_t (tutorials s))) in
  let dead_l r := gone_p (TutorialLikes.user_id r)
                  || gone_t (TutorialLikes.tutorial_id r) in
  let dead_c r := gone_p (TutorialComments.user_id r)
                  || gone_t (TutorialComments.tutorial_id r) in
  let dead_e r := gone_p (Enrollments.user_id r)
                  || gone_t (Enrollments.tutorial_id r) in
  t1 <- for_each_row (fun OLD => update_tutorial_likes_count now (TG_DELETE OLD))
          (filter dead_l (tutorial_likes s))
          (filter (fun t => negb (dead_t t)) (tutorials s)) ;;
  t2 <- for_each_row (fun OLD => update_tutorial_comments_count now (TG_DELETE OLD))
          (filter dead_c (tutorial_comments s)) t1 ;;
  t3 <- for_each_row (fun OLD => update_tutorial_enrollments_count now (TG_DELETE OLD))
          (filter dead_e (enrollments s)) t2 ;;
  Ok {| auth_users := filter (fun u => negb (where_ u)) (auth_users s);
        profiles := filter (fun p => negb (dead_p p)) (profiles s);
        tutorials := t3;
        tutorial_likes := filter (fun r => negb (dead_l r)) (tutorial_likes s);
        tutorial_comments := filter (fun r => negb (dead_c r)) (tutorial_comments s);
        enrollments := filter (fun r => negb (dead_e r)) (enrollments s) |}.

(** The statements the application and the identity provider send. *)
Inductive statement : Type :=
| INSERT_auth_users (NEW : AuthUsers.row)
| DELETE_auth_users (where_ : AuthUsers.row -> bool)
| INSERT_profiles (NEW : Profiles.row)
| UPDATE_profiles (where_ : Profiles.row -> bool) (set : Profiles.row -> Profiles.row)
| INSERT_tutorials (NEW : Tutorials.row)
| UPDATE_tutorials (where_ : Tutorials.row -> bool) (set : Tutorials.row -> Tutorials.row)
| DELETE_tutorials (where_ : Tutorials.row -> bool)
| INSERT_tutorial_likes (NEW : TutorialLikes.row)
| DELETE_tutorial_likes (where_ : TutorialLikes.row -> bool)
| INSERT_tutorial_comments (NEW : TutorialComments.row)
| DELETE_tutorial_comments (where_ : TutorialComments.row -> bool)
| INSERT_enrollments (NEW : Enrollments.row)
| DELETE_enrollments (where_ : Enrollments.row -> bool).

Definition exec (j : jwt) (now : timestamptz) (st : statement) (s : db) : result db :=
  match st with
  | INSERT_auth_users NEW => insert_auth_user now NEW s
  | DELETE_auth_users w => delete_auth_users now w s
  | INSERT_profiles NEW => insert_profile j NEW s
  | UPDATE_profiles w f => update_profiles j now w f s
  | INSERT_tutorials NEW => insert_tutorial j NEW s
  | UPDATE_tutorials w f => update_tutorials j now w f s
  | DELETE_tutorials w => delete_tutorials j now w s
  | INSERT_tutorial_likes NEW => insert_tutorial_like j now NEW s
  | DELETE_tutorial_likes w => delete_tutorial_likes j now w s
  | INSERT_tutorial_comments NEW => insert_tutorial_comment j now NEW s
  | DELETE_tutorial_comments w => delete_tutorial_comments j now w s
  | INSERT_enrollments NEW => insert_enrollment j now NEW s
  | DELETE_enrollments w => delete_enrollments j now w s
  end.

(** The database after a statement: an aborted statement leaves it as it
    was. *)
Definition run (j : jwt) (now : timestamptz) (st : statement) (s : db) : db :=
  match exec j now st s with
  | Ok s' => s'
  | Err _ => s
  end.

Definition run_all (stmts : list (jwt * timestamptz * statement)) (s : db) : db :=
  fold_left (fun acc '(j, now, st) => run j now st acc) stmts s.

(* ================================================================= *)
(** ** The counter step, in the specification's words

    "On child-row creation, increment the parent's counter by 1; on
    child-row deletion, decrement by 1, clamped at a floor of 0",
    parametrized by the counter field; the child table only says which
    tutorial the row belongs to. *)

Inductive counter_field : Type := likes | comments | enrollments_.

Definition get_counter (f : counter_field) (t : Tutorials.row) : Z :=
  match f with
  | likes => Tutorials.likes_count t
  | comments => Tutorials.comments_count t
  | enrollments_ => Tutorials.enrollments_count t
  end.

Definition set_counter (f : counter_field) (c : Z) (t : Tutorials.row) : Tutorials.row :=
  match f with
  | likes => Tutorials.set_likes_count c t
  | comments => Tutorials.set_comments_count c t
  | enrollments_ => Tutorials.set_enrollments_count c t
  end.

Definition tg_map {R S : Type} (f : R -> S) (ev : trigger_event R) : trigger_event S :=
  match ev with
  | TG_INSERT NEW => TG_INSERT (f NEW)
  | TG_UPDATE OLD NEW => TG_UPDATE (f OLD) (f NEW)
  | TG_DELETE OLD => TG_DELETE (f OLD)
  end.

Definition counter_step (f : counter_field) (now : timestamptz)
    (ev : trigger_event uuid) (tuts : list Tutorials.row)
    : result (list Tutorials.row) :=
  match ev with
  | TG_INSERT tid =>
      definer_update_tutorials now
        (fun t => uuid_eqb (Tutorials.id t) tid)
        (fun t => c <- int4pl (get_counter f t) 1 ;; Ok (set_counter f c t))
        tuts
  | TG_DELETE tid =>
      definer_update_tutorials now
        (fun t => uuid_eqb (Tutorials.id t) tid)
        (fun t => c <- int4mi (get_counter f t) 1 ;;
                  Ok (set_counter f (GREATEST c 0) t))
        tuts
  | TG_UPDATE _ _ => Ok tuts
  end.

(** What one firing does to one tutorial row's counter. *)
Definition stepped (ev : trigger_event uuid) (t : Tutorials.row) (c : Z) : Z :=
  match ev with
  | TG_INSERT tid => if uuid_eqb (Tutorials.id t) tid then c + 1 else c
  | TG_DELETE tid => if uuid_eqb (Tutorials.id t) tid then Z.max (c - 1) 0 else c
  | TG_UPDATE _ _ => c
  end.

(** Everything of a tutorial row that a firing on field [f] leaves alone. *)
Definition frame (f : counter_field) (t t' : Tutorials.row) : Prop :=
  Tutorials.id t' = Tutorials.id t
  /\ Tutorials.user_id t' = Tutorials.user_id t
  /\ forall g, g <> f -> get_counter g t' = get_counter g t.

(* ================================================================= *)
(** ** Reachable states and the invariants *)

(** Statements that leave the counter columns to the triggers: an inserted
    tutorial names no counter, so each takes its DEFAULT 0 (the payload of
    [handleSubmit]), and an UPDATE of tutorials assigns neither the key nor a
    counter. *)
Definition leaves_counters (st : statement) : Prop :=
  match st with
  | INSERT_tutorials NEW =>
      forall f, get_counter f NEW = 0
  | UPDATE_tutorials _ set =>
      forall r, Tutorials.id (set r) = Tutorials.id r
                /\ forall f, get_counter f (set r) = get_counter f r
  | _ => True
  end.

Inductive reachable : db -> Prop :=
| reach_empty : reachable empty_db
| reach_exec (j : jwt) (now : timestamptz) (st : statement) (s s' : db) :
    reachable s -> leaves_counters st -> exec j now st s = Ok s' ->
    reachable s'.

(** Rows of a child table that reference tutorial [i]. *)
Definition count_refs (i : uuid) (tids : list uuid) : Z :=
  Z.of_nat (List.length (filter (uuid_eqb i) tids)).

Definition child_refs (f : counter_field) (s : db) : list uuid :=
  match f with
  | likes => map TutorialLikes.tutorial_id (tutorial_likes s)
  | comments => map TutorialComments.tutorial_id (tutorial_comments s)
  | enrollments_ => map Enrollments.tutorial_id (enrollments s)
  end.

Definition counters_consistent (s : db) : Prop :=
  forall t, In t (tutorials s) ->
  forall f, get_counter f t = count_refs (Tutorials.id t) (child_refs f s).

Definition counters_nonneg (s : db) : Prop :=
  forall t, In t (tutorials s) -> forall f, 0 <= get_counter f t.

(** Every child row references a tutorial that exists. *)
Definition children_have_parent (s : db) : Prop :=
  forall f i, In i (child_refs f s) -> In i (map Tutorials.id (tutorials s)).

Definition like_key (r : TutorialLikes.row) : uuid * uuid :=
  (TutorialLikes.tutorial_id r, TutorialLikes.user_id r).

Definition enrollment_key (r : Enrollments.row) : uuid * uuid :=
  (Enrollments.tutorial_id r, Enrollments.user_id r).

(** Accounts and profiles go together. *)
Definition one_profile_per_account (s : db) : Prop :=
  forall i, In i (map Profiles.id (profiles s)) <-> In i (map AuthUsers.id (auth_users s)).

Definition is_delete (st : statement) : bool :=
  match st with
  | DELETE_auth_users _ | DELETE_tutorials _ | DELETE_tutorial_likes _
  | DELETE_tutorial_comments _ | DELETE_enrollments _ => true
  | _ => false
  end.

(* ================================================================= *)
(** ** The CreateTutorial page

    Strings are JavaScript strings; [String.length] stands for [.length]. *)

Module CreateTutorial.

Inductive zod_issue : Type :=
| invalid_type (path message : string)
| too_small (path message : string)
| too_big (path message : string).

Definition issue_message (i : zod_issue) : string :=
  match i with
  | invalid_type _ m | too_small _ m | too_big _ m => m
  end.

Inductive string_check : Type :=
| zmin (n : nat) (message : string)
| zmax (n : nat) (message : string).

Definition run_check (path : string) (s : string) (c : string_check) : list zod_issue :=
  match c with
  | zmin n m => if (String.length s <? n)%nat then [too_small path m] else []
  | zmax n m => if (n <? String.length s)%nat then [too_big path m] else []
  end.

(** [z.string().min(..).max(..)]: a value that is not a string is one
    [invalid_type] issue; on a string every check runs. *)
Definition z_string (path : string) (checks : list string_check)
    (v : option string) : list zod_issue + string :=
  match v with
  | None => inl [invalid_type path "Expected string, received null"]
  | Some s =>
      match flat_map (run_check path s) checks with
      | [] => inr s
      | issues => inl issues
      end
  end.

Definition issues_of {A : Type} (r : list zod_issue + A) : list zod_issue :=
  match r with
  | inl l => l
  | inr _ => []
  end.

(** [data] as [handleSubmit] builds it; [formData.get] is null for a field
    the form does not carry. *)
Record form_data : Type := {
  data_title : option string;
  data_description : option string;
  data_category : string;
  data_difficulty : string;
  data_video_url : option string
}.

Record parsed : Type := {
  title : string;
  description : string;
  category : string;
  difficulty : string
}.

(** [tutorialSchema.parse(data)]: the issues of all four keys in the order
    of the schema, or the parsed object when there is none. *)
Definition tutorialSchema (d : form_data) : list zod_issue + parsed :=
  let t := z_string "title"
             [zmin 5 "Title must be at least 5 characters"; zmax 200 "Title too long"]
             (data_title d) in
  let ds := z_string "description"
              [zmin 20 "Description must be at least 20 characters";
               zmax 2000 "Description too long"]
              (data_description d) in
  let c := z_string "category" [zmin 1 "Please select a category"]
             (Some (data_category d)) in
  let f := z_string "difficulty" [zmin 1 "Please select a difficulty level"]
             (Some (data_difficulty d)) in
  match t, ds, c, f with
  | inr t', inr ds', inr c', inr f' =>
      inr {| title := t'; description := ds'; category := c'; difficulty := f' |}
  | _, _, _, _ => inl (issues_of t ++ issues_of ds ++ issues_of c ++ issues_of f)
  end.

Record file : Type := {
  file_name : string;
  file_size : Z
}.

(** The component state the two handlers read and write. *)
Record state : Type := {
  thumbnailFile : option file;
  st_category : string;
  st_difficulty : string
}.

Definition initial_state : state :=
  {| thumbnailFile := None; st_category := EmptyString; st_difficulty := EmptyString |}.

Record insert_payload : Type := {
  p_user_id : uuid;
  p_title : string;
  p_description : string;
  p_category : string;
  p_difficulty : string;
  p_video_url : option string;
  p_thumbnail_url : option string
}.

Inductive effect : Type :=
| toast_error (message : string)
| toast_success (message : string)
| console_error (message : string)
| storage_upload (bucket path : string) (f : file)
| tutorials_insert (p : insert_payload)
| navigate (to : string).

(** What the outside answers during one submission. *)
Record responses : Type := {
  Date_now : string;                  (* the text of Date.now() *)
  upload_publicUrl : option string;   (* None: the upload returned an error *)
  insert_error : bool
}.

(** [handleThumbnailChange] (lines 477-487); [None] is an empty selection. *)
Definition handleThumbnailChange (selected : option file) (st : state)
    : state * list effect :=
  match selected with
  | Some f =>
      if 5 * 1024 * 1024 <? file_size f
      then (st, [toast_error "Image must be less than 5MB"])
      else ({| thumbnailFile := Some f; st_category := st_category st;
               st_difficulty := st_difficulty st |}, [])
  | None => (st, [])
  end.

(** [file.name.split('.').pop()]. *)
Definition fileExt (f : file) : string :=
  last (string_to_array (file_name f) "."%char) EmptyString.

(** [uploadThumbnail] (lines 489-510): the effects and the returned URL. *)
Definition uploadThumbnail (user_id : uuid) (r : responses) (f : file)
    : list effect * option string :=
  let fileName :=
    String.append user_id
      (String.append "/" (String.append (Date_now r) (String.append "." (fileExt f)))) in
  let up := storage_upload "tutorial-media" fileName f in
  match upload_publicUrl r with
  | Some url => ([up], Some url)
  | None => ([up; console_error "Error uploading thumbnail:";
              toast_error "Failed to upload thumbnail"], None)
  end.

(** JavaScript truthiness of [string | null]. *)
Definition truthy (v : option string) : bool :=
  match v with
  | None | Some EmptyString => false
  | Some _ => true
  end.

(** The tail of [handleSubmit]: the insert and what follows it. *)
Definition insert_and_finish (user_id : uuid) (d : form_data) (p : parsed)
    (r : responses) (thumbnailUrl : option string) : list effect :=
  tutorials_insert
    {| p_user_id := user_id; p_title := title p; p_description := description p;
       p_category := category p; p_difficulty := difficulty p;
       p_video_url := data_video_url d; p_thumbnail_url := thumbnailUrl |}
  :: (if insert_error r
      then [console_error "Error creating tutorial:";
            toast_error "Failed to create tutorial"]
      else [toast_success "Tutorial created successfully!"; navigate "/dashboard"]).

(** [handleSubmit] (lines 512-566), as the effects it performs in order. *)
Definition handleSubmit (user_id : uuid) (form_title form_description form_video_url : option string)
    (r : responses) (st : state) : list effect :=
  let data :=
    {| data_title := form_title; data_description := form_description;
       data_category := st_category st; data_difficulty := st_difficulty st;
       data_video_url := if truthy form_video_url then form_video_url else None |} in
  match tutorialSchema data with
  | inl issues =>
      match issues with
      | first :: _ => [toast_error (issue_message first)]
      | [] => []
      end
  | inr p =>
      match thumbnailFile st with
      | Some f =>
          let '(effs, thumbnailUrl) := uploadThumbnail user_id r f in
          if truthy thumbnailUrl
          then effs ++ insert_and_finish user_id data p r thumbnailUrl
          else effs
      | None => insert_and_finish user_id data p r None
      end
  end.

(** What the user does on the page. *)
Inductive ui_event : Type :=
| pick_thumbnail (selected : option file)
| setCategory (v : string)
| setDifficulty (v : string)
| submit (form_title form_description form_video_url : option string) (r : responses).

Definition step (user_id : uuid) (st : state) (e : ui_event) : state * list effect :=
  match e with
  | pick_thumbnail sel => handleThumbnailChange sel st
  | setCategory v =>
      ({| thumbnailFile := thumbnailFile st; st_category := v;
          st_difficulty := st_difficulty st |}, [])
  | setDifficulty v =>
      ({| thumbnailFile := thumbnailFile st; st_category := st_category st;
          st_difficulty := v |}, [])
  | submit t ds v r => (st, handleSubmit user_id t ds v r st)
  end.

Fixpoint session (user_id : uuid) (st : state) (es : list ui_event) : list effect :=
  match es with
  | [] => []
  | e :: rest =>
      let '(st', effs) := step user_id st e in
      effs ++ session user_id st' rest
  end.

Definition is_insert (e : effect) : bool :=
  match e with
  | tutorials_insert _ => true
  | _ => false
  end.

Definition is_upload (e : effect) : bool :=
  match e with
  | storage_upload _ _ _ => true
  | _ => false
  end.

Definition upload_within_limit (e : effect) : Prop :=
  match e with
  | storage_upload _ _ f => file_size f <= 5 * 1024 * 1024
  | _ => True
  end.

(** The options of the two selects (lines 452-465). *)
Definition categories : list string :=
  ["programming"; "design"; "music"; "art"; "cooking";
   "photography"; "business"; "fitness"; "languages"; "other"].

Definition difficulties : list string := ["beginner"; "intermediate"; "advanced"].

End CreateTutorial.

(** ** A run of AFTER DELETE firings *)

Definition fire_deletes (f : counter_field) (now : timestamptz)
    (tids : list uuid) (tuts : list Tutorials.row) : result (list Tutorials.row) :=
  for_each_row (fun tid => counter_step f now (TG_DELETE tid)) tids tuts.

(** One row through a run of firings: its frame is kept, its counter stays
    non-negative, and if it counted the deleted rows [D] together with some
    [rest], it ends counting [rest]. *)
Definition through_deletes (f : counter_field) (D : list uuid)
    (t t' : Tutorials.row) : Prop :=
  frame f t t'
  /\ (0 <= get_counter f t -> 0 <= get_counter f t')
  /\ (get_counter f t <= int4_max -> get_counter f t' <= int4_max)
  /\ (forall rest,
        get_counter f t = count_refs (Tutorials.id t) (D ++ rest) ->
        get_counter f t' = count_refs (Tutorials.id t) rest).

(** ** Tactics for statements *)

Ltac inv_bind H :=
  match type of H with
  | bind ?c _ = Ok _ =>
      let a := fresh "a" in
      let E := fresh "Hstep" in
      destruct c as [a | ?] eqn:E; [cbn [bind] in H | discriminate H]
  end.

Ltac inv_check H :=
  match type of H with
  | (if ?b then _ else Err _) = Ok _ =>
      let E := fresh "Hchk" in destruct b eqn:E; [ | discriminate H ]
  end.

(** ** What a statement does to the tables *)

(** The tutorials table and the three lists of references, before and
    after a statement that succeeded. *)
Inductive counting_effect (now : timestamptz) (s s' : db) : Prop :=
| ce_none :
    tutorials s' = tutorials s ->
    (forall f, child_refs f s' = child_refs f s) ->
    counting_effect now s s'
| ce_new_tutorial (NEW : Tutorials.row) :
    tutorials s' = tutorials s ++ [NEW] ->
    ~ In (Tutorials.id NEW) (map Tutorials.id (tutorials s)) ->
    (forall f, get_counter f NEW = 0) ->
    (forall f, child_refs f s' = child_refs f s) ->
    counting_effect now s s'
| ce_update_tutorials :
    Forall2 (fun t t' => Tutorials.id t' = Tutorials.id t
                         /\ forall f, get_counter f t' = get_counter f t)
            (tutorials s) (tutorials s') ->
    (forall f, child_refs f s' = child_refs f s) ->
    counting_effect now s s'
| ce_child_insert (f : counter_field) (tid : uuid) :
    In tid (map Tutorials.id (tutorials s)) ->
    counter_step f now (TG_INSERT tid) (tutorials s) = Ok (tutorials s') ->
    child_refs f s' = child_refs f s ++ [tid] ->
    (forall g, g <> f -> child_refs g s' = child_refs g s) ->
    counting_effect now s s'
| ce_child_delete (f : counter_field) (D : list uuid) :
    fire_deletes f now D (tutorials s) = Ok (tutorials s') ->
    (forall i, count_refs i (child_refs f s)
               = count_refs i D + count_refs i (child_refs f s')) ->
    incl (child_refs f s') (child_refs f s) ->
    (forall g, g <> f -> child_refs g s' = child_refs g s) ->
    counting_effect now s s'
| ce_cascade (hit : Tutorials.row -> bool) (D : counter_field -> list uuid)
    (t1 t2 : list Tutorials.row) :
    fire_deletes likes now (D likes)
      (filter (fun r => negb (hit r)) (tutorials s)) = Ok t1 ->
    fire_deletes comments now (D comments) t1 = Ok t2 ->
    fire_deletes enrollments_ now (D enrollments_) t2 = Ok (tutorials s') ->
    (forall f i, count_refs i (child_refs f s)
                 = count_refs i (D f) + count_refs i (child_refs f s')) ->
    (forall f, incl (child_refs f s') (child_refs f s)) ->
    (forall f t, In t (tutorials s) -> hit t = true ->
                 ~ In (Tutorials.id t) (child_refs f s')) ->
    counting_effect now s s'.

(** A table after a statement: some rows filtered out, or one row added
    whose key [key] was not there. *)
Definition filtered_or_added {R K : Type} (key : R -> K) (rows rows' : list R) : Prop :=
  (exists p, rows' = filter p rows)
  \/ (exists NEW, rows' = rows ++ [NEW] /\ ~ In (key NEW) (map key rows)).

(** auth.users and profiles after a statement. *)
Inductive accounts_effect (st : statement) (s s' : db) : Prop :=
| ae_none :
    auth_users s' = auth_users s -> profiles s' = profiles s ->
    accounts_effect st s s'
| ae_account (NEW : AuthUsers.row) (p : Profiles.row) :
    st = INSERT_auth_users NEW ->
    ~ In (AuthUsers.id NEW) (map AuthUsers.id (auth_users s)) ->
    auth_users s' = auth_users s ++ [NEW] ->
    profiles s' = profiles s ++ [p] ->
    Profiles.id p = AuthUsers.id NEW ->
    accounts_effect st s s'
| ae_profile (NEW : Profiles.row) :
    auth_users s' = auth_users s ->
    profiles s' = profiles s ++ [NEW] ->
    ~ In (Profiles.id NEW) (map Profiles.id (profiles s)) ->
    In (Profiles.id NEW) (map AuthUsers.id (auth_users s)) ->
    accounts_effect st s s'
| ae_update :
    auth_users s' = auth_users s ->
    map Profiles.id (profiles s') = map Profiles.id (profiles s) ->
    accounts_effect st s s'
| ae_removed (where_ : AuthUsers.row -> bool) :
    auth_users s' = filter (fun u => negb (where_ u)) (auth_users s) ->
    profiles s'
    = filter (fun p => negb (mem_uuid (Profiles.id p)
                              (map AuthUsers.id (filter where_ (auth_users s)))))
             (profiles s) ->
    accounts_effect st s s'.

(** PRIMARY KEY of auth.users. *)
Definition account_ids_unique (s : db) : Prop :=
  NoDup (map AuthUsers.id (auth_users s)).

Definition counters_in_int4 (s : db) : Prop :=
  forall t, In t (tutorials s) -> forall f, get_counter f t <= int4_max.

Ltac other_field :=
  let g := fresh "g" in
  let Hg := fresh "Hg" in
  intros g Hg; destruct g; try reflexivity; congruence.

(** ** A small scenario

    Alice and Bob sign up, Alice publishes tutorial [x], Bob likes it and
    enrolls in it. *)

Definition caller (u : uuid) : jwt :=
  {| sub := Some u; role := Some "authenticated" |}.

Definition anon : jwt := {| sub := None; role := Some "anon" |}.

Definition alice : AuthUsers.row :=
  {| AuthUsers.id := "a";
     AuthUsers.raw_user_meta_data := Some [("full_name", JString "Alice")] |}.

Definition bob : AuthUsers.row :=
  {| AuthUsers.id := "b"; AuthUsers.raw_user_meta_data := None |}.

Definition tutorial_x : Tutorials.row :=
  {| Tutorials.id := "x"; Tutorials.user_id := "a";
     Tutorials.title := "Introduction to React Hooks";
     Tutorials.description := "State and effects in function components.";
     Tutorials.category := programming; Tutorials.difficulty := beginner;
     Tutorials.thumbnail_url := None; Tutorials.video_url := None;
     Tutorials.resources := Some "[]";
     Tutorials.likes_count := 0; Tutorials.comments_count := 0;
     Tutorials.enrollments_count := 0;
     Tutorials.created_at := 10; Tutorials.updated_at := 10 |}.

Definition like_b : TutorialLikes.row :=
  {| TutorialLikes.id := "l1"; TutorialLikes.tutorial_id := "x";
     TutorialLikes.user_id := "b"; TutorialLikes.created_at := 20 |}.

Definition enrollment_b : Enrollments.row :=
  {| Enrollments.id := "e1"; Enrollments.tutorial_id := "x";
     Enrollments.user_id := "b"; Enrollments.enrolled_at := 30 |}.

Definition scenario : list (jwt * timestamptz * statement) :=
  [ (anon, 1, INSERT_auth_users alice);
    (anon, 2, INSERT_auth_users bob);
    (caller "a", 10, INSERT_tutorials tutorial_x);
    (caller "b", 20, INSERT_tutorial_likes like_b);
    (caller "b", 30, INSERT_enrollments enrollment_b) ].

Definition scenario_db : db := run_all scenario empty_db.

(** Tutorial [x] as it stands in [scenario_db]. *)
Definition tutorial_x_now : Tutorials.row :=
  Tutorials.set_updated_at 30
    (Tutorials.set_enrollments_count 1
       (Tutorials.set_likes_count 1 tutorial_x)).

(** Bob withdraws his like, then repeats the request. *)
Definition bobs_like (r : TutorialLikes.row) : bool :=
  uuid_eqb (TutorialLikes.tutorial_id r) "x" && uuid_eqb (TutorialLikes.user_id r) "b".

Definition unlike_twice : list (jwt * timestamptz * statement) :=
  [ (caller "b", 40, DELETE_tutorial_likes bobs_like);
    (caller "b", 41, DELETE_tutorial_likes bobs_like) ].

Definition tutorial_x_unliked : Tutorials.row :=
  Tutorials.set_updated_at 40
    (Tutorials.set_enrollments_count 1 tutorial_x).

(** Rows of a child table held by user [u] on tutorial [T]. *)
Definition likes_of (T u : uuid) (s : db) : list TutorialLikes.row :=
  filter (fun r => uuid_eqb (TutorialLikes.tutorial_id r) T
                   && uuid_eqb (TutorialLikes.user_id r) u)
         (tutorial_likes s).

Definition enrollments_of (T u : uuid) (s : db) : list Enrollments.row :=
  filter (fun r => uuid_eqb (Enrollments.tutorial_id r) T
                   && uuid_eqb (Enrollments.user_id r) u)
         (enrollments s).

(** Bob asks to enroll in [x] a second time. *)
Definition enrollment_b_again : Enrollments.row :=
  {| Enrollments.id := "e2"; Enrollments.tutorial_id := "x";
     Enrollments.user_id := "b"; Enrollments.enrolled_at := 50 |}.

Definition like_b_again : TutorialLikes.row :=
  {| TutorialLikes.id := "l2"; TutorialLikes.tutorial_id := "x";
     TutorialLikes.user_id := "b"; TutorialLikes.created_at := 50 |}.

(** PRIMARY KEY of tutorials. *)
Definition tutorial_ids_unique (s : db) : Prop :=
  NoDup (map Tutorials.id (tutorials s)).

(** DELETE FROM tutorials WHERE id = T, as the dashboard sends it. *)
Definition id_is (T : uuid) (r : Tutorials.row) : bool :=
  uuid_eqb (Tutorials.id r) T.

(** The profile row [handle_new_user] writes for account [NEW]. *)
Definition bootstrap_profile (now : timestamptz) (NEW : AuthUsers.row) : Profiles.row :=
  {| Profiles.id := AuthUsers.id NEW;
     Profiles.full_name :=
       match jsonb_get_text (AuthUsers.raw_user_meta_data NEW) "full_name" with
       | Some m => m
       | None => "New User"
       end;
     Profiles.bio := None;
     Profiles.avatar_url := None;
     Profiles.created_at := now;
     Profiles.updated_at := now |}.

Definition carol : AuthUsers.row :=
  {| AuthUsers.id := "c"; AuthUsers.raw_user_meta_data := Some [("plan", JString "free")] |}.

(** A profile row Bob sends for himself, and one he sends for Alice. *)
Definition bobs_own_profile : Profiles.row :=
  {| Profiles.id := "b"; Profiles.full_name := "Bob"; Profiles.bio := None;
     Profiles.avatar_url := None; Profiles.created_at := 70; Profiles.updated_at := 70 |}.

(** A database in which account [c] exists and has no profile: one whose
    account is older than the trigger [on_auth_user_created]. *)
Definition db_with_bare_account : db :=
  {| auth_users := [carol]; profiles := []; tutorials := [];
     tutorial_likes := []; tutorial_comments := []; enrollments := [] |}.

Definition carols_own_profile : Profiles.row :=
  {| Profiles.id := "c"; Profiles.full_name := "Carol"; Profiles.bio := None;
     Profiles.avatar_url := None; Profiles.created_at := 70; Profiles.updated_at := 70 |}.

Fixpoint has_char (c : ascii) (s : string) : bool :=
  match s with
  | EmptyString => false
  | String a rest => Ascii.eqb a c || has_char c rest
  end.

(** An object in Alice's folder of the bucket. *)
Definition alices_object : StorageObjects.row :=
  {| StorageObjects.bucket_id := "tutorial-media";
     StorageObjects.name := "a/1700000000000.png" |}.

(** Alice retitles [x] and sends an [updated_at] of her own. *)
Definition retitle (r : Tutorials.row) : Tutorials.row :=
  {| Tutorials.id := Tutorials.id r; Tutorials.user_id := Tutorials.user_id r;
     Tutorials.title := "React Hooks from scratch";
     Tutorials.description := Tutorials.description r;
     Tutorials.category := Tutorials.category r;
     Tutorials.difficulty := Tutorials.difficulty r;
     Tutorials.thumbnail_url := Tutorials.thumbnail_url r;
     Tutorials.video_url := Tutorials.video_url r;
     Tutorials.resources := Tutorials.resources r;
     Tutorials.likes_count := Tutorials.likes_count r;
     Tutorials.comments_count := Tutorials.comments_count r;
     Tutorials.enrollments_count := Tutorials.enrollments_count r;
     Tutorials.created_at := Tutorials.created_at r;
     Tutorials.updated_at := 0 |}.

(** ** Inputs the form refuses *)

(** The bounds of [tutorialSchema], read off a submission: a missing or
    too short or too long title or description, or no category or difficulty
    chosen. *)
Definition out_of_bounds (form_title form_description : option string)
    (category difficulty : string) : Prop :=
  match form_title with
  | Some t => (String.length t < 5 \/ 200 < String.length t)%nat
  | None => True
  end
  \/ match form_description with
     | Some d => (String.length d < 20 \/ 2000 < String.length d)%nat
     | None => True
     end
  \/ category = EmptyString
  \/ difficulty = EmptyString.

Definition big_file : CreateTutorial.file :=
  {| CreateTutorial.file_name := "cover.png";
     CreateTutorial.file_size := 5 * 1024 * 1024 + 1 |}.

Definition no_answer : CreateTutorial.responses :=
  {| CreateTutorial.Date_now := "1700000000000";
     CreateTutorial.upload_publicUrl := Some "https://cdn/a/1700000000000.png";
     CreateTutorial.insert_error := false |}.

(** An UPDATE that would make [u] the owner. *)
Definition give_to (u : uuid) (r : Tutorials.row) : Tutorials.row :=
  {| Tutorials.id := Tutorials.id r; Tutorials.user_id := u;
     Tutorials.title := Tutorials.title r;
     Tutorials.description := Tutorials.description r;
     Tutorials.category := Tutorials.category r;
     Tutorials.difficulty := Tutorials.difficulty r;
     Tutorials.thumbnail_url := Tutorials.thumbnail_url r;
     Tutorials.video_url := Tutorials.video_url r;
     Tutorials.resources := Tutorials.resources r;
     Tutorials.likes_count := Tutorials.likes_count r;
     Tutorials.comments_count := Tutorials.comments_count r;
     Tutorials.enrollments_count := Tutorials.enrollments_count r;
     Tutorials.created_at := Tutorials.created_at r;
     Tutorials.updated_at := Tutorials.updated_at r |}.

(** The WHERE clause [tutorial_id = T AND user_id = u] of the page's
    DELETE requests. *)
Definition like_of_pair (T u : uuid) (r : TutorialLikes.row) : bool :=
  uuid_eqb (TutorialLikes.tutorial_id r) T && uuid_eqb (TutorialLikes.user_id r) u.

Definition enrollment_of_pair (T u : uuid) (r : Enrollments.row) : bool :=
  uuid_eqb (Enrollments.tutorial_id r) T && uuid_eqb (Enrollments.user_id r) u.

(** The tutorials table after a like (or enrollment) on [T] was made and
    withdrawn at [now]: the row of [T] has been touched, nothing else. *)
Definition touched (T : uuid) (now : timestamptz) (tuts : list Tutorials.row)
    : list Tutorials.row :=
  map (fun t => if uuid_eqb (Tutorials.id t) T
                then Tutorials.set_updated_at now t else t)
      tuts.

(** The scenario just before and just after Bob's like. *)
Definition before_like : db := run_all (firstn 3 scenario) empty_db.
Definition after_like : db := run_all (firstn 4 scenario) empty_db.

(** A comment by Bob on [x], and a second one. *)
Definition comment_b (i : uuid) (text : string) : TutorialComments.row :=
  {| TutorialComments.id := i; TutorialComments.tutorial_id := "x";
     TutorialComments.user_id := "b"; TutorialComments.content := text;
     TutorialComments.created_at := 45 |}.

Definition like_a : TutorialLikes.row :=
  {| TutorialLikes.id := "l3"; TutorialLikes.tutorial_id := "x";
     TutorialLikes.user_id := "a"; TutorialLikes.created_at := 50 |}.

(** Every [user_id] is the id of a profile: the foreign keys to
    profiles(id). *)
Definition users_have_profile (s : db) : Prop :=
  (forall t, In t (tutorials s) ->
     In (Tutorials.user_id t) (map Profiles.id (profiles s)))
  /\ (forall r, In r (tutorial_likes s) ->
     In (TutorialLikes.user_id r) (map Profiles.id (profiles s)))
  /\ (forall r, In r (tutorial_comments s) ->
     In (TutorialComments.user_id r) (map Profiles.id (profiles s)))
  /\ (forall r, In r (enrollments s) ->
     In (Enrollments.user_id r) (map Profiles.id (profiles s))).

(** DELETE FROM auth.users WHERE id = u. *)
Definition account_is (u : uuid) (r : AuthUsers.row) : bool :=
  uuid_eqb (AuthUsers.id r) u.

(* ================================================================= *)
(** ** The TutorialDetail page: the like and enrollment buttons

    [checkLikeStatus], [checkEnrollmentStatus], [handleLike] and
    [handleEnroll] of src/unnamed/part_001 (lines 85-189), run against the
    database above.  [id] is the route parameter and [user] the signed-in
    user of the auth context, if there is one; requests of a signed-in user
    carry that user's token. *)

Module TutorialDetail.

Record state : Type := {
  isLiked : bool;
  isEnrolled : bool
}.

Inductive effect : Type :=
| toast_error (message : string)
| toast_success (message : string)
| console_error (message : string)
| navigate (to : string)
| fetchTutorial.

(** What the server draws for one request: [gen_random_uuid()] for the id
    of an inserted row, and [NOW()]. *)
Record server : Type := {
  gen_random_uuid : uuid;
  NOW : timestamptz
}.

(** [.maybeSingle()]: null for no row, the row when there is one, an error
    when there are more. *)
Definition maybeSingle {A : Type} (rows : list A) : option (option A) :=
  match rows with
  | [] => Some None
  | [r] => Some (Some r)
  | _ => None
  end.

(** [!!data]. *)
Definition not_not {A : Type} (data : option A) : bool :=
  match data with
  | Some _ => true
  | None => false
  end.

(** [checkLikeStatus] (lines 85-99): SELECT id FROM tutorial_likes WHERE
    tutorial_id = id AND user_id = user.id, under the SELECT policy. *)
Definition checkLikeStatus (user id : uuid) (s : db) (st : state)
    : state * list effect :=
  let rows :=
    filter (fun r => is_true (Likes_are_viewable_by_everyone (caller user) r)
                     && like_of_pair id user r)
           (tutorial_likes s) in
  match maybeSingle (map TutorialLikes.id rows) with
  | Some data => ({| isLiked := not_not data; isEnrolled := isEnrolled st |}, [])
  | None => (st, [console_error "Error checking like status:"])
  end.

(** [checkEnrollmentStatus] (lines 101-115). *)
Definition checkEnrollmentStatus (user id : uuid) (s : db) (st : state)
    : state * list effect :=
  let rows :=
    filter (fun r => is_true (Users_can_view_their_own_enrollments (caller user) r)
                     && enrollment_of_pair id user r)
           (enrollments s) in
  match maybeSingle (map Enrollments.id rows) with
  | Some data => ({| isLiked := isLiked st; isEnrolled := not_not data |}, [])
  | None => (st, [console_error "Error checking enrollment:"])
  end.

(** [handleLike] (lines 117-152): the new component state, the database
    after the request, and the effects in order. *)
Definition handleLike (user : option uuid) (id : uuid) (srv : server)
    (st : state) (s : db) : state * db * list effect :=
  match user with
  | None => (st, s, [toast_error "Please sign in to like tutorials"; navigate "/auth"])
  | Some u =>
      let failed := (st, s, [console_error "Error toggling like:";
                             toast_error "Failed to update like status"]) in
      if isLiked st then
        match delete_tutorial_likes (caller u) (NOW srv) (like_of_pair id u) s with
        | Ok s' => ({| isLiked := false; isEnrolled := isEnrolled st |}, s',
                    [toast_success "Removed from favorites"; fetchTutorial])
        | Err _ => failed
        end
      else
        match insert_tutorial_like (caller u) (NOW srv)
                {| TutorialLikes.id := gen_random_uuid srv;
                   TutorialLikes.tutorial_id := id;
                   TutorialLikes.user_id := u;
                   TutorialLikes.created_at := NOW srv |} s with
        | Ok s' => ({| isLiked := true; isEnrolled := isEnrolled st |}, s',
                    [toast_success "Added to favorites"; fetchTutorial])
        | Err _ => failed
        end
  end.

(** [handleEnroll] (lines 154-189). *)
Definition handleEnroll (user : option uuid) (id : uuid) (srv : server)
    (st : state) (s : db) : state * db * list effect :=
  match user with
  | None => (st, s, [toast_error "Please sign in to enroll"; navigate "/auth"])
  | Some u =>
      let failed := (st, s, [console_error "Error toggling enrollment:";
                             toast_error "Failed to update enrollment"]) in
      if isEnrolled st then
        match delete_enrollments (caller u) (NOW srv) (enrollment_of_pair id u) s with
        | Ok s' => ({| isLiked := isLiked st; isEnrolled := false |}, s',
                    [toast_success "Unenrolled from tutorial"; fetchTutorial])
        | Err _ => failed
        end
      else
        match insert_enrollment (caller u) (NOW srv)
                {| Enrollments.id := gen_random_uuid srv;
                   Enrollments.tutorial_id := id;
                   Enrollments.user_id := u;
                   Enrollments.enrolled_at := NOW srv |} s with
        | Ok s' => ({| isLiked := isLiked st; isEnrolled := true |}, s',
                    [toast_success "Enrolled successfully!"; fetchTutorial])
        | Err _ => failed
        end
  end.

End TutorialDetail.

(** The page as Bob opens it on [x], before any status check has answered. *)
Definition page_opened : TutorialDetail.state :=
  {| TutorialDetail.isLiked := false; TutorialDetail.isEnrolled := false |}.

Definition click_at (i : uuid) (now : timestamptz) : TutorialDetail.server :=
  {| TutorialDetail.gen_random_uuid := i; TutorialDetail.NOW := now |}.

(** A thumbnail within the limit, and a submission that chose it. *)
Definition cover : CreateTutorial.file :=
  {| CreateTutorial.file_name := "cover.final.png";
     CreateTutorial.file_size := 120000 |}.

Definition form_filled : CreateTutorial.state :=
  {| CreateTutorial.thumbnailFile := Some cover;
     CreateTutorial.st_category := "programming";
     CreateTutorial.st_difficulty := "beginner" |}.

Definition upload_refused : CreateTutorial.responses :=
  {| CreateTutorial.Date_now := "1700000000000";
     CreateTutorial.upload_publicUrl := None;
     CreateTutorial.insert_error := false |}.

(** ** Enum input

    The labels of the two enum types (migration lines 28-42).  A text sent
    for an enum column is cast to the value that carries it as label; any
    other text is refused (invalid_text_representation). *)

Definition difficulty_level_out (d : difficulty_level) : string :=
  match d with
  | beginner => "beginner"
  | intermediate => "intermediate"
  | advanced => "advanced"
  end.

Definition tutorial_category_out (c : tutorial_category) : string :=
  match c with
  | programming => "programming"
  | design => "design"
  | music => "music"
  | art => "art"
  | cooking => "cooking"
  | photography => "photography"
  | business => "business"
  | fitness => "fitness"
  | languages => "languages"
  | other => "other"
  end.

(** [enum_range]: the values in the order of CREATE TYPE. *)
Definition difficulty_level_range : list difficulty_level :=
  [beginner; intermediate; advanced].

Definition tutorial_category_range : list tutorial_category :=
  [programming; design; music; art; cooking;
   photography; business; fitness; languages; other].

Definition enum_in {E : Type} (out : E -> string) (range : list E) (text : string)
    : option E :=
  find (fun v => String.eqb (out v) text) range.

Definition difficulty_level_in : string -> option difficulty_level :=
  enum_in difficulty_level_out difficulty_level_range.

Definition tutorial_category_in : string -> option tutorial_category :=
  enum_in tutorial_category_out tutorial_category_range.

(** The user picks from the options the two selects offer. *)
Definition picks_an_option (e : CreateTutorial.ui_event) : Prop :=
  match e with
  | CreateTutorial.setCategory v => In v CreateTutorial.categories
  | CreateTutorial.setDifficulty v => In v CreateTutorial.difficulties
  | _ => True
  end.

(** What the selects can have put into the component state. *)
Definition selects_hold_options (st : CreateTutorial.state) : Prop :=
  (CreateTutorial.st_category st = EmptyString
   \/ In (CreateTutorial.st_category st) CreateTutorial.categories)
  /\ (CreateTutorial.st_difficulty st = EmptyString
      \/ In (CreateTutorial.st_difficulty st) CreateTutorial.difficulties).

Ltac simpl_tables :=
  cbn [auth_users profiles tutorials tutorial_likes tutorial_comments enrollments
       set_profiles set_tutorials].

(* ================================================================= *)
(** * Proofs *)

(** ** The result monad and keys *)

Lemma uuid_eqb_eq (a b : uuid) : uuid_eqb a b = true <-> a = b.
Proof. apply String.eqb_eq. Qed.

Lemma uuid_eqb_neq (a b : uuid) : uuid_eqb a b = false <-> a <> b.
Proof. apply String.eqb_neq. Qed.

Lemma uuid_eqb_refl (a : uuid) : uuid_eqb a a = true.
Proof. apply String.eqb_refl. Qed.

Lemma uuid_eqb_sym (a b : uuid) : uuid_eqb a b = uuid_eqb b a.
Proof. apply String.eqb_sym. Qed.

Lemma mem_uuid_In (i : uuid) (ids : list uuid) : mem_uuid i ids = true <-> In i ids.
Proof.
  unfold mem_uuid. rewrite existsb_exists. split.
  - intros (x & Hin & Heq). apply uuid_eqb_eq in Heq. now subst.
  - intros Hin. exists i. split; [assumption | apply uuid_eqb_refl].
Qed.

Lemma mem_uuid_not_In (i : uuid) (ids : list uuid) :
  mem_uuid i ids = false <-> ~ In i ids.
Proof.
  rewrite <- mem_uuid_In. destruct (mem_uuid i ids); split; intros; congruence.
Qed.

Lemma int4_ok (z c : Z) :
  int4 z = Ok c <-> c = z /\ int4_min <= z <= int4_max.
Proof.
  unfold int4.
  destruct (int4_min <=? z) eqn:E1; destruct (z <=? int4_max) eqn:E2; simpl;
    try apply Z.leb_le in E1; try apply Z.leb_le in E2;
    try apply Z.leb_gt in E1; try apply Z.leb_gt in E2;
    split; intros H; try discriminate; try (inversion H; subst; lia);
    try (destruct H; subst; reflexivity); try lia.
Qed.

(** ** Forall2 as the shape of an updated table *)

Lemma Forall2_In_r {A B : Type} (R : A -> B -> Prop) (l : list A) (l' : list B) :
  Forall2 R l l' -> forall b, In b l' -> exists a, In a l /\ R a b.
Proof.
  induction 1 as [ | a b l l' Hab _ IH]; simpl; intros x Hx; [contradiction | ].
  destruct Hx as [-> | Hx]; [exists a; auto | ].
  destruct (IH x Hx) as (a' & Ha' & HR). exists a'; auto.
Qed.

Lemma Forall2_trans {A : Type} (R S T : A -> A -> Prop) (l1 l2 l3 : list A) :
  (forall a b c, R a b -> S b c -> T a c) ->
  Forall2 R l1 l2 -> Forall2 S l2 l3 -> Forall2 T l1 l3.
Proof.
  intros HT H12. revert l3.
  induction H12 as [ | a b l1 l2 Hab _ IH]; intros l3 H23; inversion H23; subst;
    constructor; eauto.
Qed.

Lemma Forall2_refl_on {A : Type} (R : A -> A -> Prop) (l : list A) :
  (forall a, R a a) -> Forall2 R l l.
Proof. intros HR. induction l; constructor; auto. Qed.

Lemma Forall2_map_r {A B : Type} (R : A -> B -> Prop) (g : A -> B) (l : list A) :
  (forall a, In a l -> R a (g a)) -> Forall2 R l (map g l).
Proof.
  induction l as [ | a l IH]; simpl; intros H; constructor; auto.
Qed.

(** ** The trigger functions *)

Lemma definer_update_tutorials_spec now where_ set tuts tuts' :
  definer_update_tutorials now where_ set tuts = Ok tuts' ->
  Forall2 (fun OLD r =>
             if where_ OLD
             then exists NEW, set OLD = Ok NEW /\ r = update_updated_at_column now NEW
             else r = OLD)
          tuts tuts'.
Proof.
  revert tuts'. induction tuts as [ | OLD rest IH]; simpl; intros tuts' H.
  - inversion H. constructor.
  - inv_bind H. inv_bind H. inversion H; subst. constructor; [ | now apply IH].
    destruct (where_ OLD).
    + inv_bind Hstep. inversion Hstep; subst. eauto.
    + now inversion Hstep.
Qed.

Lemma definer_update_tutorials_total now where_ set tuts :
  (forall t, In t tuts -> where_ t = true -> exists NEW, set t = Ok NEW) ->
  exists tuts', definer_update_tutorials now where_ set tuts = Ok tuts'.
Proof.
  induction tuts as [ | OLD rest IH]; simpl; intros H; [eexists; reflexivity | ].
  destruct IH as (rest' & ->); [intros; apply H; auto | ].
  destruct (where_ OLD) eqn:E.
  - destruct (H OLD (or_introl eq_refl) E) as (NEW & ->). simpl. eexists; reflexivity.
  - simpl. eexists; reflexivity.
Qed.

Lemma get_set_counter f c t now :
  get_counter f (update_updated_at_column now (set_counter f c t)) = c.
Proof. destruct f; reflexivity. Qed.

Lemma frame_set_counter f c t now :
  frame f t (update_updated_at_column now (set_counter f c t)).
Proof.
  repeat split; try (destruct f; reflexivity).
  intros g Hg. destruct f, g; try reflexivity; congruence.
Qed.

Lemma frame_refl f t : frame f t t.
Proof. repeat split. Qed.

Lemma counter_step_spec f now ev tuts tuts' :
  counter_step f now ev tuts = Ok tuts' ->
  Forall2 (fun t t' => frame f t t'
                       /\ get_counter f t' = stepped ev t (get_counter f t))
          tuts tuts'.
Proof.
  destruct ev as [tid | o n | tid]; simpl; intros H.
  - apply definer_update_tutorials_spec in H.
    eapply Forall2_impl; [ | exact H]. simpl. intros t t' Ht.
    destruct (uuid_eqb (Tutorials.id t) tid).
    + destruct Ht as (NEW & Hset & ->). inv_bind Hset. inversion Hset; subst.
      apply int4_ok in Hstep. destruct Hstep as [-> _].
      split; [apply frame_set_counter | apply get_set_counter].
    + subst. split; [apply frame_refl | reflexivity].
  - inversion H; subst. apply Forall2_refl_on. intros t.
    split; [apply frame_refl | reflexivity].
  - apply definer_update_tutorials_spec in H.
    eapply Forall2_impl; [ | exact H]. simpl. intros t t' Ht.
    destruct (uuid_eqb (Tutorials.id t) tid).
    + destruct Ht as (NEW & Hset & ->). inv_bind Hset. inversion Hset; subst.
      apply int4_ok in Hstep. destruct Hstep as [-> _].
      split; [apply frame_set_counter | apply get_set_counter].
    + subst. split; [apply frame_refl | reflexivity].
Qed.

Lemma likes_trigger_is_step now ev tuts :
  update_tutorial_likes_count now ev tuts
  = counter_step likes now (tg_map TutorialLikes.tutorial_id ev) tuts.
Proof. destruct ev; reflexivity. Qed.

Lemma comments_trigger_is_step now ev tuts :
  update_tutorial_comments_count now ev tuts
  = counter_step comments now (tg_map TutorialComments.tutorial_id ev) tuts.
Proof. destruct ev; reflexivity. Qed.

Lemma enrollments_trigger_is_step now ev tuts :
  update_tutorial_enrollments_count now ev tuts
  = counter_step enrollments_ now (tg_map Enrollments.tutorial_id ev) tuts.
Proof. destruct ev; reflexivity. Qed.

Lemma counter_step_insert_total f now tid tuts :
  (forall t, In t tuts -> int4_min <= get_counter f t + 1 <= int4_max) ->
  exists tuts', counter_step f now (TG_INSERT tid) tuts = Ok tuts'.
Proof.
  intros H. apply definer_update_tutorials_total. intros t Ht _.
  unfold int4pl.
  rewrite (proj2 (int4_ok (get_counter f t + 1) _) (conj eq_refl (H t Ht))).
  simpl. eexists; reflexivity.
Qed.

Lemma counter_step_delete_total f now tid tuts :
  (forall t, In t tuts -> int4_min <= get_counter f t - 1 <= int4_max) ->
  exists tuts', counter_step f now (TG_DELETE tid) tuts = Ok tuts'.
Proof.
  intros H. apply definer_update_tutorials_total. intros t Ht _.
  unfold int4mi.
  rewrite (proj2 (int4_ok (get_counter f t - 1) _) (conj eq_refl (H t Ht))).
  simpl. eexists; reflexivity.
Qed.

(** ** Counting references *)

Lemma count_refs_nil i : count_refs i [] = 0.
Proof. reflexivity. Qed.

Lemma count_refs_cons i a l :
  count_refs i (a :: l) = (if uuid_eqb i a then 1 else 0) + count_refs i l.
Proof.
  unfold count_refs. simpl. destruct (uuid_eqb i a); simpl List.length; lia.
Qed.

Lemma count_refs_app i l1 l2 :
  count_refs i (l1 ++ l2) = count_refs i l1 + count_refs i l2.
Proof.
  induction l1 as [ | a l1 IH]; [reflexivity | ].
  simpl app. rewrite !count_refs_cons, IH. lia.
Qed.

Lemma count_refs_nonneg i l : 0 <= count_refs i l.
Proof. unfold count_refs. lia. Qed.

Lemma count_refs_split {R : Type} (g : R -> uuid) (p : R -> bool) i (rows : list R) :
  count_refs i (map g rows)
  = count_refs i (map g (filter p rows))
    + count_refs i (map g (filter (fun r => negb (p r)) rows)).
Proof.
  induction rows as [ | r rows IH]; [reflexivity | ].
  simpl. destruct (p r); simpl; rewrite !count_refs_cons, IH; lia.
Qed.

Lemma count_refs_partition (p : uuid -> bool) i (l : list uuid) :
  count_refs i l
  = count_refs i (filter p l) + count_refs i (filter (fun x => negb (p x)) l).
Proof.
  pose proof (count_refs_split (fun x : uuid => x) p i l) as H.
  now rewrite !map_id in H.
Qed.

Lemma count_refs_zero i l : ~ In i l -> count_refs i l = 0.
Proof.
  induction l as [ | a l IH]; intros H; [reflexivity | ].
  rewrite count_refs_cons, IH by (intros Hin; apply H; now right).
  destruct (uuid_eqb i a) eqn:E; [ | reflexivity].
  apply uuid_eqb_eq in E. subst. exfalso. apply H. now left.
Qed.

Lemma map_filter_comm {R : Type} (g : R -> uuid) (p : uuid -> bool) (rows : list R) :
  map g (filter (fun r => p (g r)) rows) = filter p (map g rows).
Proof.
  induction rows as [ | r rows IH]; [reflexivity | ].
  simpl. destruct (p (g r)); simpl; now rewrite IH.
Qed.

(** ** Runs of firings *)

Lemma for_each_row_map {R S T : Type} (g : R -> S)
    (F : R -> T -> result T) (G : S -> T -> result T) :
  (forall r t, F r t = G (g r) t) ->
  forall rows t, for_each_row F rows t = for_each_row G (map g rows) t.
Proof.
  intros HFG. induction rows as [ | r rows IH]; intros t; [reflexivity | ].
  simpl. rewrite HFG. destruct (G (g r) t); simpl; auto.
Qed.

Lemma frame_trans f a b c : frame f a b -> frame f b c -> frame f a c.
Proof.
  intros (H1 & H2 & H3) (H4 & H5 & H6). repeat split; try congruence.
  intros g Hg. rewrite H6, H3; auto.
Qed.

Lemma fire_deletes_spec f now D tuts tuts' :
  fire_deletes f now D tuts = Ok tuts' ->
  Forall2 (through_deletes f D) tuts tuts'.
Proof.
  unfold fire_deletes. revert tuts tuts'.
  induction D as [ | tid D IH]; cbn [for_each_row]; intros tuts tuts' H.
  - inversion H; subst. apply Forall2_refl_on. intros t.
    repeat split; auto.
  - inv_bind H. apply counter_step_spec in Hstep. apply IH in H.
    eapply Forall2_trans; [ | exact Hstep | exact H].
    simpl. intros t t1 t2 (Hfr1 & Hget) (Hfr2 & Hnn & Hmax & Hcnt).
    assert (Hid : Tutorials.id t1 = Tutorials.id t) by apply Hfr1.
    unfold through_deletes.
    split; [eapply frame_trans; eauto | ].
    split; [intros Hge; apply Hnn; rewrite Hget;
            destruct (uuid_eqb (Tutorials.id t) tid); lia | ].
    split; [intros Hle; apply Hmax; rewrite Hget;
            destruct (uuid_eqb (Tutorials.id t) tid); unfold int4_max in *; lia | ].
    intros rest Hc. rewrite <- Hid. apply Hcnt. rewrite Hget, Hid, Hc.
    cbn [app stepped]. rewrite count_refs_cons.
    pose proof (count_refs_nonneg (Tutorials.id t) (D ++ rest)).
    destruct (uuid_eqb (Tutorials.id t) tid); lia.
Qed.

Lemma fire_deletes_total f now D tuts :
  (forall t, In t tuts -> 0 <= get_counter f t <= int4_max) ->
  exists tuts', fire_deletes f now D tuts = Ok tuts'.
Proof.
  unfold fire_deletes. revert tuts.
  induction D as [ | tid D IH]; cbn [for_each_row]; intros tuts H;
    [eexists; reflexivity | ].
  destruct (counter_step_delete_total f now tid tuts) as (t1 & E).
  { intros t Ht. specialize (H t Ht). unfold int4_min, int4_max in *. lia. }
  rewrite E. simpl. apply IH. intros t' Ht'.
  apply counter_step_spec in E.
  destruct (Forall2_In_r _ _ _ E t' Ht') as (t & Ht & _ & Hget).
  specialize (H t Ht). rewrite Hget. simpl.
  destruct (uuid_eqb (Tutorials.id t) tid); unfold int4_max in *; lia.
Qed.

(** ** What each statement does *)

Lemma filter_true {A : Type} (l : list A) : filter (fun _ => true) l = l.
Proof. induction l; simpl; congruence. Qed.

Lemma likes_delete_refs now rows tuts :
  for_each_row (fun OLD => update_tutorial_likes_count now (TG_DELETE OLD)) rows tuts
  = fire_deletes likes now (map TutorialLikes.tutorial_id rows) tuts.
Proof.
  apply for_each_row_map. intros r t. apply likes_trigger_is_step.
Qed.

Lemma comments_delete_refs now rows tuts :
  for_each_row (fun OLD => update_tutorial_comments_count now (TG_DELETE OLD)) rows tuts
  = fire_deletes comments now (map TutorialComments.tutorial_id rows) tuts.
Proof.
  apply for_each_row_map. intros r t. apply comments_trigger_is_step.
Qed.

Lemma enrollments_delete_refs now rows tuts :
  for_each_row (fun OLD => update_tutorial_enrollments_count now (TG_DELETE OLD)) rows tuts
  = fire_deletes enrollments_ now (map Enrollments.tutorial_id rows) tuts.
Proof.
  apply for_each_row_map. intros r t. apply enrollments_trigger_is_step.
Qed.

Lemma incl_map_filter {R : Type} (g : R -> uuid) (p : R -> bool) (rows : list R) :
  incl (map g (filter p rows)) (map g rows).
Proof.
  intros i Hi. apply in_map_iff in Hi. destruct Hi as (r & <- & Hr).
  apply filter_In in Hr. apply in_map. tauto.
Qed.


Lemma exec_counting_effect j now st s s' :
  leaves_counters st -> exec j now st s = Ok s' -> counting_effect now s s'.
Proof.
  intros Hlc H. destruct st; simpl in H.
  - (* auth.users *)
    unfold insert_auth_user, handle_new_user, insert_into_profiles in H.
    repeat inv_check H. inversion H; subst.
    apply ce_none; [reflexivity | intros []; reflexivity].
  - unfold delete_auth_users in H. cbv zeta in H.
    rewrite likes_delete_refs in H. inv_bind H.
    rewrite comments_delete_refs in H. inv_bind H.
    rewrite enrollments_delete_refs in H. inv_bind H.
    injection H as <-.
    match type of Hstep with
    | fire_deletes _ _ (map _ (filter ?dl _)) (filter (fun t => negb (@?dt t)) _) = _ =>
    match type of Hstep0 with
    | fire_deletes _ _ (map _ (filter ?dc _)) _ = _ =>
    match type of Hstep1 with
    | fire_deletes _ _ (map _ (filter ?de _)) _ = _ =>
        apply (ce_cascade _ _ _ dt
                 (fun f => match f with
                           | likes => map TutorialLikes.tutorial_id
                                        (filter dl (tutorial_likes s))
                           | comments => map TutorialComments.tutorial_id
                                           (filter dc (tutorial_comments s))
                           | enrollments_ => map Enrollments.tutorial_id
                                               (filter de (enrollments s))
                           end) a a0)
    end end end;
      [exact Hstep | exact Hstep0 | exact Hstep1 | | | ].
    + intros [] i; apply count_refs_split.
    + intros []; apply incl_map_filter.
    + intros f t Ht Hdead Hin.
      destruct f; cbn [child_refs tutorial_likes tutorial_comments enrollments] in Hin;
        apply in_map_iff in Hin; destruct Hin as (r & Hr & Hin);
        apply filter_In in Hin; destruct Hin as [_ Hlive];
        apply negb_true_iff, orb_false_iff in Hlive; destruct Hlive as [_ Hlive];
        apply mem_uuid_not_In in Hlive; apply Hlive; rewrite Hr;
        apply in_map; apply filter_In; split; assumption.
  - unfold insert_profile, insert_into_profiles in H.
    repeat inv_check H. inversion H; subst.
    apply ce_none; [reflexivity | intros []; reflexivity].
  - unfold update_profiles in H. repeat inv_check H. inversion H; subst.
    apply ce_none; [reflexivity | intros []; reflexivity].
  - unfold insert_tutorial in H. repeat inv_check H. inversion H; subst.
    apply (ce_new_tutorial _ _ _ NEW);
      [reflexivity | | exact Hlc | intros []; reflexivity].
    apply mem_uuid_not_In. now destruct (mem_uuid _ _).
  - unfold update_tutorials in H. repeat inv_check H. inversion H; subst.
    apply ce_update_tutorials; [ | intros []; reflexivity].
    simpl. apply Forall2_map_r. intros t _.
    destruct (_ && where_ t); [ | auto].
    destruct (Hlc t) as [Hid Hc]. split.
    + rewrite <- Hid. reflexivity.
    + intros f. rewrite <- Hc. destruct f; reflexivity.
  - unfold delete_tutorials in H.
    cbv zeta in H.
    set (hit := fun r => _ && where_ r) in H.
    set (gone := fun i => mem_uuid i (map Tutorials.id (filter hit (tutorials s)))).
    rewrite likes_delete_refs in H.
    rewrite (map_filter_comm TutorialLikes.tutorial_id gone) in H. inv_bind H.
    rewrite comments_delete_refs in H.
    rewrite (map_filter_comm TutorialComments.tutorial_id gone) in H. inv_bind H.
    rewrite enrollments_delete_refs in H.
    rewrite (map_filter_comm Enrollments.tutorial_id gone) in H. inv_bind H.
    injection H as <-.
    assert (Hrefs : forall f,
              child_refs f
                {| auth_users := auth_users s; profiles := profiles s; tutorials := a1;
                   tutorial_likes :=
                     filter (fun r => negb (gone (TutorialLikes.tutorial_id r)))
                            (tutorial_likes s);
                   tutorial_comments :=
                     filter (fun r => negb (gone (TutorialComments.tutorial_id r)))
                            (tutorial_comments s);
                   enrollments :=
                     filter (fun r => negb (gone (Enrollments.tutorial_id r)))
                            (enrollments s) |}
              = filter (fun i => negb (gone i)) (child_refs f s)).
    { intros []; simpl.
      - apply (map_filter_comm TutorialLikes.tutorial_id (fun i => negb (gone i))).
      - apply (map_filter_comm TutorialComments.tutorial_id (fun i => negb (gone i))).
      - apply (map_filter_comm Enrollments.tutorial_id (fun i => negb (gone i))). }
    apply (ce_cascade _ _ _ hit (fun f => filter gone (child_refs f s)) a a0);
      [exact Hstep | exact Hstep0 | exact Hstep1 | | | ].
    + intros f i. rewrite Hrefs. apply count_refs_partition.
    + intros f i Hi. rewrite Hrefs in Hi. apply filter_In in Hi. tauto.
    + intros f t Ht Hhit Hin. rewrite Hrefs in Hin. apply filter_In in Hin.
      destruct Hin as [_ Hlive]. apply negb_true_iff in Hlive.
      apply mem_uuid_not_In in Hlive. apply Hlive.
      apply in_map. apply filter_In. auto.
  - unfold insert_tutorial_like in H. repeat inv_check H.
    rewrite likes_trigger_is_step in H. inv_bind H. inversion H; subst.
    apply (ce_child_insert _ _ _ likes (TutorialLikes.tutorial_id NEW)); simpl; auto.
    + now apply mem_uuid_In.
    + now rewrite map_app.
    + other_field.
  - unfold delete_tutorial_likes in H. rewrite likes_delete_refs in H.
    inv_bind H. inversion H; subst.
    eapply (ce_child_delete _ _ _ likes); simpl; eauto.
    + intros i. apply count_refs_split.
    + apply incl_map_filter.
    + other_field.
  - unfold insert_tutorial_comment in H. repeat inv_check H.
    rewrite comments_trigger_is_step in H. inv_bind H. inversion H; subst.
    apply (ce_child_insert _ _ _ comments (TutorialComments.tutorial_id NEW)); simpl; auto.
    + now apply mem_uuid_In.
    + now rewrite map_app.
    + other_field.
  - unfold delete_tutorial_comments in H. rewrite comments_delete_refs in H.
    inv_bind H. inversion H; subst.
    eapply (ce_child_delete _ _ _ comments); simpl; eauto.
    + intros i. apply count_refs_split.
    + apply incl_map_filter.
    + other_field.
  - unfold insert_enrollment in H. repeat inv_check H.
    rewrite enrollments_trigger_is_step in H. inv_bind H. inversion H; subst.
    apply (ce_child_insert _ _ _ enrollments_ (Enrollments.tutorial_id NEW)); simpl; auto.
    + now apply mem_uuid_In.
    + now rewrite map_app.
    + other_field.
  - unfold delete_enrollments in H. rewrite enrollments_delete_refs in H.
    inv_bind H. inversion H; subst.
    eapply (ce_child_delete _ _ _ enrollments_); simpl; eauto.
    + intros i. apply count_refs_split.
    + apply incl_map_filter.
    + other_field.
Qed.

(** ** The invariants are kept *)

Lemma through_deletes_count f D t t' refs rest :
  through_deletes f D t t' ->
  (forall i, count_refs i refs = count_refs i D + count_refs i rest) ->
  get_counter f t = count_refs (Tutorials.id t) refs ->
  get_counter f t' = count_refs (Tutorials.id t') rest.
Proof.
  intros ((Hid & _) & _ & _ & Hcnt) Hsplit Hget.
  rewrite Hid. apply Hcnt. now rewrite count_refs_app, <- Hsplit.
Qed.

Lemma through_deletes_other f g D t t' :
  through_deletes f D t t' -> g <> f -> get_counter g t' = get_counter g t.
Proof. intros ((_ & _ & H) & _) Hg. now apply H. Qed.

Lemma through_deletes_id f D t t' :
  through_deletes f D t t' -> Tutorials.id t' = Tutorials.id t.
Proof. intros ((H & _) & _). exact H. Qed.

Lemma counter_field_eq_dec (f g : counter_field) : {f = g} + {f <> g}.
Proof. decide equality. Qed.

Lemma cascade_rows now D1 D2 D3 kept t1 t2 t3 :
  fire_deletes likes now D1 kept = Ok t1 ->
  fire_deletes comments now D2 t1 = Ok t2 ->
  fire_deletes enrollments_ now D3 t2 = Ok t3 ->
  Forall2 (fun t t' => exists a b,
             through_deletes likes D1 t a
             /\ through_deletes comments D2 a b
             /\ through_deletes enrollments_ D3 b t')
          kept t3.
Proof.
  intros H1 H2 H3.
  apply fire_deletes_spec in H1, H2, H3.
  eapply Forall2_trans; [ | | exact H3].
  2: { eapply Forall2_trans; [ | exact H1 | exact H2].
       intros a b c Hab Hbc. exact (ex_intro _ b (conj Hab Hbc)). }
  simpl. intros t b t' (a & Ha & Hb) Hc. exists a, b. auto.
Qed.

Lemma consistent_preserved now s s' :
  counting_effect now s s' ->
  children_have_parent s -> counters_consistent s -> counters_consistent s'.
Proof.
  intros Heff Hpar Hcons t' Ht' g.
  destruct Heff as [Htuts Hrefs | NEW Htuts Hfresh Hzero Hrefs | Hrows Hrefs
                   | f tid Hin Hstep Hf Hother | f D Hfire Hsplit Hincl Hother
                   | hit Dc t1 t2 H1 H2 H3 Hsplitc Hinclc Hlive].
  - rewrite Htuts in Ht'. rewrite Hrefs. now apply Hcons.
  - rewrite Htuts in Ht'. rewrite Hrefs. apply in_app_or in Ht'.
    destruct Ht' as [Ht' | [<- | []]]; [now apply Hcons | ].
    rewrite Hzero. symmetry. apply count_refs_zero.
    intros Hin. apply Hfresh. eapply Hpar; eauto.
  - destruct (Forall2_In_r _ _ _ Hrows t' Ht') as (t & Ht & Hid & Hc).
    rewrite Hrefs, Hid, Hc. now apply Hcons.
  - apply counter_step_spec in Hstep.
    destruct (Forall2_In_r _ _ _ Hstep t' Ht') as (t & Ht & (Hid & _ & Hfr) & Hget).
    destruct (counter_field_eq_dec g f) as [-> | Hg].
    + rewrite Hget, Hf, Hid, count_refs_app, count_refs_cons, count_refs_nil.
      rewrite (Hcons t Ht f). simpl.
      destruct (uuid_eqb (Tutorials.id t) tid); lia.
    + rewrite Hfr, Hother, Hid by assumption. now apply Hcons.
  - apply fire_deletes_spec in Hfire.
    destruct (Forall2_In_r _ _ _ Hfire t' Ht') as (t & Ht & Hthr).
    destruct (counter_field_eq_dec g f) as [-> | Hg].
    + eapply through_deletes_count; eauto.
    + rewrite (through_deletes_other _ _ _ _ _ Hthr Hg), Hother by assumption.
      rewrite (through_deletes_id _ _ _ _ Hthr). now apply Hcons.
  - pose proof (cascade_rows _ _ _ _ _ _ _ _ H1 H2 H3) as Hrows.
    destruct (Forall2_In_r _ _ _ Hrows t' Ht') as (t & Ht & a & b & Ha & Hb & Hc).
    apply filter_In in Ht. destruct Ht as [Ht _].
    pose proof (through_deletes_id _ _ _ _ Ha) as Ia.
    pose proof (through_deletes_id _ _ _ _ Hb) as Ib.
    pose proof (through_deletes_id _ _ _ _ Hc) as Ic.
    destruct g.
    + rewrite (through_deletes_other _ likes _ _ _ Hc) by discriminate.
      rewrite (through_deletes_other _ likes _ _ _ Hb) by discriminate.
      rewrite Ic, Ib.
      apply (through_deletes_count _ _ _ _ _ _ Ha (Hsplitc likes)).
      now apply Hcons.
    + rewrite (through_deletes_other _ comments _ _ _ Hc) by discriminate.
      rewrite Ic.
      apply (through_deletes_count _ _ _ _ _ _ Hb (Hsplitc comments)).
      rewrite (through_deletes_other _ comments _ _ _ Ha) by discriminate.
      rewrite Ia. now apply Hcons.
    + apply (through_deletes_count _ _ _ _ _ _ Hc (Hsplitc enrollments_)).
      rewrite (through_deletes_other _ enrollments_ _ _ _ Hb) by discriminate.
      rewrite (through_deletes_other _ enrollments_ _ _ _ Ha) by discriminate.
      rewrite Ib, Ia. now apply Hcons.
Qed.

Lemma Forall2_map_eq {A B : Type} (g : A -> B) (R : A -> A -> Prop) (l l' : list A) :
  Forall2 R l l' -> (forall a b, R a b -> g b = g a) -> map g l' = map g l.
Proof.
  intros H HR. induction H as [ | a b l l' Hab _ IH]; simpl; [reflexivity | ].
  now rewrite IH, (HR a b Hab).
Qed.

Lemma counter_step_ids f now ev tuts tuts' :
  counter_step f now ev tuts = Ok tuts' ->
  map Tutorials.id tuts' = map Tutorials.id tuts.
Proof.
  intros H. apply counter_step_spec in H.
  eapply Forall2_map_eq; [exact H | ]. now intros a b ((Hid & _) & _).
Qed.

Lemma fire_deletes_ids f now D tuts tuts' :
  fire_deletes f now D tuts = Ok tuts' ->
  map Tutorials.id tuts' = map Tutorials.id tuts.
Proof.
  intros H. apply fire_deletes_spec in H.
  eapply Forall2_map_eq; [exact H | ]. intros a b Hab.
  eapply through_deletes_id; eauto.
Qed.

Lemma counter_step_insert_in_int4 f now tid tuts tuts' :
  counter_step f now (TG_INSERT tid) tuts = Ok tuts' ->
  Forall2 (fun t t' => get_counter f t <= int4_max -> get_counter f t' <= int4_max)
          tuts tuts'.
Proof.
  intros H. apply definer_update_tutorials_spec in H.
  eapply Forall2_impl; [ | exact H]. simpl. intros t t' Ht Hle.
  destruct (uuid_eqb (Tutorials.id t) tid).
  - destruct Ht as (NEW & Hset & ->). inv_bind Hset. inversion Hset; subst.
    apply int4_ok in Hstep. rewrite get_set_counter. lia.
  - now subst.
Qed.

Lemma parent_preserved now s s' :
  counting_effect now s s' -> children_have_parent s -> children_have_parent s'.
Proof.
  intros Heff Hpar g i Hi.
  destruct Heff as [Htuts Hrefs | NEW Htuts Hfresh Hzero Hrefs | Hrows Hrefs
                   | f tid Hin Hstep Hf Hother | f D Hfire Hsplit Hincl Hother
                   | hit Dc t1 t2 H1 H2 H3 Hsplitc Hinclc Hlive].
  - rewrite Htuts. rewrite Hrefs in Hi. eauto.
  - rewrite Htuts, map_app. apply in_or_app. left. rewrite Hrefs in Hi. eauto.
  - rewrite (Forall2_map_eq Tutorials.id _ _ _ Hrows) by (now intros a b [H _]).
    rewrite Hrefs in Hi. eauto.
  - rewrite (counter_step_ids _ _ _ _ _ Hstep).
    destruct (counter_field_eq_dec g f) as [-> | Hg].
    + rewrite Hf in Hi. apply in_app_or in Hi.
      destruct Hi as [Hi | [<- | []]]; eauto.
    + rewrite Hother in Hi by assumption. eauto.
  - rewrite (fire_deletes_ids _ _ _ _ _ Hfire).
    destruct (counter_field_eq_dec g f) as [-> | Hg].
    + apply Hincl in Hi. eauto.
    + rewrite Hother in Hi by assumption. eauto.
  - rewrite (fire_deletes_ids _ _ _ _ _ H3), (fire_deletes_ids _ _ _ _ _ H2),
            (fire_deletes_ids _ _ _ _ _ H1).
    pose proof (Hpar g i (Hinclc g i Hi)) as Hin.
    apply in_map_iff in Hin. destruct Hin as (t & Hid & Ht).
    apply in_map_iff. exists t. split; [assumption | ].
    apply filter_In. split; [assumption | ].
    destruct (hit t) eqn:Ehit; [ | reflexivity].
    exfalso. apply (Hlive g t Ht Ehit). now rewrite Hid.
Qed.

Lemma nonneg_preserved now s s' :
  counting_effect now s s' -> counters_nonneg s -> counters_nonneg s'.
Proof.
  intros Heff Hnn t' Ht' g.
  destruct Heff as [Htuts Hrefs | NEW Htuts Hfresh Hzero Hrefs | Hrows Hrefs
                   | f tid Hin Hstep Hf Hother | f D Hfire Hsplit Hincl Hother
                   | hit Dc t1 t2 H1 H2 H3 Hsplitc Hinclc Hlive].
  - rewrite Htuts in Ht'. now apply Hnn.
  - rewrite Htuts in Ht'. apply in_app_or in Ht'.
    destruct Ht' as [Ht' | [<- | []]]; [now apply Hnn | rewrite Hzero; lia].
  - destruct (Forall2_In_r _ _ _ Hrows t' Ht') as (t & Ht & _ & Hc).
    rewrite Hc. now apply Hnn.
  - apply counter_step_spec in Hstep.
    destruct (Forall2_In_r _ _ _ Hstep t' Ht') as (t & Ht & (_ & _ & Hfr) & Hget).
    destruct (counter_field_eq_dec g f) as [-> | Hg].
    + rewrite Hget. simpl. specialize (Hnn t Ht f).
      destruct (uuid_eqb (Tutorials.id t) tid); lia.
    + rewrite Hfr by assumption. now apply Hnn.
  - apply fire_deletes_spec in Hfire.
    destruct (Forall2_In_r _ _ _ Hfire t' Ht') as (t & Ht & Hthr).
    destruct (counter_field_eq_dec g f) as [-> | Hg].
    + destruct Hthr as (_ & H0 & _). apply H0. now apply Hnn.
    + rewrite (through_deletes_other _ _ _ _ _ Hthr Hg). now apply Hnn.
  - pose proof (cascade_rows _ _ _ _ _ _ _ _ H1 H2 H3) as Hrows.
    destruct (Forall2_In_r _ _ _ Hrows t' Ht') as (t & Ht & a & b & Ha & Hb & Hc).
    apply filter_In in Ht. destruct Ht as [Ht _].
    pose proof (Hnn t Ht g) as H0.
    destruct g.
    + rewrite (through_deletes_other _ likes _ _ _ Hc) by discriminate.
      rewrite (through_deletes_other _ likes _ _ _ Hb) by discriminate.
      now apply Ha.
    + rewrite (through_deletes_other _ comments _ _ _ Hc) by discriminate.
      apply Hb. now rewrite (through_deletes_other _ comments _ _ _ Ha) by discriminate.
    + apply Hc.
      rewrite (through_deletes_other _ enrollments_ _ _ _ Hb) by discriminate.
      now rewrite (through_deletes_other _ enrollments_ _ _ _ Ha) by discriminate.
Qed.

Lemma in_int4_preserved now s s' :
  counting_effect now s s' -> counters_in_int4 s -> counters_in_int4 s'.
Proof.
  intros Heff Hmx t' Ht' g.
  destruct Heff as [Htuts Hrefs | NEW Htuts Hfresh Hzero Hrefs | Hrows Hrefs
                   | f tid Hin Hstep Hf Hother | f D Hfire Hsplit Hincl Hother
                   | hit Dc t1 t2 H1 H2 H3 Hsplitc Hinclc Hlive].
  - rewrite Htuts in Ht'. now apply Hmx.
  - rewrite Htuts in Ht'. apply in_app_or in Ht'.
    destruct Ht' as [Ht' | [<- | []]];
      [now apply Hmx | rewrite Hzero; unfold int4_max; lia].
  - destruct (Forall2_In_r _ _ _ Hrows t' Ht') as (t & Ht & _ & Hc).
    rewrite Hc. now apply Hmx.
  - pose proof (counter_step_insert_in_int4 _ _ _ _ _ Hstep) as Hle.
    apply counter_step_spec in Hstep.
    destruct (counter_field_eq_dec g f) as [-> | Hg].
    + destruct (Forall2_In_r _ _ _ Hle t' Ht') as (t & Ht & Himp).
      apply Himp. now apply Hmx.
    + destruct (Forall2_In_r _ _ _ Hstep t' Ht') as (t & Ht & (_ & _ & Hfr) & _).
      rewrite Hfr by assumption. now apply Hmx.
  - apply fire_deletes_spec in Hfire.
    destruct (Forall2_In_r _ _ _ Hfire t' Ht') as (t & Ht & Hthr).
    destruct (counter_field_eq_dec g f) as [-> | Hg].
    + destruct Hthr as (_ & _ & H0 & _). apply H0. now apply Hmx.
    + rewrite (through_deletes_other _ _ _ _ _ Hthr Hg). now apply Hmx.
  - pose proof (cascade_rows _ _ _ _ _ _ _ _ H1 H2 H3) as Hrows.
    destruct (Forall2_In_r _ _ _ Hrows t' Ht') as (t & Ht & a & b & Ha & Hb & Hc).
    apply filter_In in Ht. destruct Ht as [Ht _].
    pose proof (Hmx t Ht g) as H0.
    destruct g.
    + rewrite (through_deletes_other _ likes _ _ _ Hc) by discriminate.
      rewrite (through_deletes_other _ likes _ _ _ Hb) by discriminate.
      now apply Ha.
    + rewrite (through_deletes_other _ comments _ _ _ Hc) by discriminate.
      apply Hb. now rewrite (through_deletes_other _ comments _ _ _ Ha) by discriminate.
    + apply Hc.
      rewrite (through_deletes_other _ enrollments_ _ _ _ Hb) by discriminate.
      now rewrite (through_deletes_other _ enrollments_ _ _ _ Ha) by discriminate.
Qed.

(** ** Reachable states *)

Lemma empty_counting :
  children_have_parent empty_db /\ counters_consistent empty_db
  /\ counters_nonneg empty_db /\ counters_in_int4 empty_db.
Proof.
  split; [ | split; [ | split]].
  - intros f i Hi. destruct f; destruct Hi.
  - intros t [].
  - intros t [].
  - intros t [].
Qed.

Lemma reachable_counting s :
  reachable s ->
  children_have_parent s /\ counters_consistent s
  /\ counters_nonneg s /\ counters_in_int4 s.
Proof.
  induction 1 as [ | j now st s s' _ (Hpar & Hcons & Hnn & Hmx) Hlc Hexec];
    [exact empty_counting | ].
  pose proof (exec_counting_effect _ _ _ _ _ Hlc Hexec) as Heff.
  repeat split.
  - eapply parent_preserved; eauto.
  - eapply consistent_preserved; eauto.
  - eapply nonneg_preserved; eauto.
  - eapply in_int4_preserved; eauto.
Qed.

Lemma run_reachable j now st s :
  reachable s -> leaves_counters st -> reachable (run j now st s).
Proof.
  intros Hs Hlc. unfold run. destruct (exec j now st s) eqn:E; [ | assumption].
  eapply reach_exec; eauto.
Qed.

Lemma run_all_reachable stmts s :
  reachable s -> Forall (fun x => leaves_counters (snd x)) stmts ->
  reachable (run_all stmts s).
Proof.
  unfold run_all. revert s.
  induction stmts as [ | [[j now] st] stmts IH]; simpl; intros s Hs Hall;
    [assumption | ].
  inversion Hall; subst. apply IH; [ | assumption].
  now apply run_reachable.
Qed.

Lemma is_delete_leaves_counters st : is_delete st = true -> leaves_counters st.
Proof. destruct st; simpl; intros H; try discriminate; exact I. Qed.

Lemma scenario_reachable : reachable scenario_db.
Proof.
  apply run_all_reachable; [apply reach_empty | ].
  repeat constructor. intros []; reflexivity.
Qed.

Lemma scenario_tutorials : tutorials scenario_db = [tutorial_x_now].
Proof. reflexivity. Qed.

Lemma count_refs_rows {R : Type} (g : R -> uuid) (i : uuid) (rows : list R) :
  count_refs i (map g rows)
  = Z.of_nat (List.length (filter (fun r => uuid_eqb (g r) i) rows)).
Proof.
  unfold count_refs. f_equal.
  induction rows as [ | r rows IH]; [reflexivity | ].
  simpl. rewrite (uuid_eqb_sym i (g r)).
  destruct (uuid_eqb (g r) i); simpl; now rewrite IH.
Qed.

(** ** Counters *)

(** C1. In every state reachable from the empty database by account
    creation and removal, tutorial creation with default counters, updates
    that assign no counter, tutorial deletion, and insertion or deletion of
    likes, comments and enrollments, each tutorial's [likes_count],
    [comments_count] and [enrollments_count] is the number of rows of the
    child table that reference it. *)
Theorem counters_match_live_rows (s : db) (t : Tutorials.row) :
  reachable s -> In t (tutorials s) ->
  Tutorials.likes_count t
  = Z.of_nat (List.length
      (filter (fun r => uuid_eqb (TutorialLikes.tutorial_id r) (Tutorials.id t))
              (tutorial_likes s)))
  /\ Tutorials.comments_count t
     = Z.of_nat (List.length
         (filter (fun r => uuid_eqb (TutorialComments.tutorial_id r) (Tutorials.id t))
                 (tutorial_comments s)))
  /\ Tutorials.enrollments_count t
     = Z.of_nat (List.length
         (filter (fun r => uuid_eqb (Enrollments.tutorial_id r) (Tutorials.id t))
                 (enrollments s))).
Proof.
  intros Hs Ht. destruct (reachable_counting s Hs) as (_ & Hcons & _).
  pose proof (Hcons t Ht likes) as H1.
  pose proof (Hcons t Ht comments) as H2.
  pose proof (Hcons t Ht enrollments_) as H3.
  cbn [get_counter child_refs] in H1, H2, H3.
  rewrite count_refs_rows in H1. rewrite count_refs_rows in H2.
  rewrite count_refs_rows in H3. auto.
Qed.

Lemma counters_match_live_rows_witness :
  Tutorials.likes_count tutorial_x_now = 1
  /\ Tutorials.comments_count tutorial_x_now = 0
  /\ Tutorials.enrollments_count tutorial_x_now = 1.
Proof.
  exact (counters_match_live_rows scenario_db tutorial_x_now
           scenario_reachable (or_introl eq_refl)).
Defined.

(** C3. In every reachable state, and after any further sequence of
    delete statements run from it (whether or not a statement finds a row to
    delete), every counter of every tutorial is at least 0.  The same holds
    of the trigger alone: from non-negative counters, any run of AFTER DELETE
    firings that completes, in any order and however often repeated for the
    same tutorial, leaves every counter at least 0. *)
Theorem counters_never_negative :
  (forall (s : db) (stmts : list (jwt * timestamptz * statement)) (t : Tutorials.row),
      reachable s ->
      Forall (fun x => is_delete (snd x) = true) stmts ->
      In t (tutorials (run_all stmts s)) ->
      0 <= Tutorials.likes_count t
      /\ 0 <= Tutorials.comments_count t
      /\ 0 <= Tutorials.enrollments_count t)
  /\ (forall f now (tids : list uuid) tuts tuts',
      fire_deletes f now tids tuts = Ok tuts' ->
      (forall t, In t tuts -> forall g, 0 <= get_counter g t) ->
      forall t', In t' tuts' -> forall g, 0 <= get_counter g t').
Proof.
  split.
  - intros s stmts t Hs Hdel Ht.
    assert (Hr : reachable (run_all stmts s)).
    { apply run_all_reachable; [assumption | ].
      eapply Forall_impl; [ | exact Hdel].
      intros x Hx. now apply is_delete_leaves_counters. }
    destruct (reachable_counting _ Hr) as (_ & _ & Hnn & _).
    exact (conj (Hnn t Ht likes) (conj (Hnn t Ht comments) (Hnn t Ht enrollments_))).
  - intros f now tids tuts tuts' Hfire Hnn t' Ht' g.
    apply fire_deletes_spec in Hfire.
    destruct (Forall2_In_r _ _ _ Hfire t' Ht') as (t & Ht & Hthr).
    destruct (counter_field_eq_dec g f) as [-> | Hg].
    + destruct Hthr as (_ & H0 & _). apply H0. now apply Hnn.
    + rewrite (through_deletes_other _ _ _ _ _ Hthr Hg). now apply Hnn.
Qed.

Lemma counters_never_negative_witness :
  0 <= Tutorials.likes_count tutorial_x_unliked
  /\ 0 <= Tutorials.comments_count tutorial_x_unliked
  /\ 0 <= Tutorials.enrollments_count tutorial_x_unliked.
Proof.
  apply (proj1 counters_never_negative scenario_db unlike_twice tutorial_x_unliked).
  - exact scenario_reachable.
  - repeat constructor.
  - left. reflexivity.
Defined.

(** Three firings for one like: the counter stops at 0. *)
Example repeated_delete_firings_clamp :
  fire_deletes likes 40 ["x"; "x"; "x"]
    [Tutorials.set_likes_count 1 tutorial_x]
  = Ok [Tutorials.set_updated_at 40 tutorial_x].
Proof. reflexivity. Qed.

Lemma insert_like_steps j now NEW s s' :
  insert_tutorial_like j now NEW s = Ok s' ->
  counter_step likes now (TG_INSERT (TutorialLikes.tutorial_id NEW)) (tutorials s)
  = Ok (tutorials s').
Proof.
  unfold insert_tutorial_like. intros H. repeat inv_check H.
  rewrite likes_trigger_is_step in H. inv_bind H. now inversion H.
Qed.

Lemma insert_comment_steps j now NEW s s' :
  insert_tutorial_comment j now NEW s = Ok s' ->
  counter_step comments now (TG_INSERT (TutorialComments.tutorial_id NEW)) (tutorials s)
  = Ok (tutorials s').
Proof.
  unfold insert_tutorial_comment. intros H. repeat inv_check H.
  rewrite comments_trigger_is_step in H. inv_bind H. now inversion H.
Qed.

Lemma insert_enrollment_steps j now NEW s s' :
  insert_enrollment j now NEW s = Ok s' ->
  counter_step enrollments_ now (TG_INSERT (Enrollments.tutorial_id NEW)) (tutorials s)
  = Ok (tutorials s').
Proof.
  unfold insert_enrollment. intros H. repeat inv_check H.
  rewrite enrollments_trigger_is_step in H. inv_bind H. now inversion H.
Qed.

(** C2. The three trigger functions are one step function, parametrized by
    the counter field and told only which tutorial the child row references.
    A firing for an inserted row adds exactly 1 to that field of the
    referenced tutorial; a firing for a deleted row sets it to
    [max (counter - 1) 0]; every other tutorial, the other counters, and the
    row's id and owner are left as they were.  A successful INSERT statement
    on a child table is one such firing, and a firing succeeds whenever the
    result fits INTEGER. *)
Theorem child_events_step_the_counter :
  (forall now ev tuts,
      update_tutorial_likes_count now ev tuts
      = counter_step likes now (tg_map TutorialLikes.tutorial_id ev) tuts)
  /\ (forall now ev tuts,
      update_tutorial_comments_count now ev tuts
      = counter_step comments now (tg_map TutorialComments.tutorial_id ev) tuts)
  /\ (forall now ev tuts,
      update_tutorial_enrollments_count now ev tuts
      = counter_step enrollments_ now (tg_map Enrollments.tutorial_id ev) tuts)
  /\ (forall f now tid tuts tuts',
      counter_step f now (TG_INSERT tid) tuts = Ok tuts' ->
      Forall2 (fun t t' =>
                 frame f t t'
                 /\ get_counter f t'
                    = if uuid_eqb (Tutorials.id t) tid
                      then get_counter f t + 1 else get_counter f t)
              tuts tuts')
  /\ (forall f now tid tuts tuts',
      counter_step f now (TG_DELETE tid) tuts = Ok tuts' ->
      Forall2 (fun t t' =>
                 frame f t t'
                 /\ get_counter f t'
                    = if uuid_eqb (Tutorials.id t) tid
                      then Z.max (get_counter f t - 1) 0 else get_counter f t)
              tuts tuts')
  /\ (forall j now s s',
      (forall NEW, insert_tutorial_like j now NEW s = Ok s' ->
         counter_step likes now (TG_INSERT (TutorialLikes.tutorial_id NEW))
           (tutorials s) = Ok (tutorials s'))
      /\ (forall NEW, insert_tutorial_comment j now NEW s = Ok s' ->
         counter_step comments now (TG_INSERT (TutorialComments.tutorial_id NEW))
           (tutorials s) = Ok (tutorials s'))
      /\ (forall NEW, insert_enrollment j now NEW s = Ok s' ->
         counter_step enrollments_ now (TG_INSERT (Enrollments.tutorial_id NEW))
           (tutorials s) = Ok (tutorials s')))
  /\ (forall f now tid tuts,
      (forall t, In t tuts -> 0 <= get_counter f t < int4_max) ->
      (exists tuts', counter_step f now (TG_INSERT tid) tuts = Ok tuts')
      /\ (exists tuts', counter_step f now (TG_DELETE tid) tuts = Ok tuts')).
Proof.
  split; [exact likes_trigger_is_step | ].
  split; [exact comments_trigger_is_step | ].
  split; [exact enrollments_trigger_is_step | ].
  split; [intros f now tid tuts tuts' H; exact (counter_step_spec _ _ _ _ _ H) | ].
  split; [intros f now tid tuts tuts' H; exact (counter_step_spec _ _ _ _ _ H) | ].
  split.
  - intros j now s s'. split; [ | split]; intros NEW H.
    + eapply insert_like_steps; eauto.
    + eapply insert_comment_steps; eauto.
    + eapply insert_enrollment_steps; eauto.
  - intros f now tid tuts H. split.
    + apply counter_step_insert_total. intros t Ht. specialize (H t Ht).
      unfold int4_min, int4_max in *. lia.
    + apply counter_step_delete_total. intros t Ht. specialize (H t Ht).
      unfold int4_min, int4_max in *. lia.
Qed.

Lemma child_events_step_the_counter_witness :
  Forall2 (fun t t' =>
             frame likes t t'
             /\ get_counter likes t'
                = if uuid_eqb (Tutorials.id t) "x"
                  then get_counter likes t + 1 else get_counter likes t)
          [tutorial_x]
          [Tutorials.set_updated_at 20 (Tutorials.set_likes_count 1 tutorial_x)].
Proof.
  exact (proj1 (proj2 (proj2 (proj2 child_events_step_the_counter)))
           likes 20 "x" [tutorial_x]
           [Tutorials.set_updated_at 20 (Tutorials.set_likes_count 1 tutorial_x)]
           eq_refl).
Defined.

(** ** Uniqueness of (tutorial, user) pairs *)

Lemma pair_absent {R : Type} (g1 g2 : R -> uuid) (T u : uuid) (rows : list R) :
  existsb (fun r => uuid_eqb (g1 r) T && uuid_eqb (g2 r) u) rows = false <->
  ~ In (T, u) (map (fun r => (g1 r, g2 r)) rows).
Proof.
  induction rows as [ | r rows IH]; simpl; [tauto | ].
  rewrite orb_false_iff, IH. split.
  - intros [Hr Hrest] [Heq | Hin]; [ | tauto].
    inversion Heq; subst. now rewrite !uuid_eqb_refl in Hr.
  - intros H. split; [ | tauto].
    destruct (uuid_eqb (g1 r) T) eqn:E1; [ | reflexivity].
    destruct (uuid_eqb (g2 r) u) eqn:E2; [ | reflexivity].
    apply uuid_eqb_eq in E1, E2. subst. exfalso. apply H. now left.
Qed.

Lemma NoDup_map_filter {R K : Type} (key : R -> K) (p : R -> bool) (rows : list R) :
  NoDup (map key rows) -> NoDup (map key (filter p rows)).
Proof.
  induction rows as [ | r rows IH]; simpl; intros H; [constructor | ].
  inversion H; subst. destruct (p r); simpl; [ | auto].
  constructor; [ | auto]. intros Hin. apply H2.
  apply in_map_iff in Hin. destruct Hin as (x & Hx & Hin).
  apply filter_In in Hin. rewrite <- Hx. apply in_map. tauto.
Qed.

Lemma NoDup_map_inj {A B : Type} (g : A -> B) (l : list A) (a b : A) :
  NoDup (map g l) -> In a l -> In b l -> g a = g b -> a = b.
Proof.
  induction l as [ | x l IH]; simpl; intros H Ha Hb Hg; [contradiction | ].
  inversion H; subst.
  destruct Ha as [-> | Ha], Hb as [-> | Hb]; auto.
  - exfalso. apply H2. rewrite Hg. now apply in_map.
  - exfalso. apply H2. rewrite <- Hg. now apply in_map.
Qed.

Lemma NoDup_map_snoc {R K : Type} (key : R -> K) (rows : list R) (NEW : R) :
  NoDup (map key rows) -> ~ In (key NEW) (map key rows) ->
  NoDup (map key (rows ++ [NEW])).
Proof.
  induction rows as [ | r rows IH]; simpl; intros H Hnew.
  - constructor; [tauto | constructor].
  - inversion H; subst. constructor.
    + rewrite map_app, in_app_iff. simpl. intros [Hin | [Heq | []]]; [tauto | ].
      apply Hnew. now left.
    + apply IH; [assumption | tauto].
Qed.

Lemma filtered_or_added_NoDup {R K : Type} (key : R -> K) (rows rows' : list R) :
  filtered_or_added key rows rows' -> NoDup (map key rows) -> NoDup (map key rows').
Proof.
  intros [(p & ->) | (NEW & -> & Hnew)] H.
  - now apply NoDup_map_filter.
  - now apply NoDup_map_snoc.
Qed.

Lemma unchanged_is_filtered {R K : Type} (key : R -> K) (rows : list R) :
  filtered_or_added key rows rows.
Proof. left. exists (fun _ => true). symmetry. apply filter_true. Qed.

Lemma exec_likes_effect j now st s s' :
  exec j now st s = Ok s' ->
  filtered_or_added like_key (tutorial_likes s) (tutorial_likes s').
Proof.
  intros H. destruct st; simpl in H.
  - unfold insert_auth_user, handle_new_user, insert_into_profiles in H.
    repeat inv_check H. inversion H; subst. apply unchanged_is_filtered.
  - unfold delete_auth_users in H. cbv zeta in H.
    inv_bind H. inv_bind H. inv_bind H. injection H as <-.
    left. eexists. reflexivity.
  - unfold insert_profile, insert_into_profiles in H.
    repeat inv_check H. inversion H; subst. apply unchanged_is_filtered.
  - unfold update_profiles in H. repeat inv_check H. inversion H; subst.
    apply unchanged_is_filtered.
  - unfold insert_tutorial in H. repeat inv_check H. inversion H; subst.
    apply unchanged_is_filtered.
  - unfold update_tutorials in H. repeat inv_check H. inversion H; subst.
    apply unchanged_is_filtered.
  - unfold delete_tutorials in H. cbv zeta in H.
    inv_bind H. inv_bind H. inv_bind H. inversion H; subst.
    left. eexists. reflexivity.
  - unfold insert_tutorial_like in H. repeat inv_check H.
    inv_bind H. inversion H; subst. right. exists NEW. split; [reflexivity | ].
    apply negb_true_iff in Hchk1.
    exact (proj1 (pair_absent TutorialLikes.tutorial_id TutorialLikes.user_id _ _ _) Hchk1).
  - unfold delete_tutorial_likes in H. inv_bind H. inversion H; subst.
    left. eexists. reflexivity.
  - unfold insert_tutorial_comment in H. repeat inv_check H.
    inv_bind H. inversion H; subst. apply unchanged_is_filtered.
  - unfold delete_tutorial_comments in H. inv_bind H. inversion H; subst.
    apply unchanged_is_filtered.
  - unfold insert_enrollment in H. repeat inv_check H.
    inv_bind H. inversion H; subst. apply unchanged_is_filtered.
  - unfold delete_enrollments in H. inv_bind H. inversion H; subst.
    apply unchanged_is_filtered.
Qed.

Lemma exec_enrollments_effect j now st s s' :
  exec j now st s = Ok s' ->
  filtered_or_added enrollment_key (enrollments s) (enrollments s').
Proof.
  intros H. destruct st; simpl in H.
  - unfold insert_auth_user, handle_new_user, insert_into_profiles in H.
    repeat inv_check H. inversion H; subst. apply unchanged_is_filtered.
  - unfold delete_auth_users in H. cbv zeta in H.
    inv_bind H. inv_bind H. inv_bind H. injection H as <-.
    left. eexists. reflexivity.
  - unfold insert_profile, insert_into_profiles in H.
    repeat inv_check H. inversion H; subst. apply unchanged_is_filtered.
  - unfold update_profiles in H. repeat inv_check H. inversion H; subst.
    apply unchanged_is_filtered.
  - unfold insert_tutorial in H. repeat inv_check H. inversion H; subst.
    apply unchanged_is_filtered.
  - unfold update_tutorials in H. repeat inv_check H. inversion H; subst.
    apply unchanged_is_filtered.
  - unfold delete_tutorials in H. cbv zeta in H.
    inv_bind H. inv_bind H. inv_bind H. inversion H; subst.
    left. eexists. reflexivity.
  - unfold insert_tutorial_like in H. repeat inv_check H.
    inv_bind H. inversion H; subst. apply unchanged_is_filtered.
  - unfold delete_tutorial_likes in H. inv_bind H. inversion H; subst.
    apply unchanged_is_filtered.
  - unfold insert_tutorial_comment in H. repeat inv_check H.
    inv_bind H. inversion H; subst. apply unchanged_is_filtered.
  - unfold delete_tutorial_comments in H. inv_bind H. inversion H; subst.
    apply unchanged_is_filtered.
  - unfold insert_enrollment in H. repeat inv_check H.
    inv_bind H. inversion H; subst. right. exists NEW. split; [reflexivity | ].
    apply negb_true_iff in Hchk1.
    exact (proj1 (pair_absent Enrollments.tutorial_id Enrollments.user_id _ _ _) Hchk1).
  - unfold delete_enrollments in H. inv_bind H. inversion H; subst.
    left. eexists. reflexivity.
Qed.

Lemma reachable_unique_pairs s :
  reachable s ->
  NoDup (map like_key (tutorial_likes s))
  /\ NoDup (map enrollment_key (enrollments s)).
Proof.
  induction 1 as [ | j now st s s' _ (HL & HE) _ Hexec].
  - split; constructor.
  - split.
    + eapply filtered_or_added_NoDup; [ | exact HL]. eapply exec_likes_effect; eauto.
    + eapply filtered_or_added_NoDup; [ | exact HE]. eapply exec_enrollments_effect; eauto.
Qed.

Lemma NoDup_at_most_one {R : Type} (g1 g2 : R -> uuid) (T u : uuid) (rows : list R) :
  NoDup (map (fun r => (g1 r, g2 r)) rows) ->
  (List.length (filter (fun r => uuid_eqb (g1 r) T && uuid_eqb (g2 r) u) rows) <= 1)%nat.
Proof.
  induction rows as [ | r rows IH]; simpl; intros H; [lia | ].
  inversion H; subst.
  destruct (uuid_eqb (g1 r) T && uuid_eqb (g2 r) u) eqn:E; [ | auto].
  apply andb_true_iff in E. destruct E as [E1 E2].
  apply uuid_eqb_eq in E1, E2. subst.
  apply (pair_absent g1 g2) in H2.
  assert (Hnil : filter (fun r0 => uuid_eqb (g1 r0) (g1 r) && uuid_eqb (g2 r0) (g2 r)) rows = []).
  { clear - H2. induction rows as [ | x rows IH]; [reflexivity | ].
    simpl in *. apply orb_false_iff in H2. destruct H2 as [-> H2]. auto. }
  rewrite Hnil. simpl. lia.
Qed.

Lemma filter_nonempty_existsb {A : Type} (p : A -> bool) (l : list A) :
  filter p l <> [] -> existsb p l = true.
Proof.
  induction l as [ | a l IH]; simpl; [congruence | ].
  destruct (p a); simpl; auto.
Qed.

Lemma duplicate_like_rejected j now NEW s :
  likes_of (TutorialLikes.tutorial_id NEW) (TutorialLikes.user_id NEW) s <> [] ->
  exists e, insert_tutorial_like j now NEW s = Err e.
Proof.
  intros H. apply filter_nonempty_existsb in H.
  unfold insert_tutorial_like.
  destruct (is_true _); [ | eexists; reflexivity].
  destruct (negb (mem_uuid _ _)); [ | eexists; reflexivity].
  rewrite H. simpl. eexists; reflexivity.
Qed.

Lemma duplicate_enrollment_rejected j now NEW s :
  enrollments_of (Enrollments.tutorial_id NEW) (Enrollments.user_id NEW) s <> [] ->
  exists e, insert_enrollment j now NEW s = Err e.
Proof.
  intros H. apply filter_nonempty_existsb in H.
  unfold insert_enrollment.
  destruct (is_true _); [ | eexists; reflexivity].
  destruct (negb (mem_uuid _ _)); [ | eexists; reflexivity].
  rewrite H. simpl. eexists; reflexivity.
Qed.

(** C4. In every reachable state a user holds at most one like and at most
    one enrollment per tutorial.  In any state, an INSERT of a like or of an
    enrollment whose (tutorial, user) pair is already present returns an
    error, and the database after it (the child table and every counter
    included) is the database before it. *)
Theorem one_like_one_enrollment_per_pair :
  (forall s T u,
      reachable s ->
      (List.length (likes_of T u s) <= 1)%nat
      /\ (List.length (enrollments_of T u s) <= 1)%nat)
  /\ (forall j now NEW s,
      likes_of (TutorialLikes.tutorial_id NEW) (TutorialLikes.user_id NEW) s <> [] ->
      (exists e, insert_tutorial_like j now NEW s = Err e)
      /\ run j now (INSERT_tutorial_likes NEW) s = s)
  /\ (forall j now NEW s,
      enrollments_of (Enrollments.tutorial_id NEW) (Enrollments.user_id NEW) s <> [] ->
      (exists e, insert_enrollment j now NEW s = Err e)
      /\ run j now (INSERT_enrollments NEW) s = s).
Proof.
  split; [ | split].
  - intros s T u Hs. destruct (reachable_unique_pairs s Hs) as [HL HE]. split.
    + exact (NoDup_at_most_one TutorialLikes.tutorial_id TutorialLikes.user_id T u _ HL).
    + exact (NoDup_at_most_one Enrollments.tutorial_id Enrollments.user_id T u _ HE).
  - intros j now NEW s H.
    destruct (duplicate_like_rejected j now NEW s H) as (e & He).
    split; [eauto | ]. unfold run. simpl. now rewrite He.
  - intros j now NEW s H.
    destruct (duplicate_enrollment_rejected j now NEW s H) as (e & He).
    split; [eauto | ]. unfold run. simpl. now rewrite He.
Qed.

Lemma one_like_one_enrollment_per_pair_witness :
  ((List.length (likes_of "x" "b" scenario_db) <= 1)%nat
   /\ (List.length (enrollments_of "x" "b" scenario_db) <= 1)%nat)
  /\ ((exists e, insert_enrollment (caller "b") 50 enrollment_b_again scenario_db = Err e)
      /\ run (caller "b") 50 (INSERT_enrollments enrollment_b_again) scenario_db
         = scenario_db).
Proof.
  split.
  - exact (proj1 one_like_one_enrollment_per_pair scenario_db "x" "b" scenario_reachable).
  - apply (proj2 (proj2 one_like_one_enrollment_per_pair)
             (caller "b") 50 enrollment_b_again scenario_db).
    vm_compute. discriminate.
Defined.

(** The scenario of the specification: the second enrollment is a
    uniqueness violation and the counter stays at 1. *)
Example second_enrollment_is_unique_violation :
  insert_enrollment (caller "b") 50 enrollment_b_again scenario_db
  = Err (unique_violation "enrollments_tutorial_id_user_id_key")
  /\ map Tutorials.enrollments_count
         (tutorials (run (caller "b") 50 (INSERT_enrollments enrollment_b_again)
                         scenario_db))
     = [1].
Proof. split; reflexivity. Qed.

(** ** Deleting a tutorial *)

Lemma ids_unique_preserved now s s' :
  counting_effect now s s' -> tutorial_ids_unique s -> tutorial_ids_unique s'.
Proof.
  unfold tutorial_ids_unique. intros Heff Hu.
  destruct Heff as [Htuts Hrefs | NEW Htuts Hfresh Hzero Hrefs | Hrows Hrefs
                   | f tid Hin Hstep Hf Hother | f D Hfire Hsplit Hincl Hother
                   | hit Dc t1 t2 H1 H2 H3 Hsplitc Hinclc Hlive].
  - now rewrite Htuts.
  - rewrite Htuts. now apply (NoDup_map_snoc Tutorials.id).
  - now rewrite (Forall2_map_eq Tutorials.id _ _ _ Hrows) by (now intros a b [H _]).
  - now rewrite (counter_step_ids _ _ _ _ _ Hstep).
  - now rewrite (fire_deletes_ids _ _ _ _ _ Hfire).
  - rewrite (fire_deletes_ids _ _ _ _ _ H3), (fire_deletes_ids _ _ _ _ _ H2),
            (fire_deletes_ids _ _ _ _ _ H1).
    now apply NoDup_map_filter.
Qed.

Lemma reachable_ids_unique s : reachable s -> tutorial_ids_unique s.
Proof.
  induction 1 as [ | j now st s s' _ IH Hlc Hexec]; [constructor | ].
  eapply ids_unique_preserved; [ | exact IH]. eapply exec_counting_effect; eauto.
Qed.

Lemma delete_tutorials_tables j now where_ s s' :
  delete_tutorials j now where_ s = Ok s' ->
  let hit r := is_true (Tutorials_are_viewable_by_everyone j r)
               && is_true (Users_can_delete_own_tutorials j r) && where_ r in
  let gone i := mem_uuid i (map Tutorials.id (filter hit (tutorials s))) in
  (forall f, child_refs f s' = filter (fun i => negb (gone i)) (child_refs f s))
  /\ map Tutorials.id (tutorials s')
     = map Tutorials.id (filter (fun r => negb (hit r)) (tutorials s)).
Proof.
  intros H hit gone.
  unfold delete_tutorials in H. cbv zeta in H. fold hit in H. fold gone in H.
  rewrite likes_delete_refs in H. inv_bind H.
  rewrite comments_delete_refs in H. inv_bind H.
  rewrite enrollments_delete_refs in H. inv_bind H.
  inversion H; subst. simpl. split.
  - intros []; simpl.
    + apply (map_filter_comm TutorialLikes.tutorial_id (fun i => negb (gone i))).
    + apply (map_filter_comm TutorialComments.tutorial_id (fun i => negb (gone i))).
    + apply (map_filter_comm Enrollments.tutorial_id (fun i => negb (gone i))).
  - rewrite (fire_deletes_ids _ _ _ _ _ Hstep1), (fire_deletes_ids _ _ _ _ _ Hstep0),
            (fire_deletes_ids _ _ _ _ _ Hstep).
    reflexivity.
Qed.

Lemma delete_tutorials_total j now where_ s :
  counters_nonneg s -> counters_in_int4 s ->
  exists s', delete_tutorials j now where_ s = Ok s'.
Proof.
  intros Hnn Hmx. unfold delete_tutorials. cbv zeta.
  set (hit := fun r => _ && where_ r).
  set (kept := filter (fun r => negb (hit r)) (tutorials s)).
  assert (Hkept : forall t, In t kept ->
            forall f, 0 <= get_counter f t <= int4_max).
  { intros t Ht f. apply filter_In in Ht. destruct Ht as [Ht _].
    split; [now apply Hnn | now apply Hmx]. }
  rewrite likes_delete_refs.
  match goal with
  | |- exists s', bind (fire_deletes likes now ?D ?k) _ = _ =>
      destruct (fire_deletes_total likes now D k) as (t1 & E1)
  end;
    [intros t Ht; now apply Hkept | ].
  rewrite E1. cbn [bind]. apply fire_deletes_spec in E1.
  assert (H1 : forall t, In t t1 -> forall f, 0 <= get_counter f t <= int4_max).
  { intros t' Ht' f. destruct (Forall2_In_r _ _ _ E1 t' Ht') as (t & Ht & Hthr).
    specialize (Hkept t Ht f).
    destruct (counter_field_eq_dec f likes) as [-> | Hf].
    - destruct Hthr as (_ & Ha & Hb & _). lia.
    - rewrite (through_deletes_other _ _ _ _ _ Hthr Hf). lia. }
  rewrite comments_delete_refs.
  match goal with
  | |- exists s', bind (fire_deletes comments now ?D ?k) _ = _ =>
      destruct (fire_deletes_total comments now D k) as (t2 & E2)
  end;
    [intros t Ht; now apply H1 | ].
  rewrite E2. cbn [bind]. apply fire_deletes_spec in E2.
  assert (H2 : forall t, In t t2 -> forall f, 0 <= get_counter f t <= int4_max).
  { intros t' Ht' f. destruct (Forall2_In_r _ _ _ E2 t' Ht') as (t & Ht & Hthr).
    specialize (H1 t Ht f).
    destruct (counter_field_eq_dec f comments) as [-> | Hf].
    - destruct Hthr as (_ & Ha & Hb & _). lia.
    - rewrite (through_deletes_other _ _ _ _ _ Hthr Hf). lia. }
  rewrite enrollments_delete_refs.
  match goal with
  | |- exists s', bind (fire_deletes enrollments_ now ?D ?k) _ = _ =>
      destruct (fire_deletes_total enrollments_ now D k) as (t3 & E3)
  end;
    [intros t Ht; now apply H2 | ].
  rewrite E3. cbn [bind]. eexists. reflexivity.
Qed.

(** C5. When tutorial [T] is one of the rows a DELETE on tutorials removes
    (the caller owns it and the WHERE clause picks it), then in the database
    the statement returns no like, comment or enrollment references [T]; and
    in a reachable state the statement does return, and no row with [T]'s id
    is left in tutorials. *)
Theorem tutorial_delete_cascades (j : jwt) (now : timestamptz)
    (where_ : Tutorials.row -> bool) (s : db) (T : Tutorials.row) :
  In T (tutorials s) ->
  auth_uid j = Some (Tutorials.user_id T) ->
  where_ T = true ->
  (forall s', delete_tutorials j now where_ s = Ok s' ->
     (forall r, In r (tutorial_likes s') ->
                TutorialLikes.tutorial_id r <> Tutorials.id T)
     /\ (forall r, In r (tutorial_comments s') ->
                   TutorialComments.tutorial_id r <> Tutorials.id T)
     /\ (forall r, In r (enrollments s') ->
                   Enrollments.tutorial_id r <> Tutorials.id T))
  /\ (reachable s ->
      exists s', delete_tutorials j now where_ s = Ok s'
                 /\ ~ In (Tutorials.id T) (map Tutorials.id (tutorials s'))).
Proof.
  intros HT Hown Hwhere.
  assert (Hhit : is_true (Tutorials_are_viewable_by_everyone j T)
                 && is_true (Users_can_delete_own_tutorials j T) && where_ T = true).
  { unfold Users_can_delete_own_tutorials. rewrite Hown, Hwhere. simpl.
    now rewrite uuid_eqb_refl. }
  split.
  - intros s' H. destruct (delete_tutorials_tables _ _ _ _ _ H) as [Hrefs _].
    assert (Hno : forall f, ~ In (Tutorials.id T) (child_refs f s')).
    { intros f Hin. rewrite Hrefs in Hin. apply filter_In in Hin.
      destruct Hin as [_ Hgone]. apply negb_true_iff in Hgone.
      apply mem_uuid_not_In in Hgone. apply Hgone.
      apply in_map. apply filter_In. auto. }
    split; [ | split]; intros r Hr Heq.
    + apply (Hno likes). simpl. rewrite <- Heq. now apply in_map.
    + apply (Hno comments). simpl. rewrite <- Heq. now apply in_map.
    + apply (Hno enrollments_). simpl. rewrite <- Heq. now apply in_map.
  - intros Hs. destruct (reachable_counting s Hs) as (_ & _ & Hnn & Hmx).
    destruct (delete_tutorials_total j now where_ s Hnn Hmx) as (s' & H).
    exists s'. split; [assumption | ].
    destruct (delete_tutorials_tables _ _ _ _ _ H) as [_ Hids].
    rewrite Hids. intros Hin. apply in_map_iff in Hin.
    destruct Hin as (t & Hid & Ht). apply filter_In in Ht. destruct Ht as [Ht Hnot].
    assert (t = T).
    { eapply NoDup_map_inj; eauto. now apply reachable_ids_unique. }
    subst t. rewrite Hhit in Hnot. discriminate.
Qed.

Lemma tutorial_delete_cascades_witness :
  exists s', delete_tutorials (caller "a") 60 (id_is "x") scenario_db = Ok s'
             /\ ~ In "x" (map Tutorials.id (tutorials s')).
Proof.
  apply (tutorial_delete_cascades (caller "a") 60 (id_is "x") scenario_db tutorial_x_now).
  - left. reflexivity.
  - reflexivity.
  - reflexivity.
  - exact scenario_reachable.
Defined.

(** After Alice deletes [x], Bob's like and enrollment are gone with it. *)
Example scenario_delete_x :
  exists s', delete_tutorials (caller "a") 60 (id_is "x") scenario_db = Ok s'
             /\ tutorials s' = [] /\ tutorial_likes s' = [] /\ enrollments s' = [].
Proof. eexists. repeat split. Qed.

(** When Bob's account is removed, his like and his enrollment go with it
    and the triggers bring the counters of Alice's tutorial back to 0. *)
Example scenario_delete_bob :
  exists s',
    delete_auth_users 60 (fun u => uuid_eqb (AuthUsers.id u) "b") scenario_db = Ok s'
    /\ map Profiles.id (profiles s') = ["a"]
    /\ tutorial_likes s' = [] /\ enrollments s' = []
    /\ map Tutorials.likes_count (tutorials s') = [0]
    /\ map Tutorials.enrollments_count (tutorials s') = [0].
Proof. eexists. repeat split. Qed.

(** Bob cannot delete Alice's tutorial: no row is touched. *)
Example scenario_delete_by_other :
  delete_tutorials (caller "b") 60 (id_is "x") scenario_db = Ok scenario_db.
Proof. reflexivity. Qed.

(** ** Accounts and profiles *)

Lemma is_true_sql_eq (a : option uuid) (b : uuid) :
  is_true (sql_eq uuid_eqb a (Some b)) = true <-> a = Some b.
Proof.
  destruct a as [a | ]; simpl.
  - destruct (uuid_eqb a b) eqn:E.
    + apply uuid_eqb_eq in E. subst. tauto.
    + apply uuid_eqb_neq in E. split; [discriminate | congruence].
  - split; discriminate.
Qed.

Lemma update_profiles_ids j now where_ set s s' :
  update_profiles j now where_ set s = Ok s' ->
  auth_users s' = auth_users s
  /\ map Profiles.id (profiles s') = map Profiles.id (profiles s).
Proof.
  unfold update_profiles. cbv zeta. intros H.
  repeat inv_check H. injection H as <-.
  cbn [profiles auth_users set_profiles]. split; [reflexivity | ].
  rewrite map_map. apply map_ext_in. intros r Hr.
  rewrite forallb_forall in Hchk. specialize (Hchk r Hr).
  clear - Hchk. cbn in Hchk |- *.
  destruct (is_true (Users_can_update_own_profile j r)) eqn:Eold; [ | reflexivity].
  destruct (where_ r); [ | reflexivity].
  cbn in Hchk |- *. unfold Users_can_update_own_profile in Eold, Hchk.
  apply is_true_sql_eq in Eold, Hchk. cbn in Hchk. congruence.
Qed.

Lemma exec_accounts_effect j now st s s' :
  exec j now st s = Ok s' -> accounts_effect st s s'.
Proof.
  intros H. destruct st; simpl in H.
  - unfold insert_auth_user, handle_new_user, insert_into_profiles in H.
    repeat inv_check H. inversion H; subst.
    eapply ae_account; simpl; try reflexivity.
    apply mem_uuid_not_In. now destruct (mem_uuid _ _).
  - unfold delete_auth_users in H. cbv zeta in H.
    inv_bind H. inv_bind H. inv_bind H. injection H as <-.
    now apply (ae_removed _ _ _ where_).
  - unfold insert_profile, insert_into_profiles in H.
    repeat inv_check H. inversion H; subst.
    apply (ae_profile _ _ _ NEW); simpl; try reflexivity.
    + apply mem_uuid_not_In. now destruct (mem_uuid _ _).
    + now apply mem_uuid_In.
  - destruct (update_profiles_ids _ _ _ _ _ _ H). now apply ae_update.
  - unfold insert_tutorial in H. repeat inv_check H. inversion H; subst.
    now apply ae_none.
  - unfold update_tutorials in H. repeat inv_check H. inversion H; subst.
    now apply ae_none.
  - unfold delete_tutorials in H. cbv zeta in H.
    inv_bind H. inv_bind H. inv_bind H. inversion H; subst. now apply ae_none.
  - unfold insert_tutorial_like in H. repeat inv_check H.
    inv_bind H. inversion H; subst. now apply ae_none.
  - unfold delete_tutorial_likes in H. inv_bind H. inversion H; subst.
    now apply ae_none.
  - unfold insert_tutorial_comment in H. repeat inv_check H.
    inv_bind H. inversion H; subst. now apply ae_none.
  - unfold delete_tutorial_comments in H. inv_bind H. inversion H; subst.
    now apply ae_none.
  - unfold insert_enrollment in H. repeat inv_check H.
    inv_bind H. inversion H; subst. now apply ae_none.
  - unfold delete_enrollments in H. inv_bind H. inversion H; subst.
    now apply ae_none.
Qed.

Lemma account_ids_preserved st s s' :
  accounts_effect st s s' -> account_ids_unique s -> account_ids_unique s'.
Proof.
  unfold account_ids_unique.
  intros [Ha Hp | NEW p _ Hfresh Ha Hp Hid | NEW Ha Hp Hfresh Hin | Ha Hids
         | where_ Ha Hp] H.
  - now rewrite Ha.
  - rewrite Ha. now apply (NoDup_map_snoc AuthUsers.id).
  - now rewrite Ha.
  - now rewrite Ha.
  - rewrite Ha. now apply NoDup_map_filter.
Qed.

Lemma accounts_preserved st s s' :
  accounts_effect st s s' -> account_ids_unique s ->
  one_profile_per_account s -> one_profile_per_account s'.
Proof.
  unfold one_profile_per_account.
  intros [Ha Hp | NEW p _ Hfresh Ha Hp Hid | NEW Ha Hp Hfresh Hin | Ha Hids
         | where_ Ha Hp] Hu H i.
  - rewrite Ha, Hp. apply H.
  - rewrite Ha, Hp, !map_app, !in_app_iff, H. simpl. rewrite Hid. tauto.
  - rewrite Ha, Hp, map_app, in_app_iff, H. simpl. split; [ | tauto].
    intros [Hi | [<- | []]]; assumption.
  - rewrite Ha, Hids. apply H.
  - rewrite Ha, Hp, !in_map_iff. split.
    + intros (p & Hid & Hin). apply filter_In in Hin. destruct Hin as [Hin Hlive].
      apply negb_true_iff, mem_uuid_not_In in Hlive.
      assert (Hacc : In i (map AuthUsers.id (auth_users s)))
        by (apply H; rewrite <- Hid; now apply in_map).
      apply in_map_iff in Hacc. destruct Hacc as (u & Hu' & Huin).
      exists u. split; [assumption | ]. apply filter_In. split; [assumption | ].
      destruct (where_ u) eqn:E; [ | reflexivity].
      exfalso. apply Hlive. rewrite Hid, <- Hu'. apply in_map. apply filter_In. auto.
    + intros (u & Hid & Hin). apply filter_In in Hin. destruct Hin as [Hin Hkeep].
      assert (Hpr : In i (map Profiles.id (profiles s)))
        by (apply H; rewrite <- Hid; now apply in_map).
      apply in_map_iff in Hpr. destruct Hpr as (p & Hp' & Hpin).
      exists p. split; [assumption | ]. apply filter_In. split; [assumption | ].
      apply negb_true_iff, mem_uuid_not_In. intros Hgone.
      apply in_map_iff in Hgone. destruct Hgone as (u' & Hu' & Hu'in).
      apply filter_In in Hu'in. destruct Hu'in as [Hu'in Hw].
      assert (u' = u).
      { eapply NoDup_map_inj; eauto. congruence. }
      subst u'. rewrite Hw in Hkeep. discriminate.
Qed.

Lemma reachable_accounts s :
  reachable s -> one_profile_per_account s /\ account_ids_unique s.
Proof.
  induction 1 as [ | j now st s s' _ [IH IU] _ Hexec].
  - split; [intros i; simpl; tauto | constructor].
  - pose proof (exec_accounts_effect _ _ _ _ _ Hexec) as Heff. split.
    + eapply accounts_preserved; eauto.
    + eapply account_ids_preserved; eauto.
Qed.

Lemma filter_none {A : Type} (p : A -> bool) (l : list A) :
  (forall x, In x l -> p x = false) -> filter p l = [].
Proof.
  induction l as [ | a l IH]; simpl; intros H; [reflexivity | ].
  rewrite (H a) by auto. apply IH. auto.
Qed.

Lemma handle_new_user_row now NEW s :
  handle_new_user now NEW s = insert_into_profiles (bootstrap_profile now NEW) s.
Proof.
  unfold handle_new_user, bootstrap_profile, COALESCE. reflexivity.
Qed.

(** C8. In a reachable state, creating an account whose id is new succeeds
    and adds exactly one row to profiles: its id is the account's, its
    [full_name] is the metadata's [full_name] text when there is one and
    'New User' when there is none, and its [bio] and [avatar_url] are NULL.
    It is the only profile with that id. *)
Theorem new_account_gets_one_profile (s : db) (now : timestamptz) (NEW : AuthUsers.row) :
  reachable s ->
  ~ In (AuthUsers.id NEW) (map AuthUsers.id (auth_users s)) ->
  exists s',
    insert_auth_user now NEW s = Ok s'
    /\ profiles s' = profiles s ++ [bootstrap_profile now NEW]
    /\ filter (fun p => uuid_eqb (Profiles.id p) (AuthUsers.id NEW)) (profiles s')
       = [bootstrap_profile now NEW]
    /\ Profiles.full_name (bootstrap_profile now NEW)
       = match jsonb_get_text (AuthUsers.raw_user_meta_data NEW) "full_name" with
         | Some m => m
         | None => "New User"
         end
    /\ Profiles.bio (bootstrap_profile now NEW) = None
    /\ Profiles.avatar_url (bootstrap_profile now NEW) = None.
Proof.
  intros Hs Hfresh. pose proof (proj1 (reachable_accounts s Hs)) as Hacc.
  assert (Hnop : ~ In (AuthUsers.id NEW) (map Profiles.id (profiles s)))
    by (now rewrite (Hacc (AuthUsers.id NEW))).
  unfold insert_auth_user.
  rewrite (proj2 (mem_uuid_not_In _ _) Hfresh). simpl negb. cbv iota.
  rewrite handle_new_user_row. unfold insert_into_profiles. simpl.
  rewrite (proj2 (mem_uuid_not_In _ _) Hnop). simpl negb. cbv iota.
  assert (Hin : mem_uuid (AuthUsers.id NEW)
                  (map AuthUsers.id (auth_users s ++ [NEW])) = true).
  { apply mem_uuid_In. rewrite map_app, in_app_iff. right. now left. }
  rewrite Hin. eexists. split; [reflexivity | ]. simpl.
  split; [reflexivity | ]. split; [ | auto].
  rewrite filter_app. simpl. rewrite uuid_eqb_refl.
  rewrite filter_none; [reflexivity | ].
  intros p Hp. apply uuid_eqb_neq. intros Heq. apply Hnop.
  rewrite <- Heq. now apply in_map.
Qed.

Lemma new_account_gets_one_profile_witness :
  exists s',
    insert_auth_user 80 carol scenario_db = Ok s'
    /\ profiles s' = profiles scenario_db ++ [bootstrap_profile 80 carol]
    /\ filter (fun p => uuid_eqb (Profiles.id p) "c") (profiles s')
       = [bootstrap_profile 80 carol]
    /\ Profiles.full_name (bootstrap_profile 80 carol) = "New User"
    /\ Profiles.bio (bootstrap_profile 80 carol) = None
    /\ Profiles.avatar_url (bootstrap_profile 80 carol) = None.
Proof.
  apply (new_account_gets_one_profile scenario_db 80 carol).
  - exact scenario_reachable.
  - vm_compute. intros [H | [H | []]]; discriminate.
Defined.

(** The scenario of the specification: Alice supplied a display name, Bob did
    not. *)
Example scenario_profiles :
  map Profiles.full_name (profiles scenario_db) = ["Alice"; "New User"]
  /\ map Profiles.id (profiles scenario_db) = ["a"; "b"].
Proof. split; reflexivity. Qed.

(** C6, as the code has it.  The policy "Users can insert own profile"
    admits a direct insert into profiles exactly when the row's id is the
    caller's own, and refuses every other one.  In a state reachable from the
    empty database the insert fails in any case, the account's profile being
    there already, so that the only statement after which profiles holds a
    new id is account creation, through [handle_new_user]. *)
Theorem client_profile_insert :
  (forall j NEW,
      is_true (Users_can_insert_own_profile j NEW) = true
      <-> auth_uid j = Some (Profiles.id NEW))
  /\ (forall j NEW s,
      auth_uid j <> Some (Profiles.id NEW) ->
      insert_profile j NEW s = Err (insufficient_privilege "profiles"))
  /\ (forall s j NEW,
      reachable s -> exists e, insert_profile j NEW s = Err e)
  /\ (forall s j now st s' p,
      reachable s -> exec j now st s = Ok s' -> In p (profiles s') ->
      In (Profiles.id p) (map Profiles.id (profiles s))
      \/ exists NEW, st = INSERT_auth_users NEW /\ Profiles.id p = AuthUsers.id NEW).
Proof.
  assert (Hrej : forall s j NEW,
             reachable s -> exists e, insert_profile j NEW s = Err e).
  { intros s j NEW Hs. pose proof (proj1 (reachable_accounts s Hs) (Profiles.id NEW)) as Hacc.
    unfold insert_profile, insert_into_profiles.
    destruct (is_true _); [ | eexists; reflexivity].
    destruct (mem_uuid (Profiles.id NEW) (map Profiles.id (profiles s))) eqn:E;
      [eexists; reflexivity | ].
    apply mem_uuid_not_In in E. rewrite Hacc in E. apply mem_uuid_not_In in E.
    rewrite E. eexists; reflexivity. }
  split; [ | split; [ | split; [exact Hrej | ]]].
  - intros j NEW. apply is_true_sql_eq.
  - intros j NEW s Hne. unfold insert_profile.
    destruct (is_true (Users_can_insert_own_profile j NEW)) eqn:E; [ | reflexivity].
    apply is_true_sql_eq in E. contradiction.
  - intros s j now st s' p Hs Hexec Hp.
    destruct (exec_accounts_effect _ _ _ _ _ Hexec)
      as [Ha Hpr | NEW p0 Hst _ Ha Hpr Hid | NEW Ha Hpr Hfresh Hin | Ha Hids
         | where_ Ha Hpr].
    + left. rewrite <- Hpr. now apply in_map.
    + rewrite Hpr in Hp. apply in_app_or in Hp.
      destruct Hp as [Hp | [<- | []]]; [left; now apply in_map | ].
      right. exists NEW. auto.
    + exfalso. apply Hfresh. now apply (proj1 (reachable_accounts s Hs)).
    + left. rewrite <- Hids. now apply in_map.
    + left. rewrite Hpr in Hp. apply filter_In in Hp. apply in_map. tauto.
Qed.

Lemma client_profile_insert_witness :
  exists e, insert_profile (caller "b") bobs_own_profile scenario_db = Err e.
Proof.
  exact (proj1 (proj2 (proj2 client_profile_insert))
           scenario_db (caller "b") bobs_own_profile scenario_reachable).
Defined.

(** C6 as stated fails: Bob's insert of a profile row for himself passes the
    authorization layer (what stops it is the primary key), and where an
    account has no profile the insert goes through. *)
Lemma own_profile_insert_passes_policy :
  is_true (Users_can_insert_own_profile (caller "b") bobs_own_profile) = true
  /\ insert_profile (caller "b") bobs_own_profile scenario_db
     = Err (unique_violation "profiles_pkey")
  /\ insert_profile (caller "c") carols_own_profile db_with_bare_account
     = Ok (set_profiles [carols_own_profile] db_with_bare_account).
Proof. repeat split. Qed.

(** ** Storage policies *)

Lemma string_to_array_nonempty s sep : string_to_array s sep <> [].
Proof.
  destruct s as [ | c s]; simpl; [discriminate | ].
  destruct (Ascii.eqb c sep); [discriminate | ].
  destruct (string_to_array s sep); discriminate.
Qed.

Lemma string_to_array_first seg rest sep :
  has_char sep seg = false ->
  string_to_array (String.append seg (String sep rest)) sep
  = seg :: string_to_array rest sep.
Proof.
  induction seg as [ | c seg IH]; simpl; intros H.
  - now rewrite Ascii.eqb_refl.
  - apply orb_false_iff in H. destruct H as [Hc Hseg].
    rewrite Hc, (IH Hseg). reflexivity.
Qed.

Lemma string_to_array_single s sep :
  has_char sep s = false -> string_to_array s sep = [s].
Proof.
  induction s as [ | c s IH]; simpl; intros H; [reflexivity | ].
  apply orb_false_iff in H. destruct H as [Hc Hs].
  now rewrite Hc, (IH Hs).
Qed.

Lemma foldername_first seg rest :
  has_char "/"%char seg = false ->
  array_first (storage_foldername (String.append seg (String "/"%char rest)))
  = Some seg.
Proof.
  intros H. unfold storage_foldername. rewrite (string_to_array_first _ _ _ H).
  pose proof (string_to_array_nonempty rest "/"%char) as Hne.
  simpl. destruct (string_to_array rest "/"%char); [congruence | reflexivity].
Qed.

Lemma foldername_none name :
  has_char "/"%char name = false ->
  array_first (storage_foldername name) = None.
Proof.
  intros H. unfold storage_foldername.
  now rewrite (string_to_array_single _ _ H).
Qed.

Lemma is_true_text_eq (a : option string) (b : string) :
  is_true (sql_eq String.eqb a (Some b)) = true <-> a = Some b.
Proof. apply is_true_sql_eq. Qed.

(** C7, as the code has it.  For an object of the tutorial-media bucket:
    everyone may read it; UPDATE and DELETE are permitted exactly to the
    caller whose id is the first folder of the object's path, and to nobody
    when the path has no folder; INSERT is permitted exactly to callers whose
    role is 'authenticated', whatever the path. *)
Theorem tutorial_media_policies (j : jwt) (o : StorageObjects.row) :
  StorageObjects.bucket_id o = "tutorial-media" ->
  storage_permitted SELECT j o = true
  /\ (storage_permitted INSERT j o = true <-> auth_role j = Some "authenticated")
  /\ (forall seg rest,
        has_char "/"%char seg = false ->
        StorageObjects.name o = String.append seg (String "/"%char rest) ->
        (storage_permitted UPDATE j o = true <-> auth_uid j = Some seg)
        /\ (storage_permitted DELETE j o = true <-> auth_uid j = Some seg))
  /\ (has_char "/"%char (StorageObjects.name o) = false ->
      storage_permitted UPDATE j o = false
      /\ storage_permitted DELETE j o = false).
Proof.
  intros Hb. unfold storage_permitted.
  unfold Tutorial_media_is_publicly_accessible,
    Authenticated_users_can_upload_tutorial_media,
    Users_can_update_their_own_tutorial_media,
    Users_can_delete_their_own_tutorial_media.
  rewrite Hb. simpl String.eqb.
  split; [reflexivity | ]. split; [ | split].
  - rewrite <- is_true_text_eq.
    destruct (sql_eq String.eqb (auth_role j) (Some "authenticated")) as [[ | ] | ];
      simpl; tauto.
  - intros seg rest Hseg Hname. rewrite Hname, (foldername_first _ _ Hseg).
    assert (H : is_true (sql_and (Some true)
                  (sql_eq String.eqb (option_map uuid_text (auth_uid j)) (Some seg)))
                = true <-> auth_uid j = Some seg).
    { rewrite <- (is_true_text_eq (auth_uid j) seg).
      destruct (auth_uid j) as [u | ]; simpl; [ | tauto].
      unfold uuid_text. destruct (String.eqb u seg); simpl; tauto. }
    split; exact H.
  - intros Hname. rewrite (foldername_none _ Hname).
    destruct (auth_uid j); simpl; auto.
Qed.

Lemma tutorial_media_policies_witness :
  storage_permitted SELECT (caller "a") alices_object = true
  /\ (storage_permitted INSERT (caller "a") alices_object = true
      <-> auth_role (caller "a") = Some "authenticated")
  /\ (forall seg rest,
        has_char "/"%char seg = false ->
        StorageObjects.name alices_object = String.append seg (String "/"%char rest) ->
        (storage_permitted UPDATE (caller "a") alices_object = true
         <-> auth_uid (caller "a") = Some seg)
        /\ (storage_permitted DELETE (caller "a") alices_object = true
            <-> auth_uid (caller "a") = Some seg))
  /\ (has_char "/"%char (StorageObjects.name alices_object) = false ->
      storage_permitted UPDATE (caller "a") alices_object = false
      /\ storage_permitted DELETE (caller "a") alices_object = false).
Proof.
  exact (tutorial_media_policies (caller "a") alices_object eq_refl).
Defined.

(** C7 as stated fails for uploads: Bob may insert an object into Alice's
    folder, though he may neither update nor delete it afterwards. *)
Lemma upload_into_foreign_folder_permitted :
  array_first (storage_foldername (StorageObjects.name alices_object)) = Some "a"
  /\ auth_uid (caller "b") = Some "b"
  /\ storage_permitted INSERT (caller "b") alices_object = true
  /\ storage_permitted UPDATE (caller "b") alices_object = false
  /\ storage_permitted DELETE (caller "b") alices_object = false.
Proof. repeat split. Qed.

(** ** Timestamps *)

Lemma update_profiles_rows j now where_ set s s' :
  update_profiles j now where_ set s = Ok s' ->
  profiles s'
  = map (fun OLD =>
           if is_true (Profiles_are_viewable_by_everyone j OLD)
              && is_true (Users_can_update_own_profile j OLD) && where_ OLD
           then update_updated_at_column now (set OLD) else OLD)
        (profiles s).
Proof.
  unfold update_profiles. cbv zeta. intros H.
  repeat inv_check H. injection H as <-. reflexivity.
Qed.

Lemma update_tutorials_rows j now where_ set s s' :
  update_tutorials j now where_ set s = Ok s' ->
  tutorials s'
  = map (fun OLD =>
           if is_true (Tutorials_are_viewable_by_everyone j OLD)
              && is_true (Users_can_update_own_tutorials j OLD) && where_ OLD
           then update_updated_at_column now (set OLD) else OLD)
        (tutorials s).
Proof.
  unfold update_tutorials. cbv zeta. intros H.
  repeat inv_check H. injection H as <-. reflexivity.
Qed.

(** C9.  [update_updated_at_column] overwrites whatever [updated_at] the new
    row carries with the statement's time.  After a successful UPDATE of
    profiles or of tutorials, each row the statement updated is the row the
    SET clause built with [updated_at] replaced by that time, whatever the SET
    clause assigned; the rows it did not update are as before.  The same holds
    of the updates the counter triggers make. *)
Theorem updated_at_is_set_on_every_update :
  (forall now (NEW : Profiles.row),
      Profiles.updated_at (update_updated_at_column now NEW) = now)
  /\ (forall now (NEW : Tutorials.row),
      Tutorials.updated_at (update_updated_at_column now NEW) = now)
  /\ (forall j now where_ set s s',
      update_profiles j now where_ set s = Ok s' ->
      Forall2 (fun OLD r =>
                 if is_true (Profiles_are_viewable_by_everyone j OLD)
                    && is_true (Users_can_update_own_profile j OLD) && where_ OLD
                 then r = Profiles.set_updated_at now (set OLD)
                      /\ Profiles.updated_at r = now
                 else r = OLD)
              (profiles s) (profiles s'))
  /\ (forall j now where_ set s s',
      update_tutorials j now where_ set s = Ok s' ->
      Forall2 (fun OLD r =>
                 if is_true (Tutorials_are_viewable_by_everyone j OLD)
                    && is_true (Users_can_update_own_tutorials j OLD) && where_ OLD
                 then r = Tutorials.set_updated_at now (set OLD)
                      /\ Tutorials.updated_at r = now
                 else r = OLD)
              (tutorials s) (tutorials s'))
  /\ (forall now where_ set tuts tuts',
      definer_update_tutorials now where_ set tuts = Ok tuts' ->
      Forall2 (fun OLD r =>
                 if where_ OLD then Tutorials.updated_at r = now else r = OLD)
              tuts tuts').
Proof.
  split; [reflexivity | ]. split; [reflexivity | ].
  split; [ | split].
  - intros j now where_ set s s' H.
    rewrite (update_profiles_rows _ _ _ _ _ _ H).
    apply Forall2_map_r. intros OLD _.
    destruct (_ && where_ OLD); [split; reflexivity | reflexivity].
  - intros j now where_ set s s' H.
    rewrite (update_tutorials_rows _ _ _ _ _ _ H).
    apply Forall2_map_r. intros OLD _.
    destruct (_ && where_ OLD); [split; reflexivity | reflexivity].
  - intros now where_ set tuts tuts' H.
    apply definer_update_tutorials_spec in H.
    eapply Forall2_impl; [ | exact H]. simpl. intros OLD r Hr.
    destruct (where_ OLD); [ | assumption].
    destruct Hr as (NEW & _ & ->). reflexivity.
Qed.

Lemma updated_at_is_set_on_every_update_witness :
  Forall2 (fun OLD r =>
             if is_true (Tutorials_are_viewable_by_everyone (caller "a") OLD)
                && is_true (Users_can_update_own_tutorials (caller "a") OLD)
                && id_is "x" OLD
             then r = Tutorials.set_updated_at 90 (retitle OLD)
                  /\ Tutorials.updated_at r = 90
             else r = OLD)
          (tutorials scenario_db)
          [Tutorials.set_updated_at 90 (retitle tutorial_x_now)].
Proof.
  exact (proj1 (proj2 (proj2 (proj2 updated_at_is_set_on_every_update)))
           (caller "a") 90 (id_is "x") retitle scenario_db
           (set_tutorials [Tutorials.set_updated_at 90 (retitle tutorial_x_now)]
                          scenario_db)
           eq_refl).
Defined.

(** Bob's like, too, moved the [updated_at] of Alice's tutorial, by way of
    the trigger's UPDATE. *)
Example like_touches_updated_at :
  map Tutorials.updated_at
      (tutorials (run_all (firstn 4 scenario) empty_db)) = [20].
Proof. reflexivity. Qed.

(** ** The tutorial form *)

Lemma z_string_issues path checks v issues :
  CreateTutorial.z_string path checks v = inl issues -> issues <> [].
Proof.
  unfold CreateTutorial.z_string. destruct v as [s | ].
  - destruct (flat_map _ checks); intros H; inversion H; discriminate.
  - intros H; inversion H; discriminate.
Qed.

Lemma tutorialSchema_issues d issues :
  CreateTutorial.tutorialSchema d = inl issues -> issues <> [].
Proof.
  unfold CreateTutorial.tutorialSchema. cbv zeta.
  destruct (CreateTutorial.z_string "title" _ _) as [l1 | ] eqn:E1.
  { intros H. injection H as <-. apply z_string_issues in E1.
    destruct l1; [congruence | discriminate]. }
  destruct (CreateTutorial.z_string "description" _ _) as [l2 | ] eqn:E2.
  { intros H. injection H as <-. apply z_string_issues in E2.
    destruct l2; [congruence | discriminate]. }
  destruct (CreateTutorial.z_string "category" _ _) as [l3 | ] eqn:E3.
  { intros H. injection H as <-. apply z_string_issues in E3.
    destruct l3; [congruence | discriminate]. }
  destruct (CreateTutorial.z_string "difficulty" _ _) as [l4 | ] eqn:E4.
  { intros H. injection H as <-. apply z_string_issues in E4.
    destruct l4; [congruence | discriminate]. }
  discriminate.
Qed.

Lemma z_string_accepts path n m checks v s :
  CreateTutorial.z_string path (CreateTutorial.zmin n m :: checks) v = inr s ->
  v = Some s /\ (n <= String.length s)%nat.
Proof.
  unfold CreateTutorial.z_string. destruct v as [x | ]; [ | discriminate].
  simpl. destruct (String.length x <? n)%nat eqn:E; [discriminate | ].
  apply Nat.ltb_ge in E.
  destruct (flat_map _ checks); intros H; inversion H; subst. auto.
Qed.

Lemma z_string_accepts_max path n m k m' v s :
  CreateTutorial.z_string path
    [CreateTutorial.zmin n m; CreateTutorial.zmax k m'] v = inr s ->
  (String.length s <= k)%nat.
Proof.
  unfold CreateTutorial.z_string. destruct v as [x | ]; [ | discriminate].
  simpl. destruct (String.length x <? n)%nat; [discriminate | ].
  simpl. destruct (k <? String.length x)%nat eqn:E; [discriminate | ].
  apply Nat.ltb_ge in E. intros H; inversion H; subst. assumption.
Qed.

Lemma tutorialSchema_rejects d :
  out_of_bounds (CreateTutorial.data_title d) (CreateTutorial.data_description d)
                (CreateTutorial.data_category d) (CreateTutorial.data_difficulty d) ->
  exists issues, CreateTutorial.tutorialSchema d = inl issues.
Proof.
  intros Hbad.
  destruct (CreateTutorial.tutorialSchema d) as [issues | p] eqn:E;
    [eexists; reflexivity | exfalso].
  unfold CreateTutorial.tutorialSchema in E. cbv zeta in E.
  destruct (CreateTutorial.z_string "title" _ _) as [ | t] eqn:E1; [discriminate | ].
  destruct (CreateTutorial.z_string "description" _ _) as [ | ds] eqn:E2; [discriminate | ].
  destruct (CreateTutorial.z_string "category" _ _) as [ | c] eqn:E3; [discriminate | ].
  destruct (CreateTutorial.z_string "difficulty" _ _) as [ | f] eqn:E4; [discriminate | ].
  pose proof (z_string_accepts_max _ _ _ _ _ _ _ E1) as Ht2.
  pose proof (z_string_accepts_max _ _ _ _ _ _ _ E2) as Hd2.
  apply z_string_accepts in E1, E2, E3, E4.
  destruct E1 as [Et Ht], E2 as [Ed Hd], E3 as [Ec Hc], E4 as [Ef Hf].
  unfold out_of_bounds in Hbad. rewrite Et, Ed in Hbad.
  injection Ec as Ec. injection Ef as Ef.
  destruct Hbad as [Hbad | [Hbad | [Hbad | Hbad]]].
  - lia.
  - lia.
  - rewrite <- Ec, Hbad in Hc. simpl in Hc. lia.
  - rewrite <- Ef, Hbad in Hf. simpl in Hf. lia.
Qed.

Lemma handleSubmit_rejected user t ds v r st issues :
  CreateTutorial.tutorialSchema
    {| CreateTutorial.data_title := t; CreateTutorial.data_description := ds;
       CreateTutorial.data_category := CreateTutorial.st_category st;
       CreateTutorial.data_difficulty := CreateTutorial.st_difficulty st;
       CreateTutorial.data_video_url :=
         if CreateTutorial.truthy v then v else None |} = inl issues ->
  exists first, CreateTutorial.handleSubmit user t ds v r st
                = [CreateTutorial.toast_error (CreateTutorial.issue_message first)].
Proof.
  intros H. unfold CreateTutorial.handleSubmit. cbv zeta. rewrite H.
  pose proof (tutorialSchema_issues _ _ H) as Hne.
  destruct issues as [ | first rest]; [congruence | ]. eexists; reflexivity.
Qed.

Lemma thumbnail_within_limit sel st st' effs :
  CreateTutorial.handleThumbnailChange sel st = (st', effs) ->
  (forall f, CreateTutorial.thumbnailFile st = Some f ->
             CreateTutorial.file_size f <= 5 * 1024 * 1024) ->
  (forall f, CreateTutorial.thumbnailFile st' = Some f ->
             CreateTutorial.file_size f <= 5 * 1024 * 1024)
  /\ Forall CreateTutorial.upload_within_limit effs.
Proof.
  unfold CreateTutorial.handleThumbnailChange. intros H Hinv.
  destruct sel as [f | ].
  - destruct (5 * 1024 * 1024 <? CreateTutorial.file_size f) eqn:E;
      inversion H; subst.
    + split; [assumption | repeat constructor].
    + apply Z.ltb_ge in E. split; [ | constructor].
      simpl. intros f' Hf'. inversion Hf'; subst. assumption.
  - inversion H; subst. split; [assumption | constructor].
Qed.

Lemma insert_and_finish_no_upload user d p r url :
  Forall CreateTutorial.upload_within_limit
         (CreateTutorial.insert_and_finish user d p r url).
Proof.
  unfold CreateTutorial.insert_and_finish.
  destruct (CreateTutorial.insert_error r); repeat constructor.
Qed.

Lemma handleSubmit_within_limit user t ds v r st :
  (forall f, CreateTutorial.thumbnailFile st = Some f ->
             CreateTutorial.file_size f <= 5 * 1024 * 1024) ->
  Forall CreateTutorial.upload_within_limit
         (CreateTutorial.handleSubmit user t ds v r st).
Proof.
  intros Hinv. unfold CreateTutorial.handleSubmit. cbv zeta.
  destruct (CreateTutorial.tutorialSchema _) as [issues | p].
  - destruct issues; repeat constructor.
  - destruct (CreateTutorial.thumbnailFile st) as [f | ] eqn:Ef;
      [ | apply insert_and_finish_no_upload].
    specialize (Hinv f eq_refl).
    unfold CreateTutorial.uploadThumbnail.
    destruct (CreateTutorial.upload_publicUrl r) as [url | ].
    + destruct (CreateTutorial.truthy (Some url)).
      * apply Forall_app. split; [ | apply insert_and_finish_no_upload].
        repeat constructor. exact Hinv.
      * repeat constructor. exact Hinv.
    + simpl. repeat constructor. exact Hinv.
Qed.

Lemma session_within_limit user es st :
  (forall f, CreateTutorial.thumbnailFile st = Some f ->
             CreateTutorial.file_size f <= 5 * 1024 * 1024) ->
  Forall CreateTutorial.upload_within_limit (CreateTutorial.session user st es).
Proof.
  revert st. induction es as [ | e es IH]; intros st Hinv; [constructor | ].
  cbn [CreateTutorial.session].
  destruct (CreateTutorial.step user st e) as [st' effs] eqn:E.
  apply Forall_app. destruct e; simpl in E.
  - destruct (thumbnail_within_limit _ _ _ _ E Hinv). split; auto.
  - inversion E; subst. split; [constructor | now apply IH].
  - inversion E; subst. split; [constructor | now apply IH].
  - inversion E; subst. split; [now apply handleSubmit_within_limit | now apply IH].
Qed.

(** C10.  A submission whose title is shorter than 5 or longer than 200
    characters, whose description is shorter than 20 or longer than 2000, or
    with no category or no difficulty chosen, fails [tutorialSchema]; then
    [handleSubmit] shows the first issue's message and neither uploads nor
    inserts.  A selected file larger than 5 * 1024 * 1024 bytes is refused by
    [handleThumbnailChange], which keeps the state as it was, and through any
    sequence of user actions no file above that size is uploaded. *)
Theorem tutorial_form_bounds :
  (forall user t ds v r st,
      out_of_bounds t ds (CreateTutorial.st_category st) (CreateTutorial.st_difficulty st) ->
      (exists first,
          CreateTutorial.handleSubmit user t ds v r st
          = [CreateTutorial.toast_error (CreateTutorial.issue_message first)])
      /\ existsb CreateTutorial.is_insert (CreateTutorial.handleSubmit user t ds v r st)
         = false
      /\ existsb CreateTutorial.is_upload (CreateTutorial.handleSubmit user t ds v r st)
         = false)
  /\ (forall f st,
      5 * 1024 * 1024 < CreateTutorial.file_size f ->
      CreateTutorial.handleThumbnailChange (Some f) st
      = (st, [CreateTutorial.toast_error "Image must be less than 5MB"]))
  /\ (forall user es,
      Forall CreateTutorial.upload_within_limit
             (CreateTutorial.session user CreateTutorial.initial_state es)).
Proof.
  split; [ | split].
  - intros user t ds v r st Hbad.
    destruct (tutorialSchema_rejects
                {| CreateTutorial.data_title := t; CreateTutorial.data_description := ds;
                   CreateTutorial.data_category := CreateTutorial.st_category st;
                   CreateTutorial.data_difficulty := CreateTutorial.st_difficulty st;
                   CreateTutorial.data_video_url :=
                     if CreateTutorial.truthy v then v else None |} Hbad)
      as (issues & Hissues).
    destruct (handleSubmit_rejected user t ds v r st issues Hissues) as (first & ->).
    split; [eexists; reflexivity | split; reflexivity].
  - intros f st Hbig. unfold CreateTutorial.handleThumbnailChange.
    apply Z.ltb_lt in Hbig. now rewrite Hbig.
  - intros user es. apply session_within_limit. discriminate.
Qed.

Lemma tutorial_form_bounds_witness :
  ((exists first,
       CreateTutorial.handleSubmit "a" (Some "Hook") (Some "Too short.") None
         no_answer CreateTutorial.initial_state
       = [CreateTutorial.toast_error (CreateTutorial.issue_message first)])
   /\ existsb CreateTutorial.is_insert
        (CreateTutorial.handleSubmit "a" (Some "Hook") (Some "Too short.") None
           no_answer CreateTutorial.initial_state) = false
   /\ existsb CreateTutorial.is_upload
        (CreateTutorial.handleSubmit "a" (Some "Hook") (Some "Too short.") None
           no_answer CreateTutorial.initial_state) = false)
  /\ CreateTutorial.handleThumbnailChange (Some big_file) CreateTutorial.initial_state
     = (CreateTutorial.initial_state,
        [CreateTutorial.toast_error "Image must be less than 5MB"]).
Proof.
  split.
  - apply (proj1 tutorial_form_bounds).
    left. simpl. lia.
  - apply (proj1 (proj2 tutorial_form_bounds)). reflexivity.
Defined.

(** The first message shown follows the order of the schema. *)
Example first_issue_is_the_title :
  CreateTutorial.handleSubmit "a" (Some "Hook") (Some "Too short.") None
    no_answer CreateTutorial.initial_state
  = [CreateTutorial.toast_error "Title must be at least 5 characters"].
Proof. reflexivity. Qed.

(** A valid form with a thumbnail uploads into the user's own folder and
    inserts one row. *)
Example valid_submission :
  let st := {| CreateTutorial.thumbnailFile :=
                 Some {| CreateTutorial.file_name := "cover.png";
                         CreateTutorial.file_size := 1024 |};
               CreateTutorial.st_category := "programming";
               CreateTutorial.st_difficulty := "beginner" |} in
  map (fun e => match e with
                | CreateTutorial.storage_upload b p _ => Some (b, p)
                | _ => None
                end)
      (CreateTutorial.handleSubmit "a" (Some "Introduction to React Hooks")
         (Some "State and effects in function components.") (Some EmptyString)
         no_answer st)
  = [Some ("tutorial-media", "a/1700000000000.png"); None; None; None].
Proof. reflexivity. Qed.

(** ** The edge of [leaves_counters]

    The counters are ordinary columns of a table its owner may update: an
    UPDATE that assigns one is outside the statements the invariants are
    about, and the triggers do not undo it. *)
Example owner_update_can_assign_a_counter :
  exists s',
    update_tutorials (caller "a") 95 (id_is "x") (Tutorials.set_likes_count 100)
      scenario_db = Ok s'
    /\ map Tutorials.likes_count (tutorials s') = [100]
    /\ List.length (tutorial_likes s') = 1%nat.
Proof. eexists. repeat split. Qed.

(* ================================================================= *)
(** * Further properties of the database layer *)

(** ** Who may write what *)

Lemma Forall2_In_l {A B : Type} (R : A -> B -> Prop) (l : list A) (l' : list B) :
  Forall2 R l l' -> forall a, In a l -> exists b, In b l' /\ R a b.
Proof.
  induction 1 as [ | a b l l' Hab _ IH]; simpl; intros x Hx; [contradiction | ].
  destruct Hx as [-> | Hx]; [exists b; auto | ].
  destruct (IH x Hx) as (b' & Hb' & HR). exists b'; auto.
Qed.

(** X1. A statement that inserts a profile, a tutorial, a like, a comment
    or an enrollment succeeds only when the row names the caller as its
    user; a caller without identity inserts nothing. *)
Theorem inserted_rows_name_the_caller (j : jwt) (now : timestamptz)
    (st : statement) (s s' : db) :
  exec j now st s = Ok s' ->
  match st with
  | INSERT_profiles NEW => auth_uid j = Some (Profiles.id NEW)
  | INSERT_tutorials NEW => auth_uid j = Some (Tutorials.user_id NEW)
  | INSERT_tutorial_likes NEW => auth_uid j = Some (TutorialLikes.user_id NEW)
  | INSERT_tutorial_comments NEW => auth_uid j = Some (TutorialComments.user_id NEW)
  | INSERT_enrollments NEW => auth_uid j = Some (Enrollments.user_id NEW)
  | _ => True
  end.
Proof.
  intros H. destruct st; simpl in H; try exact I.
  - unfold insert_profile in H. inv_check H. now apply is_true_sql_eq in Hchk.
  - unfold insert_tutorial in H. inv_check H. now apply is_true_sql_eq in Hchk.
  - unfold insert_tutorial_like in H. inv_check H. now apply is_true_sql_eq in Hchk.
  - unfold insert_tutorial_comment in H. inv_check H. now apply is_true_sql_eq in Hchk.
  - unfold insert_enrollment in H. inv_check H. now apply is_true_sql_eq in Hchk.
Qed.

Lemma inserted_rows_name_the_caller_witness :
  auth_uid (caller "b") = Some (TutorialLikes.user_id like_b).
Proof.
  exact (inserted_rows_name_the_caller (caller "b") 20
           (INSERT_tutorial_likes like_b)
           (run_all (firstn 3 scenario) empty_db)
           (run_all (firstn 4 scenario) empty_db) eq_refl).
Defined.

(** X2. A DELETE on likes, comments or enrollments removes only rows of
    the caller that the WHERE clause picks: every row of another user is
    still there afterwards, and so is every row the clause does not pick. *)
Theorem child_deletes_spare_other_rows (j : jwt) (now : timestamptz) (s s' : db) :
  (forall w, delete_tutorial_likes j now w s = Ok s' ->
     forall r, In r (tutorial_likes s) ->
       (auth_uid j <> Some (TutorialLikes.user_id r) \/ w r = false
        <-> In r (tutorial_likes s')))
  /\ (forall w, delete_tutorial_comments j now w s = Ok s' ->
     forall r, In r (tutorial_comments s) ->
       (auth_uid j <> Some (TutorialComments.user_id r) \/ w r = false
        <-> In r (tutorial_comments s')))
  /\ (forall w, delete_enrollments j now w s = Ok s' ->
     forall r, In r (enrollments s) ->
       (auth_uid j <> Some (Enrollments.user_id r) \/ w r = false
        <-> In r (enrollments s'))).
Proof.
  split; [ | split]; intros w H r Hr.
  - unfold delete_tutorial_likes in H. cbv zeta in H. inv_bind H.
    injection H as <-. cbn [tutorial_likes]. rewrite filter_In.
    unfold Likes_are_viewable_by_everyone, Users_can_unlike_tutorials.
    cbn [is_true andb].
    destruct (is_true (sql_eq uuid_eqb (auth_uid j) (Some (TutorialLikes.user_id r))))
      eqn:E.
    + apply is_true_sql_eq in E. destruct (w r); simpl; split; intros; intuition congruence.
    + assert (auth_uid j <> Some (TutorialLikes.user_id r)).
      { intros Heq. apply is_true_sql_eq in Heq. congruence. }
      simpl. tauto.
  - unfold delete_tutorial_comments in H. cbv zeta in H. inv_bind H.
    injection H as <-. cbn [tutorial_comments]. rewrite filter_In.
    unfold Comments_are_viewable_by_everyone, Users_can_delete_own_comments.
    cbn [is_true andb].
    destruct (is_true (sql_eq uuid_eqb (auth_uid j) (Some (TutorialComments.user_id r))))
      eqn:E.
    + apply is_true_sql_eq in E. destruct (w r); simpl; split; intros; intuition congruence.
    + assert (auth_uid j <> Some (TutorialComments.user_id r)).
      { intros Heq. apply is_true_sql_eq in Heq. congruence. }
      simpl. tauto.
  - unfold delete_enrollments in H. cbv zeta in H. inv_bind H.
    injection H as <-. cbn [enrollments]. rewrite filter_In.
    unfold Users_can_view_their_own_enrollments, Users_can_unenroll_from_tutorials.
    destruct (is_true (sql_eq uuid_eqb (auth_uid j) (Some (Enrollments.user_id r))))
      eqn:E.
    + apply is_true_sql_eq in E. destruct (w r); simpl; split; intros; intuition congruence.
    + assert (auth_uid j <> Some (Enrollments.user_id r)).
      { intros Heq. apply is_true_sql_eq in Heq. congruence. }
      simpl. tauto.
Qed.

Lemma child_deletes_spare_other_rows_witness :
  auth_uid (caller "a") <> Some (TutorialLikes.user_id like_b) \/ bobs_like like_b = false
  <-> In like_b (tutorial_likes scenario_db).
Proof.
  apply (proj1 (child_deletes_spare_other_rows (caller "a") 40 scenario_db scenario_db)
           bobs_like).
  - reflexivity.
  - left. reflexivity.
Defined.

Lemma counter_step_untouched f now ev tuts tuts' :
  counter_step f now ev tuts = Ok tuts' ->
  Forall2 (fun t t' =>
             match ev with
             | TG_INSERT tid | TG_DELETE tid => Tutorials.id t <> tid -> t' = t
             | TG_UPDATE _ _ => t' = t
             end)
          tuts tuts'.
Proof.
  destruct ev as [tid | o n | tid]; simpl; intros H.
  - apply definer_update_tutorials_spec in H.
    eapply Forall2_impl; [ | exact H]. simpl. intros t t' Ht Hne.
    apply uuid_eqb_neq in Hne. now rewrite Hne in Ht.
  - injection H as <-. apply Forall2_refl_on. reflexivity.
  - apply definer_update_tutorials_spec in H.
    eapply Forall2_impl; [ | exact H]. simpl. intros t t' Ht Hne.
    apply uuid_eqb_neq in Hne. now rewrite Hne in Ht.
Qed.

Lemma fire_deletes_untouched f now D tuts tuts' :
  fire_deletes f now D tuts = Ok tuts' ->
  Forall2 (fun t t' => ~ In (Tutorials.id t) D -> t' = t) tuts tuts'.
Proof.
  unfold fire_deletes. revert tuts tuts'.
  induction D as [ | tid D IH]; cbn [for_each_row]; intros tuts tuts' H.
  - injection H as <-. apply Forall2_refl_on. reflexivity.
  - inv_bind H. apply counter_step_untouched in Hstep. apply IH in H.
    eapply Forall2_trans; [ | exact Hstep | exact H].
    simpl. intros t t1 t2 H1 H2 Hnot.
    assert (t1 = t) by (apply H1; intros Heq; apply Hnot; now left).
    subst t1. apply H2. intros Hin. apply Hnot. now right.
Qed.

(** X3. A DELETE on tutorials leaves alone every tutorial the caller does
    not own or the WHERE clause does not pick: where tutorial ids are unique,
    such a row is in the table afterwards exactly as it was, with all its
    likes, comments and enrollments; a caller who owns none of the rows
    gets no error and removes nothing. *)
Theorem tutorial_delete_spares_other_tutorials (j : jwt) (now : timestamptz)
    (where_ : Tutorials.row -> bool) (s s' : db) (t : Tutorials.row) :
  tutorial_ids_unique s ->
  delete_tutorials j now where_ s = Ok s' ->
  In t (tutorials s) ->
  auth_uid j <> Some (Tutorials.user_id t) \/ where_ t = false ->
  In t (tutorials s')
  /\ (forall r, In r (tutorial_likes s) ->
        TutorialLikes.tutorial_id r = Tutorials.id t -> In r (tutorial_likes s'))
  /\ (forall r, In r (tutorial_comments s) ->
        TutorialComments.tutorial_id r = Tutorials.id t -> In r (tutorial_comments s'))
  /\ (forall r, In r (enrollments s) ->
        Enrollments.tutorial_id r = Tutorials.id t -> In r (enrollments s')).
Proof.
  intros Hu H Ht Hspare.
  unfold delete_tutorials in H. cbv zeta in H.
  set (hit := fun r => _ && where_ r) in H.
  set (gone := fun i => mem_uuid i (map Tutorials.id (filter hit (tutorials s)))).
  assert (Hnot : hit t = false).
  { unfold hit, Users_can_delete_own_tutorials. destruct Hspare as [Hne | ->].
    - destruct (is_true (sql_eq _ _ _)) eqn:E; [ | now rewrite andb_false_r].
      apply is_true_sql_eq in E. contradiction.
    - apply andb_false_r. }
  assert (Hlive : gone (Tutorials.id t) = false).
  { apply mem_uuid_not_In. intros Hin. apply in_map_iff in Hin.
    destruct Hin as (t2 & Hid & Hin). apply filter_In in Hin. destruct Hin as [Hin Hhit].
    assert (t2 = t) by (eapply NoDup_map_inj; eauto).
    subst t2. congruence. }
  rewrite likes_delete_refs in H.
  rewrite (map_filter_comm TutorialLikes.tutorial_id gone) in H. inv_bind H.
  rewrite comments_delete_refs in H.
  rewrite (map_filter_comm TutorialComments.tutorial_id gone) in H. inv_bind H.
  rewrite enrollments_delete_refs in H.
  rewrite (map_filter_comm Enrollments.tutorial_id gone) in H. inv_bind H.
  injection H as <-. cbn [tutorials tutorial_likes tutorial_comments enrollments].
  assert (Hskip : forall l, ~ In (Tutorials.id t) (filter gone l)).
  { intros l Hin. apply filter_In in Hin. destruct Hin as [_ Hin]. congruence. }
  split; [ | split; [ | split]].
  - apply fire_deletes_untouched in Hstep, Hstep0, Hstep1.
    assert (Hkept : In t (filter (fun r => negb (hit r)) (tutorials s)))
      by (apply filter_In; now rewrite Hnot).
    destruct (Forall2_In_l _ _ _ Hstep t Hkept) as (x & Hx & Ex).
    rewrite (Ex (Hskip _)) in Hx.
    destruct (Forall2_In_l _ _ _ Hstep0 t Hx) as (y & Hy & Ey).
    rewrite (Ey (Hskip _)) in Hy.
    destruct (Forall2_In_l _ _ _ Hstep1 t Hy) as (z & Hz & Ez).
    now rewrite (Ez (Hskip _)) in Hz.
  - intros r Hr Hid. apply filter_In. split; [assumption | ].
    cbv beta. rewrite Hid. unfold gone in Hlive. now rewrite Hlive.
  - intros r Hr Hid. apply filter_In. split; [assumption | ].
    cbv beta. rewrite Hid. unfold gone in Hlive. now rewrite Hlive.
  - intros r Hr Hid. apply filter_In. split; [assumption | ].
    cbv beta. rewrite Hid. unfold gone in Hlive. now rewrite Hlive.
Qed.

Lemma tutorial_delete_spares_other_tutorials_witness :
  In tutorial_x_now (tutorials scenario_db)
  /\ (forall r, In r (tutorial_likes scenario_db) ->
        TutorialLikes.tutorial_id r = Tutorials.id tutorial_x_now ->
        In r (tutorial_likes scenario_db))
  /\ (forall r, In r (tutorial_comments scenario_db) ->
        TutorialComments.tutorial_id r = Tutorials.id tutorial_x_now ->
        In r (tutorial_comments scenario_db))
  /\ (forall r, In r (enrollments scenario_db) ->
        Enrollments.tutorial_id r = Tutorials.id tutorial_x_now ->
        In r (enrollments scenario_db)).
Proof.
  apply (tutorial_delete_spares_other_tutorials (caller "b") 60 (id_is "x")
           scenario_db scenario_db tutorial_x_now).
  - exact (reachable_ids_unique _ scenario_reachable).
  - reflexivity.
  - left. reflexivity.
  - left. discriminate.
Defined.

(** ** Updates cannot move a row to another user *)

Lemma update_tutorials_checked j now where_ set s s' :
  update_tutorials j now where_ set s = Ok s' ->
  forall OLD, In OLD (tutorials s) ->
    is_true (Users_can_update_own_tutorials j OLD) && where_ OLD = true ->
    auth_uid j = Some (Tutorials.user_id OLD)
    /\ Tutorials.user_id (set OLD) = Tutorials.user_id OLD.
Proof.
  unfold update_tutorials. cbv zeta. intros H OLD HOLD Hhit.
  repeat inv_check H. clear H Hchk0 Hchk1 Hchk2.
  rewrite forallb_forall in Hchk. specialize (Hchk OLD HOLD).
  cbn in Hchk. rewrite Hhit in Hchk. cbn in Hchk.
  apply andb_true_iff in Hhit. destruct Hhit as [Hown _].
  unfold Users_can_update_own_tutorials in Hown, Hchk.
  apply is_true_sql_eq in Hown, Hchk. cbn in Hchk. split; congruence.
Qed.

(** X4. After a successful UPDATE of tutorials every row has the owner it
    had, and the rows of other users are as they were, whatever the SET
    clause assigns: the UPDATE policy also checks the new row, so a statement
    that would hand a tutorial to another user fails as a whole.  Likewise an
    UPDATE of profiles changes no profile's id. *)
Theorem updates_keep_the_owner (j : jwt) (now : timestamptz) (s s' : db) :
  (forall where_ set,
      update_tutorials j now where_ set s = Ok s' ->
      Forall2 (fun OLD r =>
                 Tutorials.user_id r = Tutorials.user_id OLD
                 /\ (auth_uid j <> Some (Tutorials.user_id OLD) -> r = OLD))
              (tutorials s) (tutorials s'))
  /\ (forall where_ set OLD,
      In OLD (tutorials s) ->
      auth_uid j = Some (Tutorials.user_id OLD) -> where_ OLD = true ->
      Tutorials.user_id (set OLD) <> Tutorials.user_id OLD ->
      update_tutorials j now where_ set s = Err (insufficient_privilege "tutorials"))
  /\ (forall where_ set,
      update_profiles j now where_ set s = Ok s' ->
      map Profiles.id (profiles s') = map Profiles.id (profiles s)).
Proof.
  split; [ | split].
  - intros where_ set H.
    rewrite (update_tutorials_rows _ _ _ _ _ _ H).
    apply Forall2_map_r. intros OLD HOLD.
    unfold Tutorials_are_viewable_by_everyone. cbn [is_true andb].
    destruct (is_true (Users_can_update_own_tutorials j OLD) && where_ OLD) eqn:Ehit.
    + destruct (update_tutorials_checked _ _ _ _ _ _ H OLD HOLD Ehit) as [Hown Hsame].
      split; [exact Hsame | ]. intros Hne. contradiction.
    + split; reflexivity.
  - intros where_ set OLD HOLD Hown Hw Hmove.
    destruct (update_tutorials j now where_ set s) as [s2 | e] eqn:E.
    + exfalso. apply Hmove.
      apply (update_tutorials_checked _ _ _ _ _ _ E OLD HOLD).
      unfold Users_can_update_own_tutorials. rewrite Hown, Hw. cbn.
      now rewrite uuid_eqb_refl.
    + unfold update_tutorials in E. cbv zeta in E.
      destruct (forallb _ (tutorials s)) eqn:Echk; [ | now injection E as <-].
      exfalso. rewrite forallb_forall in Echk. specialize (Echk OLD HOLD).
      unfold Users_can_update_own_tutorials in Echk. cbn in Echk.
      rewrite Hown, Hw in Echk. cbn in Echk. rewrite uuid_eqb_refl in Echk.
      cbn in Echk.
      destruct (uuid_eqb (Tutorials.user_id OLD) (Tutorials.user_id (set OLD))) eqn:Eq;
        [apply uuid_eqb_eq in Eq; congruence | discriminate].
  - intros where_ set H. exact (proj2 (update_profiles_ids _ _ _ _ _ _ H)).
Qed.

Lemma updates_keep_the_owner_witness :
  update_tutorials (caller "a") 90 (id_is "x") (give_to "b") scenario_db
  = Err (insufficient_privilege "tutorials").
Proof.
  apply (proj1 (proj2 (updates_keep_the_owner (caller "a") 90 scenario_db scenario_db))
           (id_is "x") (give_to "b") tutorial_x_now).
  - left. reflexivity.
  - reflexivity.
  - reflexivity.
  - discriminate.
Defined.

(** ** Like and unlike, enroll and unenroll *)

Lemma set_counter_same f t now :
  Tutorials.set_updated_at now (set_counter f (get_counter f t) t)
  = Tutorials.set_updated_at now t.
Proof. destruct f, t; reflexivity. Qed.

Lemma set_counter_twice f c c' t now :
  set_counter f c' (Tutorials.set_updated_at now (set_counter f c t))
  = Tutorials.set_updated_at now (set_counter f c' t).
Proof. destruct f, t; reflexivity. Qed.

Lemma updated_at_twice (t : Tutorials.row) now now' :
  Tutorials.set_updated_at now' (Tutorials.set_updated_at now t)
  = Tutorials.set_updated_at now' t.
Proof. destruct t; reflexivity. Qed.

Lemma get_after_set f c t now :
  get_counter f (Tutorials.set_updated_at now (set_counter f c t)) = c.
Proof. destruct f; reflexivity. Qed.

Lemma id_after_set f c t now :
  Tutorials.id (Tutorials.set_updated_at now (set_counter f c t)) = Tutorials.id t.
Proof. destruct f; reflexivity. Qed.

Lemma step_insert_then_delete f now now' tid tuts tuts1 :
  (forall t, In t tuts -> 0 <= get_counter f t) ->
  counter_step f now (TG_INSERT tid) tuts = Ok tuts1 ->
  counter_step f now' (TG_DELETE tid) tuts1 = Ok (touched tid now' tuts).
Proof.
  unfold counter_step, touched. revert tuts1.
  induction tuts as [ | t tuts IH]; cbn [definer_update_tutorials map];
    intros tuts1 Hnn H.
  - injection H as <-. reflexivity.
  - inv_bind H. inv_bind H. injection H as <-.
    cbn [definer_update_tutorials].
    rewrite (IH a0) by (auto using in_cons).
    assert (H0 : 0 <= get_counter f t) by (apply Hnn; now left).
    destruct (uuid_eqb (Tutorials.id t) tid) eqn:E.
    + repeat match goal with
             | Hb : bind _ _ = Ok _ |- _ => inv_bind Hb
             end.
      repeat match goal with
             | Hb : @Ok Tutorials.row _ = Ok _ |- _ => injection Hb as <-
             end.
      match goal with
      | Hb : int4pl _ _ = Ok _ |- _ =>
          unfold int4pl in Hb; apply int4_ok in Hb; destruct Hb as [-> Hr]
      end.
      unfold update_updated_at_column. cbn [with_updated_at tutorials_updated_at].
      rewrite id_after_set, E, get_after_set. unfold int4mi.
      assert (Hr' : int4_min <= get_counter f t + 1 - 1 <= int4_max)
        by (unfold int4_min, int4_max in *; lia).
      rewrite (proj2 (int4_ok (get_counter f t + 1 - 1) _) (conj eq_refl Hr')).
      cbn [bind]. unfold GREATEST.
      replace (Z.max (get_counter f t + 1 - 1) 0) with (get_counter f t) by lia.
      rewrite set_counter_twice, updated_at_twice.
      rewrite set_counter_same. reflexivity.
    + injection Hstep as <-. rewrite E. reflexivity.
Qed.

Lemma filter_hit_snoc {R : Type} (p : R -> bool) (rows : list R) (NEW : R) :
  existsb p rows = false -> p NEW = true ->
  filter p (rows ++ [NEW]) = [NEW]
  /\ filter (fun r => negb (p r)) (rows ++ [NEW]) = rows.
Proof.
  intros Hno Hnew. rewrite !filter_app. simpl. rewrite Hnew. simpl.
  assert (Hall : forall r, In r rows -> p r = false).
  { intros r Hr. destruct (p r) eqn:E; [ | reflexivity].
    assert (existsb p rows = true) by (apply existsb_exists; eauto). congruence. }
  split.
  - now rewrite filter_none.
  - rewrite app_nil_r. clear Hno.
    induction rows as [ | r rows IH]; [reflexivity | ].
    simpl. rewrite (Hall r) by (now left). simpl. f_equal. apply IH.
    intros x Hx. apply Hall. now right.
Qed.

(** X5. Like, then unlike.  When a like was inserted, the DELETE the page
    sends for the same tutorial and user succeeds and undoes it: the likes
    table is what it was before the like, and so is every tutorial row except
    that the liked tutorial's [updated_at] is the time of the unlike. *)
Theorem like_then_unlike (j : jwt) (now now' : timestamptz)
    (NEW : TutorialLikes.row) (s s1 : db) :
  counters_nonneg s ->
  insert_tutorial_like j now NEW s = Ok s1 ->
  exists s2,
    delete_tutorial_likes j now'
      (like_of_pair (TutorialLikes.tutorial_id NEW) (TutorialLikes.user_id NEW)) s1
    = Ok s2
    /\ tutorial_likes s2 = tutorial_likes s
    /\ tutorials s2 = touched (TutorialLikes.tutorial_id NEW) now' (tutorials s)
    /\ tutorial_comments s2 = tutorial_comments s
    /\ enrollments s2 = enrollments s
    /\ profiles s2 = profiles s /\ auth_users s2 = auth_users s.
Proof.
  intros Hnn H. unfold insert_tutorial_like in H. repeat inv_check H.
  rewrite likes_trigger_is_step in H. inv_bind H. injection H as <-.
  apply is_true_sql_eq in Hchk. apply negb_true_iff in Hchk1.
  unfold delete_tutorial_likes. cbv zeta.
  cbn [tutorial_likes tutorials profiles auth_users tutorial_comments enrollments].
  set (hit := fun r => _ && like_of_pair _ _ r).
  assert (Hno : existsb hit (tutorial_likes s) = false).
  { destruct (existsb hit (tutorial_likes s)) eqn:E; [ | reflexivity].
    apply existsb_exists in E. destruct E as (r & Hr & Hhit).
    unfold hit in Hhit. apply andb_true_iff in Hhit. destruct Hhit as [_ Hpair].
    assert (existsb (fun r => uuid_eqb (TutorialLikes.tutorial_id r)
                                (TutorialLikes.tutorial_id NEW)
                              && uuid_eqb (TutorialLikes.user_id r)
                                   (TutorialLikes.user_id NEW))
                    (tutorial_likes s) = true)
      by (apply existsb_exists; eauto).
    congruence. }
  assert (Hnew : hit NEW = true).
  { unfold hit, Users_can_unlike_tutorials, like_of_pair. rewrite Hchk. cbn.
    now rewrite !uuid_eqb_refl. }
  destruct (filter_hit_snoc hit _ NEW Hno Hnew) as [E1 E2].
  rewrite E1. unfold hit in E2. cbv beta in E2.
  first [rewrite E2 | fold hit; rewrite E2]. clear E1 E2.
  cbn [for_each_row]. rewrite likes_trigger_is_step. cbn [tg_map].
  rewrite (step_insert_then_delete likes now now' _ _ _
             (fun t Ht => Hnn t Ht likes) Hstep).
  cbn [bind]. eexists. repeat split.
Qed.

(** X6. Enroll, then unenroll: as for likes. *)
Theorem enroll_then_unenroll (j : jwt) (now now' : timestamptz)
    (NEW : Enrollments.row) (s s1 : db) :
  counters_nonneg s ->
  insert_enrollment j now NEW s = Ok s1 ->
  exists s2,
    delete_enrollments j now'
      (enrollment_of_pair (Enrollments.tutorial_id NEW) (Enrollments.user_id NEW)) s1
    = Ok s2
    /\ enrollments s2 = enrollments s
    /\ tutorials s2 = touched (Enrollments.tutorial_id NEW) now' (tutorials s)
    /\ tutorial_likes s2 = tutorial_likes s
    /\ tutorial_comments s2 = tutorial_comments s
    /\ profiles s2 = profiles s /\ auth_users s2 = auth_users s.
Proof.
  intros Hnn H. unfold insert_enrollment in H. repeat inv_check H.
  rewrite enrollments_trigger_is_step in H. inv_bind H. injection H as <-.
  apply is_true_sql_eq in Hchk. apply negb_true_iff in Hchk1.
  unfold delete_enrollments. cbv zeta.
  cbn [tutorial_likes tutorials profiles auth_users tutorial_comments enrollments].
  set (hit := fun r => _ && enrollment_of_pair _ _ r).
  assert (Hno : existsb hit (enrollments s) = false).
  { destruct (existsb hit (enrollments s)) eqn:E; [ | reflexivity].
    apply existsb_exists in E. destruct E as (r & Hr & Hhit).
    unfold hit in Hhit. apply andb_true_iff in Hhit. destruct Hhit as [_ Hpair].
    assert (existsb (fun r => uuid_eqb (Enrollments.tutorial_id r)
                                (Enrollments.tutorial_id NEW)
                              && uuid_eqb (Enrollments.user_id r)
                                   (Enrollments.user_id NEW))
                    (enrollments s) = true)
      by (apply existsb_exists; eauto).
    congruence. }
  assert (Hnew : hit NEW = true).
  { unfold hit, Users_can_view_their_own_enrollments,
      Users_can_unenroll_from_tutorials, enrollment_of_pair. rewrite Hchk. cbn.
    now rewrite !uuid_eqb_refl. }
  destruct (filter_hit_snoc hit _ NEW Hno Hnew) as [E1 E2].
  rewrite E1. unfold hit in E2. cbv beta in E2.
  first [rewrite E2 | fold hit; rewrite E2]. clear E1 E2.
  cbn [for_each_row]. rewrite enrollments_trigger_is_step. cbn [tg_map].
  rewrite (step_insert_then_delete enrollments_ now now' _ _ _
             (fun t Ht => Hnn t Ht enrollments_) Hstep).
  cbn [bind]. eexists. repeat split.
Qed.

Lemma like_then_unlike_witness :
  exists s2,
    delete_tutorial_likes (caller "b") 40 (like_of_pair "x" "b") after_like = Ok s2
    /\ tutorial_likes s2 = tutorial_likes before_like
    /\ tutorials s2 = touched "x" 40 (tutorials before_like)
    /\ tutorial_comments s2 = tutorial_comments before_like
    /\ enrollments s2 = enrollments before_like
    /\ profiles s2 = profiles before_like /\ auth_users s2 = auth_users before_like.
Proof.
  apply (like_then_unlike (caller "b") 20 40 like_b before_like after_like).
  - intros t [<- | []] []; vm_compute; discriminate.
  - reflexivity.
Defined.

Lemma enroll_then_unenroll_witness :
  exists s2,
    delete_enrollments (caller "b") 40 (enrollment_of_pair "x" "b") scenario_db = Ok s2
    /\ enrollments s2 = enrollments after_like
    /\ tutorials s2 = touched "x" 40 (tutorials after_like)
    /\ tutorial_likes s2 = tutorial_likes after_like
    /\ tutorial_comments s2 = tutorial_comments after_like
    /\ profiles s2 = profiles after_like /\ auth_users s2 = auth_users after_like.
Proof.
  apply (enroll_then_unenroll (caller "b") 30 40 enrollment_b after_like scenario_db).
  - intros t [<- | []] []; vm_compute; discriminate.
  - reflexivity.
Defined.

(** ** When an insert is accepted *)

Lemma counter_step_insert_ok f now tid tuts :
  (exists tuts', counter_step f now (TG_INSERT tid) tuts = Ok tuts')
  <-> (forall t, In t tuts -> Tutorials.id t = tid ->
         int4_min <= get_counter f t + 1 <= int4_max).
Proof.
  split.
  - intros (tuts' & H) t Ht Hid. apply definer_update_tutorials_spec in H.
    destruct (Forall2_In_l _ _ _ H t Ht) as (t' & _ & Ht').
    simpl in Ht'. rewrite (proj2 (uuid_eqb_eq _ _) Hid) in Ht'.
    destruct Ht' as (NEW & Hset & _). inv_bind Hset.
    unfold int4pl in Hstep. now apply int4_ok in Hstep.
  - intros H. apply definer_update_tutorials_total. intros t Ht Hw.
    apply uuid_eqb_eq in Hw. unfold int4pl.
    rewrite (proj2 (int4_ok (get_counter f t + 1) _) (conj eq_refl (H t Ht Hw))).
    simpl. eexists; reflexivity.
Qed.

(** X7. An INSERT of a like is accepted exactly when the caller is the
    row's user, the row's id is new, the user has no like on that tutorial
    yet, the tutorial and the user's profile exist, and the tutorial's
    [likes_count] plus one still fits INTEGER.  For a comment the conditions
    are the same without the one on an earlier row: the same user may comment
    on the same tutorial again. *)
Theorem child_insert_accepted_iff (j : jwt) (now : timestamptz) (s : db) :
  (forall NEW,
      (exists s', insert_tutorial_like j now NEW s = Ok s')
      <-> auth_uid j = Some (TutorialLikes.user_id NEW)
          /\ ~ In (TutorialLikes.id NEW) (map TutorialLikes.id (tutorial_likes s))
          /\ likes_of (TutorialLikes.tutorial_id NEW) (TutorialLikes.user_id NEW) s = []
          /\ In (TutorialLikes.tutorial_id NEW) (map Tutorials.id (tutorials s))
          /\ In (TutorialLikes.user_id NEW) (map Profiles.id (profiles s))
          /\ (forall t, In t (tutorials s) ->
                Tutorials.id t = TutorialLikes.tutorial_id NEW ->
                int4_min <= Tutorials.likes_count t + 1 <= int4_max))
  /\ (forall NEW,
      (exists s', insert_tutorial_comment j now NEW s = Ok s')
      <-> auth_uid j = Some (TutorialComments.user_id NEW)
          /\ ~ In (TutorialComments.id NEW)
                  (map TutorialComments.id (tutorial_comments s))
          /\ In (TutorialComments.tutorial_id NEW) (map Tutorials.id (tutorials s))
          /\ In (TutorialComments.user_id NEW) (map Profiles.id (profiles s))
          /\ (forall t, In t (tutorials s) ->
                Tutorials.id t = TutorialComments.tutorial_id NEW ->
                int4_min <= Tutorials.comments_count t + 1 <= int4_max)).
Proof.
  split; intros NEW.
  - unfold insert_tutorial_like. rewrite likes_trigger_is_step. cbn [tg_map].
    rewrite <- (is_true_sql_eq (auth_uid j)), <- mem_uuid_not_In, <- !mem_uuid_In.
    unfold Users_can_like_tutorials, likes_of.
    pose proof (counter_step_insert_ok likes now (TutorialLikes.tutorial_id NEW)
                  (tutorials s)) as Hstep.
    cbn [get_counter] in Hstep. rewrite <- Hstep. clear Hstep.
    destruct (is_true _); [ | split; [intros (? & ?); discriminate | intuition discriminate]].
    destruct (mem_uuid (TutorialLikes.id NEW) _);
      [split; [intros (? & ?); discriminate | intuition discriminate] | ].
    cbn [negb].
    destruct (existsb _ (tutorial_likes s)) eqn:Edup; cbn [negb].
    + split; [intros (? & ?); discriminate | ].
      intros (_ & _ & Hnil & _). exfalso.
      apply existsb_exists in Edup. destruct Edup as (r & Hr & Hp).
      assert (Hin : In r (filter (fun r => uuid_eqb (TutorialLikes.tutorial_id r)
                                     (TutorialLikes.tutorial_id NEW)
                                   && uuid_eqb (TutorialLikes.user_id r)
                                        (TutorialLikes.user_id NEW))
                         (tutorial_likes s)))
        by (apply filter_In; auto).
      rewrite Hnil in Hin. destruct Hin.
    + assert (Hnil : filter (fun r => uuid_eqb (TutorialLikes.tutorial_id r)
                                   (TutorialLikes.tutorial_id NEW)
                                 && uuid_eqb (TutorialLikes.user_id r)
                                      (TutorialLikes.user_id NEW))
                       (tutorial_likes s) = []).
      { apply filter_none. intros r Hr.
        destruct (_ && _) eqn:E; [ | reflexivity].
        assert (existsb (fun r => uuid_eqb (TutorialLikes.tutorial_id r)
                                    (TutorialLikes.tutorial_id NEW)
                                  && uuid_eqb (TutorialLikes.user_id r)
                                       (TutorialLikes.user_id NEW))
                        (tutorial_likes s) = true)
          by (apply existsb_exists; eauto).
        congruence. }
      destruct (mem_uuid (TutorialLikes.tutorial_id NEW) _);
        [ | split; [intros (? & ?); discriminate | intuition discriminate]].
      destruct (mem_uuid (TutorialLikes.user_id NEW) _);
        [ | split; [intros (? & ?); discriminate | intuition discriminate]].
      split.
      * intros (s' & H). inv_bind H. repeat split; eauto.
      * intros (_ & _ & _ & _ & _ & (tuts' & ->)). cbn [bind]. eexists; reflexivity.
  - unfold insert_tutorial_comment. rewrite comments_trigger_is_step. cbn [tg_map].
    rewrite <- (is_true_sql_eq (auth_uid j)), <- mem_uuid_not_In, <- !mem_uuid_In.
    unfold Users_can_create_comments.
    pose proof (counter_step_insert_ok comments now (TutorialComments.tutorial_id NEW)
                  (tutorials s)) as Hstep.
    cbn [get_counter] in Hstep. rewrite <- Hstep. clear Hstep.
    destruct (is_true _); [ | split; [intros (? & ?); discriminate | intuition discriminate]].
    destruct (mem_uuid (TutorialComments.id NEW) _);
      [split; [intros (? & ?); discriminate | intuition discriminate] | ].
    cbn [negb].
    destruct (mem_uuid (TutorialComments.tutorial_id NEW) _);
      [ | split; [intros (? & ?); discriminate | intuition discriminate]].
    destruct (mem_uuid (TutorialComments.user_id NEW) _);
      [ | split; [intros (? & ?); discriminate | intuition discriminate]].
    split.
    + intros (s' & H). inv_bind H. repeat split; eauto.
    + intros (_ & _ & _ & _ & (tuts' & ->)). cbn [bind]. eexists; reflexivity.
Qed.

(** Bob comments on [x] twice; both comments are stored and counted. *)
Example two_comments_by_one_user :
  exists s1 s2,
    insert_tutorial_comment (caller "b") 45 (comment_b "c1" "Thanks!") scenario_db = Ok s1
    /\ insert_tutorial_comment (caller "b") 46 (comment_b "c2" "Thanks!") s1 = Ok s2
    /\ map Tutorials.comments_count (tutorials s2) = [2]
    /\ List.length (tutorial_comments s2) = 2%nat.
Proof. do 2 eexists. repeat split. Qed.

Lemma child_insert_accepted_iff_witness :
  exists s', insert_tutorial_like (caller "a") 50 like_a scenario_db = Ok s'.
Proof.
  apply (proj1 (child_insert_accepted_iff (caller "a") 50 scenario_db) like_a).
  split; [reflexivity | ].
  split; [vm_compute; intros [H | []]; discriminate | ].
  split; [reflexivity | ].
  split; [left; reflexivity | ].
  split; [left; reflexivity | ].
  intros t [<- | []] _. vm_compute. split; discriminate.
Defined.

(** ** Referential integrity *)

Lemma counter_step_owner f now ev tuts tuts' t' :
  counter_step f now ev tuts = Ok tuts' -> In t' tuts' ->
  exists t, In t tuts /\ Tutorials.user_id t' = Tutorials.user_id t.
Proof.
  intros H Ht'. apply counter_step_spec in H.
  destruct (Forall2_In_r _ _ _ H t' Ht') as (t & Ht & (_ & Hu & _) & _). eauto.
Qed.

Lemma fire_deletes_owner f now D tuts tuts' t' :
  fire_deletes f now D tuts = Ok tuts' -> In t' tuts' ->
  exists t, In t tuts /\ Tutorials.user_id t' = Tutorials.user_id t.
Proof.
  intros H Ht'. apply fire_deletes_spec in H.
  destruct (Forall2_In_r _ _ _ H t' Ht') as (t & Ht & (_ & Hu & _) & _). eauto.
Qed.

Lemma cascade_owner now D1 D2 D3 kept t1 t2 t3 t' :
  fire_deletes likes now D1 kept = Ok t1 ->
  fire_deletes comments now D2 t1 = Ok t2 ->
  fire_deletes enrollments_ now D3 t2 = Ok t3 ->
  In t' t3 ->
  exists t, In t kept /\ Tutorials.user_id t' = Tutorials.user_id t.
Proof.
  intros H1 H2 H3 Ht'.
  destruct (fire_deletes_owner _ _ _ _ _ _ H3 Ht') as (c & Hc & Ec).
  destruct (fire_deletes_owner _ _ _ _ _ _ H2 Hc) as (b & Hb & Eb).
  destruct (fire_deletes_owner _ _ _ _ _ _ H1 Hb) as (a & Ha & Ea).
  exists a. split; [assumption | congruence].
Qed.

Lemma in_filter_weaken {A : Type} (p : A -> bool) (l : list A) (a : A) :
  In a (filter p l) -> In a l.
Proof. intros H. apply filter_In in H. tauto. Qed.

Lemma users_have_profile_preserved j now st s s' :
  exec j now st s = Ok s' -> users_have_profile s -> users_have_profile s'.
Proof.
  intros H (HT & HL & HC & HE). destruct st; simpl in H.
  - (* account created *)
    unfold insert_auth_user, handle_new_user, insert_into_profiles in H.
    repeat inv_check H. injection H as <-. unfold users_have_profile. simpl_tables.
    repeat split; intros r Hr; rewrite map_app; apply in_or_app; left; auto.
  - (* account removed *)
    unfold delete_auth_users in H. cbv zeta in H.
    rewrite likes_delete_refs in H. inv_bind H.
    rewrite comments_delete_refs in H. inv_bind H.
    rewrite enrollments_delete_refs in H. inv_bind H.
    injection H as <-. unfold users_have_profile. simpl_tables.
    set (dead_p := fun p : Profiles.row =>
                     mem_uuid (Profiles.id p)
                       (map AuthUsers.id (filter where_ (auth_users s)))) in *.
    assert (Hkeep : forall u, In u (map Profiles.id (profiles s)) ->
              mem_uuid u (map Profiles.id (filter dead_p (profiles s))) = false ->
              In u (map Profiles.id (filter (fun p => negb (dead_p p)) (profiles s)))).
    { intros u Hu Hlive. apply in_map_iff in Hu. destruct Hu as (p & Hid & Hp).
      apply in_map_iff. exists p. split; [assumption | ].
      apply filter_In. split; [assumption | ].
      destruct (dead_p p) eqn:E; [ | reflexivity].
      exfalso. apply mem_uuid_not_In in Hlive. apply Hlive.
      rewrite <- Hid. apply in_map. apply filter_In. auto. }
    repeat split.
    + intros t' Ht'.
      destruct (cascade_owner _ _ _ _ _ _ _ _ _ Hstep Hstep0 Hstep1 Ht')
        as (t & Ht & ->).
      apply filter_In in Ht. destruct Ht as [Ht Hlive].
      apply negb_true_iff in Hlive. apply Hkeep; auto.
    + intros r Hr. apply filter_In in Hr. destruct Hr as [Hr Hlive].
      apply negb_true_iff, orb_false_iff in Hlive. destruct Hlive as [Hlive _].
      apply Hkeep; auto.
    + intros r Hr. apply filter_In in Hr. destruct Hr as [Hr Hlive].
      apply negb_true_iff, orb_false_iff in Hlive. destruct Hlive as [Hlive _].
      apply Hkeep; auto.
    + intros r Hr. apply filter_In in Hr. destruct Hr as [Hr Hlive].
      apply negb_true_iff, orb_false_iff in Hlive. destruct Hlive as [Hlive _].
      apply Hkeep; auto.
  - (* profile inserted *)
    unfold insert_profile, insert_into_profiles in H.
    repeat inv_check H. injection H as <-. unfold users_have_profile. simpl_tables.
    repeat split; intros r Hr; rewrite map_app; apply in_or_app; left; auto.
  - (* profiles updated *)
    destruct (update_profiles_ids _ _ _ _ _ _ H) as [_ Hids].
    unfold update_profiles in H. cbv zeta in H. repeat inv_check H.
    injection H as <-. cbn [profiles set_profiles] in Hids.
    unfold users_have_profile. simpl_tables.
    rewrite Hids. repeat split; auto.
  - (* tutorial inserted *)
    unfold insert_tutorial in H. repeat inv_check H. injection H as <-. unfold users_have_profile. simpl_tables.
    repeat split; auto.
    intros t Ht. apply in_app_or in Ht. destruct Ht as [Ht | [<- | []]]; auto.
    now apply mem_uuid_In.
  - (* tutorials updated *)
    pose proof (proj1 (updates_keep_the_owner j now s s') where_ set H) as Hrows.
    unfold update_tutorials in H. cbv zeta in H. repeat inv_check H.
    injection H as H.
    assert (Hp : profiles s' = profiles s) by (now rewrite <- H).
    assert (Hl : tutorial_likes s' = tutorial_likes s) by (now rewrite <- H).
    assert (Hc : tutorial_comments s' = tutorial_comments s) by (now rewrite <- H).
    assert (He : enrollments s' = enrollments s) by (now rewrite <- H).
    unfold users_have_profile. rewrite Hp, Hl, Hc, He. repeat split; auto.
    intros t' Ht'.
    destruct (Forall2_In_r _ _ _ Hrows t' Ht') as (t & Ht & -> & _). auto.
  - (* tutorials deleted *)
    unfold delete_tutorials in H. cbv zeta in H.
    rewrite likes_delete_refs in H. inv_bind H.
    rewrite comments_delete_refs in H. inv_bind H.
    rewrite enrollments_delete_refs in H. inv_bind H.
    injection H as <-. unfold users_have_profile. simpl_tables.
    repeat split.
    + intros t' Ht'.
      destruct (cascade_owner _ _ _ _ _ _ _ _ _ Hstep Hstep0 Hstep1 Ht')
        as (t & Ht & ->).
      apply in_filter_weaken in Ht. auto.
    + intros r Hr. apply in_filter_weaken in Hr. auto.
    + intros r Hr. apply in_filter_weaken in Hr. auto.
    + intros r Hr. apply in_filter_weaken in Hr. auto.
  - (* like inserted *)
    unfold insert_tutorial_like in H. repeat inv_check H.
    rewrite likes_trigger_is_step in H. inv_bind H. injection H as <-. unfold users_have_profile. simpl_tables.
    repeat split; auto.
    + intros t' Ht'. destruct (counter_step_owner _ _ _ _ _ _ Hstep Ht') as (t & Ht & ->).
      auto.
    + intros r Hr. apply in_app_or in Hr. destruct Hr as [Hr | [<- | []]]; auto.
      now apply mem_uuid_In.
  - (* likes deleted *)
    unfold delete_tutorial_likes in H. cbv zeta in H.
    rewrite likes_delete_refs in H. inv_bind H. injection H as <-. unfold users_have_profile. simpl_tables.
    repeat split; auto.
    + intros t' Ht'. destruct (fire_deletes_owner _ _ _ _ _ _ Hstep Ht') as (t & Ht & ->).
      auto.
    + intros r Hr. apply in_filter_weaken in Hr. auto.
  - (* comment inserted *)
    unfold insert_tutorial_comment in H. repeat inv_check H.
    rewrite comments_trigger_is_step in H. inv_bind H. injection H as <-. unfold users_have_profile. simpl_tables.
    repeat split; auto.
    + intros t' Ht'. destruct (counter_step_owner _ _ _ _ _ _ Hstep Ht') as (t & Ht & ->).
      auto.
    + intros r Hr. apply in_app_or in Hr. destruct Hr as [Hr | [<- | []]]; auto.
      now apply mem_uuid_In.
  - (* comments deleted *)
    unfold delete_tutorial_comments in H. cbv zeta in H.
    rewrite comments_delete_refs in H. inv_bind H. injection H as <-. unfold users_have_profile. simpl_tables.
    repeat split; auto.
    + intros t' Ht'. destruct (fire_deletes_owner _ _ _ _ _ _ Hstep Ht') as (t & Ht & ->).
      auto.
    + intros r Hr. apply in_filter_weaken in Hr. auto.
  - (* enrollment inserted *)
    unfold insert_enrollment in H. repeat inv_check H.
    rewrite enrollments_trigger_is_step in H. inv_bind H. injection H as <-. unfold users_have_profile. simpl_tables.
    repeat split; auto.
    + intros t' Ht'. destruct (counter_step_owner _ _ _ _ _ _ Hstep Ht') as (t & Ht & ->).
      auto.
    + intros r Hr. apply in_app_or in Hr. destruct Hr as [Hr | [<- | []]]; auto.
      now apply mem_uuid_In.
  - (* enrollments deleted *)
    unfold delete_enrollments in H. cbv zeta in H.
    rewrite enrollments_delete_refs in H. inv_bind H. injection H as <-. unfold users_have_profile. simpl_tables.
    repeat split; auto.
    + intros t' Ht'. destruct (fire_deletes_owner _ _ _ _ _ _ Hstep Ht') as (t & Ht & ->).
      auto.
    + intros r Hr. apply in_filter_weaken in Hr. auto.
Qed.

Lemma reachable_users_have_profile s : reachable s -> users_have_profile s.
Proof.
  induction 1 as [ | j now st s s' _ IH _ Hexec].
  - repeat split; intros r [].
  - eapply users_have_profile_preserved; eauto.
Qed.

(** X8. In every reachable state the foreign keys hold: each profile
    belongs to an account; each tutorial's owner has a profile; each like,
    comment and enrollment references a tutorial that exists and a user who
    has a profile. *)
Theorem referential_integrity (s : db) :
  reachable s ->
  (forall p, In p (profiles s) ->
     In (Profiles.id p) (map AuthUsers.id (auth_users s)))
  /\ (forall t, In t (tutorials s) ->
     In (Tutorials.user_id t) (map Profiles.id (profiles s)))
  /\ (forall r, In r (tutorial_likes s) ->
     In (TutorialLikes.tutorial_id r) (map Tutorials.id (tutorials s))
     /\ In (TutorialLikes.user_id r) (map Profiles.id (profiles s)))
  /\ (forall r, In r (tutorial_comments s) ->
     In (TutorialComments.tutorial_id r) (map Tutorials.id (tutorials s))
     /\ In (TutorialComments.user_id r) (map Profiles.id (profiles s)))
  /\ (forall r, In r (enrollments s) ->
     In (Enrollments.tutorial_id r) (map Tutorials.id (tutorials s))
     /\ In (Enrollments.user_id r) (map Profiles.id (profiles s))).
Proof.
  intros Hs.
  destruct (reachable_users_have_profile s Hs) as (HT & HL & HC & HE).
  destruct (reachable_counting s Hs) as (Hpar & _).
  pose proof (proj1 (reachable_accounts s Hs)) as Hacc.
  split; [ | split; [exact HT | split; [ | split]]].
  - intros p Hp. apply Hacc. now apply in_map.
  - intros r Hr. split; [ | auto].
    apply (Hpar likes). simpl. now apply in_map.
  - intros r Hr. split; [ | auto].
    apply (Hpar comments). simpl. now apply in_map.
  - intros r Hr. split; [ | auto].
    apply (Hpar enrollments_). simpl. now apply in_map.
Qed.

Lemma referential_integrity_witness :
  (forall p, In p (profiles scenario_db) ->
     In (Profiles.id p) (map AuthUsers.id (auth_users scenario_db)))
  /\ (forall t, In t (tutorials scenario_db) ->
     In (Tutorials.user_id t) (map Profiles.id (profiles scenario_db)))
  /\ (forall r, In r (tutorial_likes scenario_db) ->
     In (TutorialLikes.tutorial_id r) (map Tutorials.id (tutorials scenario_db))
     /\ In (TutorialLikes.user_id r) (map Profiles.id (profiles scenario_db)))
  /\ (forall r, In r (tutorial_comments scenario_db) ->
     In (TutorialComments.tutorial_id r) (map Tutorials.id (tutorials scenario_db))
     /\ In (TutorialComments.user_id r) (map Profiles.id (profiles scenario_db)))
  /\ (forall r, In r (enrollments scenario_db) ->
     In (Enrollments.tutorial_id r) (map Tutorials.id (tutorials scenario_db))
     /\ In (Enrollments.user_id r) (map Profiles.id (profiles scenario_db))).
Proof.
  exact (referential_integrity scenario_db scenario_reachable).
Defined.

(** ** Removing an account *)

(** X9. In a reachable state, removing the account [u] succeeds and
    leaves nothing of that user: no account and no profile with id [u], and
    no tutorial, like, comment or enrollment whose user is [u].  The profiles
    of all other users stay. *)
Theorem account_removal_leaves_nothing (now : timestamptz) (u : uuid) (s : db) :
  reachable s ->
  exists s',
    delete_auth_users now (account_is u) s = Ok s'
    /\ ~ In u (map AuthUsers.id (auth_users s'))
    /\ ~ In u (map Profiles.id (profiles s'))
    /\ (forall t, In t (tutorials s') -> Tutorials.user_id t <> u)
    /\ (forall r, In r (tutorial_likes s') -> TutorialLikes.user_id r <> u)
    /\ (forall r, In r (tutorial_comments s') -> TutorialComments.user_id r <> u)
    /\ (forall r, In r (enrollments s') -> Enrollments.user_id r <> u)
    /\ (forall p, In p (profiles s) -> Profiles.id p <> u -> In p (profiles s')).
Proof.
  intros Hs.
  destruct (reachable_counting s Hs) as (_ & _ & Hnn & Hmx).
  destruct (reachable_users_have_profile s Hs) as (HT & HL & HC & HE).
  pose proof (proj1 (reachable_accounts s Hs)) as Hacc.
  unfold delete_auth_users. cbv zeta.
  set (dead_p := fun p : Profiles.row =>
                   mem_uuid (Profiles.id p)
                     (map AuthUsers.id (filter (account_is u) (auth_users s)))).
  set (gone_p := fun i => mem_uuid i (map Profiles.id (filter dead_p (profiles s)))).
  set (dead_t := fun t => gone_p (Tutorials.user_id t)).
  assert (Hdead : forall p, In p (profiles s) -> (dead_p p = true <-> Profiles.id p = u)).
  { intros p Hp. unfold dead_p. rewrite mem_uuid_In, in_map_iff. split.
    - intros (a & Hid & Ha). apply filter_In in Ha. destruct Ha as [_ Ha].
      apply uuid_eqb_eq in Ha. congruence.
    - intros Hid.
      assert (Hin : In u (map AuthUsers.id (auth_users s)))
        by (apply Hacc; rewrite <- Hid; now apply in_map).
      apply in_map_iff in Hin. destruct Hin as (a & Ha & Hin).
      exists a. split; [congruence | ]. apply filter_In. split; [assumption | ].
      apply uuid_eqb_eq. assumption. }
  assert (Hgone : In u (map Profiles.id (profiles s)) -> gone_p u = true).
  { intros Hin. apply in_map_iff in Hin. destruct Hin as (p & Hid & Hp).
    apply mem_uuid_In. rewrite <- Hid. apply in_map. apply filter_In.
    split; [assumption | ]. now apply Hdead. }
  assert (Hkept : forall t, In t (filter (fun t => negb (dead_t t)) (tutorials s)) ->
            forall f, 0 <= get_counter f t <= int4_max).
  { intros t Ht f. apply filter_In in Ht. destruct Ht as [Ht _].
    split; [now apply Hnn | now apply Hmx]. }
  rewrite likes_delete_refs.
  match goal with
  | |- exists s', bind (fire_deletes likes now ?D ?k) _ = _ /\ _ =>
      destruct (fire_deletes_total likes now D k) as (t1 & E1)
  end; [intros t Ht; now apply Hkept | ].
  rewrite E1. cbn [bind].
  assert (H1 : forall t, In t t1 -> forall f, 0 <= get_counter f t <= int4_max).
  { intros t' Ht' f. pose proof (fire_deletes_spec _ _ _ _ _ E1) as S1.
    destruct (Forall2_In_r _ _ _ S1 t' Ht') as (t & Ht & Hthr).
    specialize (Hkept t Ht f).
    destruct (counter_field_eq_dec f likes) as [-> | Hf].
    - destruct Hthr as (_ & Ha & Hb & _). lia.
    - rewrite (through_deletes_other _ _ _ _ _ Hthr Hf). lia. }
  rewrite comments_delete_refs.
  match goal with
  | |- exists s', bind (fire_deletes comments now ?D ?k) _ = _ /\ _ =>
      destruct (fire_deletes_total comments now D k) as (t2 & E2)
  end; [intros t Ht; now apply H1 | ].
  rewrite E2. cbn [bind].
  assert (H2 : forall t, In t t2 -> forall f, 0 <= get_counter f t <= int4_max).
  { intros t' Ht' f. pose proof (fire_deletes_spec _ _ _ _ _ E2) as S2.
    destruct (Forall2_In_r _ _ _ S2 t' Ht') as (t & Ht & Hthr).
    specialize (H1 t Ht f).
    destruct (counter_field_eq_dec f comments) as [-> | Hf].
    - destruct Hthr as (_ & Ha & Hb & _). lia.
    - rewrite (through_deletes_other _ _ _ _ _ Hthr Hf). lia. }
  rewrite enrollments_delete_refs.
  match goal with
  | |- exists s', bind (fire_deletes enrollments_ now ?D ?k) _ = _ /\ _ =>
      destruct (fire_deletes_total enrollments_ now D k) as (t3 & E3)
  end; [intros t Ht; now apply H2 | ].
  rewrite E3. cbn [bind].
  eexists. split; [reflexivity | ]. simpl_tables.
  split; [ | split; [ | split; [ | split; [ | split; [ | split]]]]].
  - intros Hin. apply in_map_iff in Hin. destruct Hin as (a & Hid & Ha).
    apply filter_In in Ha. destruct Ha as [_ Ha]. apply negb_true_iff in Ha.
    unfold account_is in Ha. apply uuid_eqb_neq in Ha. contradiction.
  - intros Hin. apply in_map_iff in Hin. destruct Hin as (p & Hid & Hp).
    apply filter_In in Hp. destruct Hp as [Hp Hlive]. apply negb_true_iff in Hlive.
    change (dead_p p = false) in Hlive.
    rewrite (proj2 (Hdead p Hp) Hid) in Hlive. discriminate.
  - intros t' Ht' Hu.
    destruct (cascade_owner _ _ _ _ _ _ _ _ _ E1 E2 E3 Ht') as (t & Ht & Eu).
    apply filter_In in Ht. destruct Ht as [Ht Hlive]. apply negb_true_iff in Hlive.
    change (gone_p (Tutorials.user_id t) = false) in Hlive. rewrite <- Eu, Hu in Hlive.
    rewrite Hgone in Hlive; [discriminate | ].
    rewrite <- Hu, Eu. now apply HT.
  - intros r Hr Hu. apply filter_In in Hr. destruct Hr as [Hr Hlive].
    apply negb_true_iff, orb_false_iff in Hlive. destruct Hlive as [Hlive _].
    rewrite Hu in Hlive. change (gone_p u = false) in Hlive.
    rewrite Hgone in Hlive; [discriminate | ].
    rewrite <- Hu. now apply HL.
  - intros r Hr Hu. apply filter_In in Hr. destruct Hr as [Hr Hlive].
    apply negb_true_iff, orb_false_iff in Hlive. destruct Hlive as [Hlive _].
    rewrite Hu in Hlive. change (gone_p u = false) in Hlive.
    rewrite Hgone in Hlive; [discriminate | ].
    rewrite <- Hu. now apply HC.
  - intros r Hr Hu. apply filter_In in Hr. destruct Hr as [Hr Hlive].
    apply negb_true_iff, orb_false_iff in Hlive. destruct Hlive as [Hlive _].
    rewrite Hu in Hlive. change (gone_p u = false) in Hlive.
    rewrite Hgone in Hlive; [discriminate | ].
    rewrite <- Hu. now apply HE.
  - intros p Hp Hne. apply filter_In. split; [assumption | ].
    change (negb (dead_p p) = true).
    destruct (dead_p p) eqn:E; [ | reflexivity].
    apply (Hdead p Hp) in E. contradiction.
Qed.

Lemma account_removal_leaves_nothing_witness :
  exists s',
    delete_auth_users 60 (account_is "b") scenario_db = Ok s'
    /\ ~ In "b" (map AuthUsers.id (auth_users s'))
    /\ ~ In "b" (map Profiles.id (profiles s'))
    /\ (forall t, In t (tutorials s') -> Tutorials.user_id t <> "b")
    /\ (forall r, In r (tutorial_likes s') -> TutorialLikes.user_id r <> "b")
    /\ (forall r, In r (tutorial_comments s') -> TutorialComments.user_id r <> "b")
    /\ (forall r, In r (enrollments s') -> Enrollments.user_id r <> "b")
    /\ (forall p, In p (profiles scenario_db) -> Profiles.id p <> "b" ->
          In p (profiles s')).
Proof.
  exact (account_removal_leaves_nothing 60 "b" scenario_db scenario_reachable).
Defined.

(* ================================================================= *)
(** * Further properties of the CreateTutorial page *)

Lemma tutorialSchema_accepts d p :
  CreateTutorial.tutorialSchema d = inr p ->
  CreateTutorial.data_title d = Some (CreateTutorial.title p)
  /\ CreateTutorial.data_description d = Some (CreateTutorial.description p)
  /\ CreateTutorial.data_category d = CreateTutorial.category p
  /\ CreateTutorial.data_difficulty d = CreateTutorial.difficulty p
  /\ (5 <= String.length (CreateTutorial.title p) <= 200)%nat
  /\ (20 <= String.length (CreateTutorial.description p) <= 2000)%nat
  /\ (1 <= String.length (CreateTutorial.category p))%nat
  /\ (1 <= String.length (CreateTutorial.difficulty p))%nat.
Proof.
  unfold CreateTutorial.tutorialSchema. cbv zeta. intros E.
  destruct (CreateTutorial.z_string "title" _ _) as [ | t] eqn:E1; [discriminate | ].
  destruct (CreateTutorial.z_string "description" _ _) as [ | ds] eqn:E2; [discriminate | ].
  destruct (CreateTutorial.z_string "category" _ _) as [ | c] eqn:E3; [discriminate | ].
  destruct (CreateTutorial.z_string "difficulty" _ _) as [ | f] eqn:E4; [discriminate | ].
  injection E as <-. cbn.
  pose proof (z_string_accepts_max _ _ _ _ _ _ _ E1) as Ht2.
  pose proof (z_string_accepts_max _ _ _ _ _ _ _ E2) as Hd2.
  apply z_string_accepts in E1, E2, E3, E4.
  destruct E1 as [Et Ht], E2 as [Ed Hd], E3 as [Ec Hc], E4 as [Ef Hf].
  injection Ec as Ec. injection Ef as Ef. repeat split; auto.
Qed.

(** X10. The object [uploadThumbnail] stores goes to the tutorial-media
    bucket under a path whose first folder is the user's id (an id holds no
    slash).  Under the storage policies the user may therefore upload it and
    later update or delete it, and no caller with another identity may update
    or delete it. *)
Theorem thumbnail_goes_to_the_users_folder (user : uuid)
    (r : CreateTutorial.responses) (f : CreateTutorial.file)
    (bucket path : string) (f' : CreateTutorial.file) :
  has_char "/"%char user = false ->
  In (CreateTutorial.storage_upload bucket path f')
     (fst (CreateTutorial.uploadThumbnail user r f)) ->
  let o := {| StorageObjects.bucket_id := bucket; StorageObjects.name := path |} in
  bucket = "tutorial-media"
  /\ f' = f
  /\ array_first (storage_foldername path) = Some user
  /\ storage_permitted INSERT (caller user) o = true
  /\ storage_permitted UPDATE (caller user) o = true
  /\ storage_permitted DELETE (caller user) o = true
  /\ (forall j, auth_uid j <> Some user ->
        storage_permitted UPDATE j o = false
        /\ storage_permitted DELETE j o = false).
Proof.
  intros Hid Hin o.
  assert (Hup : bucket = "tutorial-media" /\ f' = f
                /\ path = String.append user
                            (String "/"%char
                               (String.append (CreateTutorial.Date_now r)
                                  (String.append "." (CreateTutorial.fileExt f))))).
  { unfold CreateTutorial.uploadThumbnail in Hin.
    destruct (CreateTutorial.upload_publicUrl r); cbn in Hin.
    - destruct Hin as [Hin | []]. injection Hin as <- <- <-. auto.
    - destruct Hin as [Hin | [Hin | [Hin | []]]]; try discriminate.
      injection Hin as <- <- <-. auto. }
  destruct Hup as (-> & -> & ->).
  pose proof (foldername_first user
                (String.append (CreateTutorial.Date_now r)
                   (String.append "." (CreateTutorial.fileExt f))) Hid) as Hfold.
  split; [reflexivity | ]. split; [reflexivity | ]. split; [exact Hfold | ].
  unfold storage_permitted, o,
    Authenticated_users_can_upload_tutorial_media,
    Users_can_update_their_own_tutorial_media,
    Users_can_delete_their_own_tutorial_media.
  cbn [StorageObjects.bucket_id StorageObjects.name].
  rewrite Hfold. cbn [auth_role auth_uid caller sub role option_map sql_eq].
  unfold uuid_text. rewrite (String.eqb_refl user).
  split; [reflexivity | ]. split; [reflexivity | ]. split; [reflexivity | ].
  intros j Hne.
  assert (Hno : is_true (sql_and (Some (String.eqb "tutorial-media" "tutorial-media"))
                  (sql_eq String.eqb (option_map uuid_text (auth_uid j)) (Some user)))
                = false).
  { destruct (auth_uid j) as [u | ]; [ | reflexivity]. cbn. unfold uuid_text.
    destruct (String.eqb u user) eqn:E; [ | reflexivity].
    apply String.eqb_eq in E. subst. contradiction. }
  split; exact Hno.
Qed.

Lemma thumbnail_goes_to_the_users_folder_witness :
  let o := {| StorageObjects.bucket_id := "tutorial-media";
              StorageObjects.name := "a/1700000000000.png" |} in
  "tutorial-media" = "tutorial-media"
  /\ cover = cover
  /\ array_first (storage_foldername "a/1700000000000.png") = Some "a"
  /\ storage_permitted INSERT (caller "a") o = true
  /\ storage_permitted UPDATE (caller "a") o = true
  /\ storage_permitted DELETE (caller "a") o = true
  /\ (forall j, auth_uid j <> Some "a" ->
        storage_permitted UPDATE j o = false
        /\ storage_permitted DELETE j o = false).
Proof.
  apply (thumbnail_goes_to_the_users_folder "a" no_answer cover
           "tutorial-media" "a/1700000000000.png" cover).
  - reflexivity.
  - left. reflexivity.
Defined.

Lemma insert_and_finish_inserts user d p r url e :
  In e (CreateTutorial.insert_and_finish user d p r url) ->
  CreateTutorial.is_insert e = true ->
  e = CreateTutorial.tutorials_insert
        {| CreateTutorial.p_user_id := user;
           CreateTutorial.p_title := CreateTutorial.title p;
           CreateTutorial.p_description := CreateTutorial.description p;
           CreateTutorial.p_category := CreateTutorial.category p;
           CreateTutorial.p_difficulty := CreateTutorial.difficulty p;
           CreateTutorial.p_video_url := CreateTutorial.data_video_url d;
           CreateTutorial.p_thumbnail_url := url |}.
Proof.
  unfold CreateTutorial.insert_and_finish. intros [<- | Hin] Hins; [reflexivity | ].
  destruct (CreateTutorial.insert_error r);
    repeat (destruct Hin as [<- | Hin]; [discriminate | ]); destruct Hin.
Qed.

Lemma handleSubmit_payload (user : uuid) (t ds v : option string)
    (r : CreateTutorial.responses) (st : CreateTutorial.state) :
  forall p,
      In (CreateTutorial.tutorials_insert p)
         (CreateTutorial.handleSubmit user t ds v r st) ->
      CreateTutorial.p_user_id p = user
      /\ t = Some (CreateTutorial.p_title p)
      /\ ds = Some (CreateTutorial.p_description p)
      /\ CreateTutorial.p_category p = CreateTutorial.st_category st
      /\ CreateTutorial.p_difficulty p = CreateTutorial.st_difficulty st
      /\ (5 <= String.length (CreateTutorial.p_title p) <= 200)%nat
      /\ (20 <= String.length (CreateTutorial.p_description p) <= 2000)%nat
      /\ CreateTutorial.p_category p <> EmptyString
      /\ CreateTutorial.p_difficulty p <> EmptyString
      /\ CreateTutorial.p_video_url p
         = (if CreateTutorial.truthy v then v else None)
      /\ CreateTutorial.p_video_url p <> Some EmptyString
      /\ match CreateTutorial.thumbnailFile st with
         | Some _ => CreateTutorial.p_thumbnail_url p = CreateTutorial.upload_publicUrl r
                     /\ CreateTutorial.truthy (CreateTutorial.upload_publicUrl r) = true
         | None => CreateTutorial.p_thumbnail_url p = None
         end.
Proof.
  unfold CreateTutorial.handleSubmit. cbv zeta. intros p Hin.
  destruct (CreateTutorial.tutorialSchema _) as [issues | p0] eqn:E.
  { destruct issues; [destruct Hin | ]. destruct Hin as [Hin | []]. discriminate. }
  apply tutorialSchema_accepts in E. cbn in E.
  destruct E as (Et & Ed & Ec & Ef & Ht & Hd & Hc & Hf).
  assert (Hv : (if CreateTutorial.truthy v then v else None) <> Some EmptyString).
  { destruct v as [[ | c s] | ]; cbn; discriminate. }
  assert (Hne : forall s, (1 <= String.length s)%nat -> s <> EmptyString).
  { intros s Hs ->. simpl in Hs. lia. }
  assert (Hp : exists url,
             p = {| CreateTutorial.p_user_id := user;
                    CreateTutorial.p_title := CreateTutorial.title p0;
                    CreateTutorial.p_description := CreateTutorial.description p0;
                    CreateTutorial.p_category := CreateTutorial.category p0;
                    CreateTutorial.p_difficulty := CreateTutorial.difficulty p0;
                    CreateTutorial.p_video_url :=
                      if CreateTutorial.truthy v then v else None;
                    CreateTutorial.p_thumbnail_url := url |}
             /\ match CreateTutorial.thumbnailFile st with
                | Some _ => url = CreateTutorial.upload_publicUrl r
                            /\ CreateTutorial.truthy (CreateTutorial.upload_publicUrl r) = true
                | None => url = None
                end).
  { destruct (CreateTutorial.thumbnailFile st) as [f | ].
    - unfold CreateTutorial.uploadThumbnail in Hin.
      destruct (CreateTutorial.upload_publicUrl r) as [url | ] eqn:Eu.
      + destruct (CreateTutorial.truthy (Some url)) eqn:Etr.
        * apply in_app_or in Hin. destruct Hin as [[Hin | []] | Hin]; [discriminate | ].
          apply insert_and_finish_inserts in Hin; [ | reflexivity].
          injection Hin as ->. exists (Some url). auto.
        * destruct Hin as [Hin | []]. discriminate.
      + cbn in Hin. destruct Hin as [Hin | [Hin | [Hin | []]]]; discriminate.
    - apply insert_and_finish_inserts in Hin; [ | reflexivity].
      injection Hin as ->. exists None. auto. }
  destruct Hp as (url & -> & Hurl). cbn.
  repeat split; try congruence; try lia; auto.
Qed.

(** X11. What [handleSubmit] sends to the tutorials table.  Any payload it
    inserts carries the signed-in user's id, the title and description of the
    form and the category and difficulty chosen, all within the bounds of the
    schema; its [video_url] is the form's value, or null when that was empty
    (never the empty string); its [thumbnail_url] is the URL the upload
    returned when a file was chosen and null otherwise.  When a file was
    chosen and the upload failed or returned no URL, nothing is inserted. *)
Theorem submitted_payload (user : uuid) (t ds v : option string)
    (r : CreateTutorial.responses) (st : CreateTutorial.state) :
  (forall p,
      In (CreateTutorial.tutorials_insert p)
         (CreateTutorial.handleSubmit user t ds v r st) ->
      CreateTutorial.p_user_id p = user
      /\ t = Some (CreateTutorial.p_title p)
      /\ ds = Some (CreateTutorial.p_description p)
      /\ CreateTutorial.p_category p = CreateTutorial.st_category st
      /\ CreateTutorial.p_difficulty p = CreateTutorial.st_difficulty st
      /\ (5 <= String.length (CreateTutorial.p_title p) <= 200)%nat
      /\ (20 <= String.length (CreateTutorial.p_description p) <= 2000)%nat
      /\ CreateTutorial.p_category p <> EmptyString
      /\ CreateTutorial.p_difficulty p <> EmptyString
      /\ CreateTutorial.p_video_url p
         = (if CreateTutorial.truthy v then v else None)
      /\ CreateTutorial.p_video_url p <> Some EmptyString
      /\ match CreateTutorial.thumbnailFile st with
         | Some _ => CreateTutorial.p_thumbnail_url p = CreateTutorial.upload_publicUrl r
                     /\ CreateTutorial.truthy (CreateTutorial.upload_publicUrl r) = true
         | None => CreateTutorial.p_thumbnail_url p = None
         end)
  /\ (CreateTutorial.thumbnailFile st <> None ->
      CreateTutorial.truthy (CreateTutorial.upload_publicUrl r) = false ->
      existsb CreateTutorial.is_insert
              (CreateTutorial.handleSubmit user t ds v r st) = false).
Proof.
  split; [apply handleSubmit_payload | ].
  intros Hfile Hfail. unfold CreateTutorial.handleSubmit. cbv zeta.
  destruct (CreateTutorial.tutorialSchema _) as [issues | p0].
  { destruct issues; reflexivity. }
  destruct (CreateTutorial.thumbnailFile st) as [f | ]; [ | congruence].
  unfold CreateTutorial.uploadThumbnail.
  destruct (CreateTutorial.upload_publicUrl r) as [url | ].
  - rewrite Hfail. reflexivity.
  - reflexivity.
Qed.

Lemma submitted_payload_witness :
  In (CreateTutorial.tutorials_insert
        {| CreateTutorial.p_user_id := "a";
           CreateTutorial.p_title := "Introduction to React Hooks";
           CreateTutorial.p_description := "State and effects in function components.";
           CreateTutorial.p_category := "programming";
           CreateTutorial.p_difficulty := "beginner";
           CreateTutorial.p_video_url := None;
           CreateTutorial.p_thumbnail_url := Some "https://cdn/a/1700000000000.png" |})
     (CreateTutorial.handleSubmit "a" (Some "Introduction to React Hooks")
        (Some "State and effects in function components.") (Some EmptyString)
        no_answer form_filled)
  /\ existsb CreateTutorial.is_insert
       (CreateTutorial.handleSubmit "a" (Some "Introduction to React Hooks")
          (Some "State and effects in function components.") (Some EmptyString)
          upload_refused form_filled) = false.
Proof.
  split.
  - right. left. reflexivity.
  - apply (proj2 (submitted_payload "a" (Some "Introduction to React Hooks")
                    (Some "State and effects in function components.")
                    (Some EmptyString) upload_refused form_filled)).
    + discriminate.
    + reflexivity.
Defined.

(* ================================================================= *)
(** * Further properties of the TutorialDetail page *)

Lemma filter_nil_existsb {A : Type} (p : A -> bool) (l : list A) :
  filter p l = [] -> existsb p l = false.
Proof.
  induction l as [ | a l IH]; simpl; [reflexivity | ].
  destruct (p a); simpl; [discriminate | exact IH].
Qed.

Lemma filter_all {A : Type} (p : A -> bool) (l : list A) :
  (forall x, In x l -> p x = true) -> filter p l = l.
Proof.
  induction l as [ | a l IH]; simpl; intros H; [reflexivity | ].
  rewrite (H a) by auto. f_equal. apply IH. auto.
Qed.

Lemma existsb_false_all {A : Type} (p : A -> bool) (l : list A) :
  existsb p l = false -> forall x, In x l -> p x = false.
Proof.
  intros H x Hx. destruct (p x) eqn:E; [ | reflexivity].
  assert (existsb p l = true) by (apply existsb_exists; eauto). congruence.
Qed.

Lemma own_like_hit u T r :
  is_true (Likes_are_viewable_by_everyone (caller u) r)
  && is_true (Users_can_unlike_tutorials (caller u) r) && like_of_pair T u r
  = like_of_pair T u r.
Proof.
  destruct (like_of_pair T u r) eqn:E; [ | apply andb_false_r].
  unfold like_of_pair in E. apply andb_true_iff in E. destruct E as [_ E].
  apply uuid_eqb_eq in E.
  assert (H : is_true (Users_can_unlike_tutorials (caller u) r) = true).
  { unfold Users_can_unlike_tutorials. apply is_true_sql_eq. cbn. congruence. }
  rewrite H. reflexivity.
Qed.

Lemma own_enrollment_hit u T r :
  is_true (Users_can_view_their_own_enrollments (caller u) r)
  && is_true (Users_can_unenroll_from_tutorials (caller u) r)
  && enrollment_of_pair T u r
  = enrollment_of_pair T u r.
Proof.
  destruct (enrollment_of_pair T u r) eqn:E; [ | apply andb_false_r].
  unfold enrollment_of_pair in E. apply andb_true_iff in E. destruct E as [_ E].
  apply uuid_eqb_eq in E.
  assert (H : is_true (sql_eq uuid_eqb (auth_uid (caller u))
                         (Some (Enrollments.user_id r))) = true).
  { apply is_true_sql_eq. cbn. congruence. }
  unfold Users_can_view_their_own_enrollments, Users_can_unenroll_from_tutorials.
  rewrite H. reflexivity.
Qed.

Lemma delete_tutorial_likes_rows j now w s s' :
  delete_tutorial_likes j now w s = Ok s' ->
  tutorial_likes s'
  = filter (fun r => negb (is_true (Likes_are_viewable_by_everyone j r)
                           && is_true (Users_can_unlike_tutorials j r) && w r))
           (tutorial_likes s)
  /\ enrollments s' = enrollments s
  /\ tutorial_comments s' = tutorial_comments s
  /\ profiles s' = profiles s /\ auth_users s' = auth_users s.
Proof.
  unfold delete_tutorial_likes. cbv zeta. intros H. inv_bind H. injection H as <-.
  repeat split.
Qed.

Lemma delete_enrollments_rows j now w s s' :
  delete_enrollments j now w s = Ok s' ->
  enrollments s'
  = filter (fun r => negb (is_true (Users_can_view_their_own_enrollments j r)
                           && is_true (Users_can_unenroll_from_tutorials j r) && w r))
           (enrollments s)
  /\ tutorial_likes s' = tutorial_likes s
  /\ tutorial_comments s' = tutorial_comments s
  /\ profiles s' = profiles s /\ auth_users s' = auth_users s.
Proof.
  unfold delete_enrollments. cbv zeta. intros H. inv_bind H. injection H as <-.
  repeat split.
Qed.

Lemma delete_own_likes_tables u now T s s' :
  delete_tutorial_likes (caller u) now (like_of_pair T u) s = Ok s' ->
  existsb (like_of_pair T u) (tutorial_likes s') = false
  /\ (forall r, like_of_pair T u r = false ->
        (In r (tutorial_likes s') <-> In r (tutorial_likes s)))
  /\ enrollments s' = enrollments s
  /\ tutorial_comments s' = tutorial_comments s
  /\ profiles s' = profiles s /\ auth_users s' = auth_users s.
Proof.
  intros H. apply delete_tutorial_likes_rows in H.
  destruct H as (El & He & Hc & Hp & Ha). rewrite El.
  repeat split; try assumption.
  - destruct (existsb _ _) eqn:E; [ | reflexivity].
    apply existsb_exists in E. destruct E as (r & Hr & Hpair).
    apply filter_In in Hr. destruct Hr as [_ Hr]. cbv beta in Hr.
    rewrite own_like_hit, Hpair in Hr. discriminate.
  - intros Hr. apply filter_In in Hr. tauto.
  - intros Hr. apply filter_In. split; [assumption | ]. cbv beta.
    rewrite own_like_hit, H. reflexivity.
Qed.

Lemma delete_own_enrollments_tables u now T s s' :
  delete_enrollments (caller u) now (enrollment_of_pair T u) s = Ok s' ->
  existsb (enrollment_of_pair T u) (enrollments s') = false
  /\ (forall r, enrollment_of_pair T u r = false ->
        (In r (enrollments s') <-> In r (enrollments s)))
  /\ tutorial_likes s' = tutorial_likes s
  /\ tutorial_comments s' = tutorial_comments s
  /\ profiles s' = profiles s /\ auth_users s' = auth_users s.
Proof.
  intros H. apply delete_enrollments_rows in H.
  destruct H as (Ee & Hl & Hc & Hp & Ha). rewrite Ee.
  repeat split; try assumption.
  - destruct (existsb _ _) eqn:E; [ | reflexivity].
    apply existsb_exists in E. destruct E as (r & Hr & Hpair).
    apply filter_In in Hr. destruct Hr as [_ Hr]. cbv beta in Hr.
    rewrite own_enrollment_hit, Hpair in Hr. discriminate.
  - intros Hr. apply filter_In in Hr. tauto.
  - intros Hr. apply filter_In. split; [assumption | ]. cbv beta.
    rewrite own_enrollment_hit, H. reflexivity.
Qed.

Lemma insert_like_tables j now NEW s s' :
  insert_tutorial_like j now NEW s = Ok s' ->
  tutorial_likes s' = tutorial_likes s ++ [NEW]
  /\ enrollments s' = enrollments s
  /\ tutorial_comments s' = tutorial_comments s
  /\ profiles s' = profiles s /\ auth_users s' = auth_users s.
Proof.
  unfold insert_tutorial_like. intros H. repeat inv_check H. inv_bind H.
  injection H as <-. repeat split.
Qed.

Lemma insert_enrollment_tables j now NEW s s' :
  insert_enrollment j now NEW s = Ok s' ->
  enrollments s' = enrollments s ++ [NEW]
  /\ tutorial_likes s' = tutorial_likes s
  /\ tutorial_comments s' = tutorial_comments s
  /\ profiles s' = profiles s /\ auth_users s' = auth_users s.
Proof.
  unfold insert_enrollment. intros H. repeat inv_check H. inv_bind H.
  injection H as <-. repeat split.
Qed.

Lemma pair_of_new_like T u i now :
  like_of_pair T u
    {| TutorialLikes.id := i; TutorialLikes.tutorial_id := T;
       TutorialLikes.user_id := u; TutorialLikes.created_at := now |} = true.
Proof. unfold like_of_pair. cbn. now rewrite !uuid_eqb_refl. Qed.

Lemma pair_of_new_enrollment T u i now :
  enrollment_of_pair T u
    {| Enrollments.id := i; Enrollments.tutorial_id := T;
       Enrollments.user_id := u; Enrollments.enrolled_at := now |} = true.
Proof. unfold enrollment_of_pair. cbn. now rewrite !uuid_eqb_refl. Qed.

Lemma in_snoc_other {A : Type} (p : A -> bool) (l : list A) (NEW r : A) :
  p NEW = true -> p r = false -> (In r (l ++ [NEW]) <-> In r l).
Proof.
  intros Hn Hr. rewrite in_app_iff. split; [ | tauto].
  intros [H | [H | []]]; [assumption | ]. subst. congruence.
Qed.

(** X12. One click on the like button by a signed-in user.  Either the
    request failed, and then the component state and the database are what
    they were and the error toast is shown; or it succeeded, and then
    [isLiked] has flipped and says whether the user now holds a like on the
    tutorial, the success toast names the direction and the tutorial is
    fetched again.  A successful click leaves every like of another
    (tutorial, user) pair, and the other tables apart from tutorials, as
    they were. *)
Theorem like_button_after_a_click (u T : uuid) (srv : TutorialDetail.server)
    (st st' : TutorialDetail.state) (s s' : db)
    (effs : list TutorialDetail.effect) :
  TutorialDetail.handleLike (Some u) T srv st s = (st', s', effs) ->
  (st' = st /\ s' = s
   /\ effs = [TutorialDetail.console_error "Error toggling like:";
              TutorialDetail.toast_error "Failed to update like status"])
  \/ (TutorialDetail.isLiked st' = negb (TutorialDetail.isLiked st)
      /\ TutorialDetail.isLiked st' = existsb (like_of_pair T u) (tutorial_likes s')
      /\ TutorialDetail.isEnrolled st' = TutorialDetail.isEnrolled st
      /\ (forall r, like_of_pair T u r = false ->
            (In r (tutorial_likes s') <-> In r (tutorial_likes s)))
      /\ enrollments s' = enrollments s
      /\ tutorial_comments s' = tutorial_comments s
      /\ profiles s' = profiles s /\ auth_users s' = auth_users s
      /\ effs = [TutorialDetail.toast_success
                   (if TutorialDetail.isLiked st then "Removed from favorites"
                    else "Added to favorites");
                 TutorialDetail.fetchTutorial]).
Proof.
  unfold TutorialDetail.handleLike. cbv zeta. intros H.
  destruct (TutorialDetail.isLiked st) eqn:El.
  - destruct (delete_tutorial_likes _ _ _ s) as [s1 | e] eqn:Ed.
    + injection H as <- <- <-. right.
      apply delete_own_likes_tables in Ed.
      destruct Ed as (Hno & Hother & He & Hc & Hp & Ha).
      cbn [TutorialDetail.isLiked TutorialDetail.isEnrolled].
      rewrite Hno. repeat split; auto; apply Hother; assumption.
    + injection H as <- <- <-. left. repeat split.
  - destruct (insert_tutorial_like _ _ _ s) as [s1 | e] eqn:Ei.
    + injection H as <- <- <-. right.
      apply insert_like_tables in Ei.
      destruct Ei as (Hl & He & Hc & Hp & Ha).
      cbn [TutorialDetail.isLiked TutorialDetail.isEnrolled].
      rewrite Hl, existsb_app. cbn [existsb].
      rewrite pair_of_new_like, orb_true_r.
      repeat split; auto;
        apply (in_snoc_other (like_of_pair T u)); auto using pair_of_new_like.
    + injection H as <- <- <-. left. repeat split.
Qed.

Lemma like_button_after_a_click_witness :
  exists st' s' effs,
    TutorialDetail.handleLike (Some "a") "x" (click_at "l3" 50) page_opened scenario_db
    = (st', s', effs)
    /\ TutorialDetail.isLiked st' = true
    /\ existsb (like_of_pair "x" "a") (tutorial_likes s') = true
    /\ effs = [TutorialDetail.toast_success "Added to favorites";
               TutorialDetail.fetchTutorial].
Proof.
  eexists _, _, _. split; [vm_compute; reflexivity | ].
  destruct (like_button_after_a_click "a" "x" (click_at "l3" 50) page_opened _
              scenario_db _ _ eq_refl)
    as [(_ & _ & H) | (H1 & H2 & _ & _ & _ & _ & _ & _ & H3)].
  - discriminate H.
  - split; [exact H1 | ]. split; [exact (eq_trans (eq_sym H2) H1) | exact H3].
Defined.

(** X13. One click on the enroll button, as for the like button: a failed
    request changes nothing; a successful one flips [isEnrolled], which then
    says whether the user is enrolled, and leaves every other enrollment
    alone. *)
Theorem enroll_button_after_a_click (u T : uuid) (srv : TutorialDetail.server)
    (st st' : TutorialDetail.state) (s s' : db)
    (effs : list TutorialDetail.effect) :
  TutorialDetail.handleEnroll (Some u) T srv st s = (st', s', effs) ->
  (st' = st /\ s' = s
   /\ effs = [TutorialDetail.console_error "Error toggling enrollment:";
              TutorialDetail.toast_error "Failed to update enrollment"])
  \/ (TutorialDetail.isEnrolled st' = negb (TutorialDetail.isEnrolled st)
      /\ TutorialDetail.isEnrolled st'
         = existsb (enrollment_of_pair T u) (enrollments s')
      /\ TutorialDetail.isLiked st' = TutorialDetail.isLiked st
      /\ (forall r, enrollment_of_pair T u r = false ->
            (In r (enrollments s') <-> In r (enrollments s)))
      /\ tutorial_likes s' = tutorial_likes s
      /\ tutorial_comments s' = tutorial_comments s
      /\ profiles s' = profiles s /\ auth_users s' = auth_users s
      /\ effs = [TutorialDetail.toast_success
                   (if TutorialDetail.isEnrolled st then "Unenrolled from tutorial"
                    else "Enrolled successfully!");
                 TutorialDetail.fetchTutorial]).
Proof.
  unfold TutorialDetail.handleEnroll. cbv zeta. intros H.
  destruct (TutorialDetail.isEnrolled st) eqn:El.
  - destruct (delete_enrollments _ _ _ s) as [s1 | e] eqn:Ed.
    + injection H as <- <- <-. right.
      apply delete_own_enrollments_tables in Ed.
      destruct Ed as (Hno & Hother & He & Hc & Hp & Ha).
      cbn [TutorialDetail.isLiked TutorialDetail.isEnrolled].
      rewrite Hno. repeat split; auto; apply Hother; assumption.
    + injection H as <- <- <-. left. repeat split.
  - destruct (insert_enrollment _ _ _ s) as [s1 | e] eqn:Ei.
    + injection H as <- <- <-. right.
      apply insert_enrollment_tables in Ei.
      destruct Ei as (Hl & He & Hc & Hp & Ha).
      cbn [TutorialDetail.isLiked TutorialDetail.isEnrolled].
      rewrite Hl, existsb_app. cbn [existsb].
      rewrite pair_of_new_enrollment, orb_true_r.
      repeat split; auto;
        apply (in_snoc_other (enrollment_of_pair T u));
        auto using pair_of_new_enrollment.
    + injection H as <- <- <-. left. repeat split.
Qed.

Lemma enroll_button_after_a_click_witness :
  exists st' s' effs,
    TutorialDetail.handleEnroll (Some "a") "x" (click_at "e3" 50) page_opened scenario_db
    = (st', s', effs)
    /\ TutorialDetail.isEnrolled st' = true
    /\ existsb (enrollment_of_pair "x" "a") (enrollments s') = true
    /\ effs = [TutorialDetail.toast_success "Enrolled successfully!";
               TutorialDetail.fetchTutorial].
Proof.
  eexists _, _, _. split; [vm_compute; reflexivity | ].
  destruct (enroll_button_after_a_click "a" "x" (click_at "e3" 50) page_opened _
              scenario_db _ _ eq_refl)
    as [(_ & _ & H) | (H1 & H2 & _ & _ & _ & _ & _ & _ & H3)].
  - discriminate H.
  - split; [exact H1 | ]. split; [exact (eq_trans (eq_sym H2) H1) | exact H3].
Defined.

Lemma maybeSingle_at_most_one {A B : Type} (f : A -> B) (p : A -> bool) (l : list A) :
  (List.length (filter p l) <= 1)%nat ->
  exists data,
    TutorialDetail.maybeSingle (map f (filter p l)) = Some data
    /\ TutorialDetail.not_not data = existsb p l.
Proof.
  intros H. destruct (filter p l) as [ | r [ | r' rest]] eqn:E.
  - exists None. split; [reflexivity | ]. symmetry. now apply filter_nil_existsb.
  - exists (Some (f r)). split; [reflexivity | ]. symmetry.
    apply filter_nonempty_existsb. rewrite E. discriminate.
  - simpl in H. lia.
Qed.

Lemma own_enrollment_visible u T r :
  is_true (Users_can_view_their_own_enrollments (caller u) r)
  && enrollment_of_pair T u r
  = enrollment_of_pair T u r.
Proof.
  destruct (enrollment_of_pair T u r) eqn:E; [ | apply andb_false_r].
  unfold enrollment_of_pair in E. apply andb_true_iff in E. destruct E as [_ E].
  apply uuid_eqb_eq in E.
  assert (H : is_true (Users_can_view_their_own_enrollments (caller u) r) = true).
  { unfold Users_can_view_their_own_enrollments. apply is_true_sql_eq. cbn. congruence. }
  rewrite H. reflexivity.
Qed.

(** X14. In every reachable state the two status checks of the page
    succeed and read the tables: [checkLikeStatus] sets [isLiked] to whether
    the user holds a like on the tutorial, [checkEnrollmentStatus] sets
    [isEnrolled] to whether the user is enrolled in it; neither logs an
    error and neither touches the other flag. *)
Theorem status_checks_read_the_tables (u T : uuid) (st : TutorialDetail.state)
    (s : db) :
  reachable s ->
  TutorialDetail.checkLikeStatus u T s st
  = ({| TutorialDetail.isLiked := existsb (like_of_pair T u) (tutorial_likes s);
        TutorialDetail.isEnrolled := TutorialDetail.isEnrolled st |}, [])
  /\ TutorialDetail.checkEnrollmentStatus u T s st
     = ({| TutorialDetail.isLiked := TutorialDetail.isLiked st;
           TutorialDetail.isEnrolled :=
             existsb (enrollment_of_pair T u) (enrollments s) |}, []).
Proof.
  intros Hr. destruct (reachable_unique_pairs s Hr) as [HL HE]. split.
  - unfold TutorialDetail.checkLikeStatus. cbv zeta.
    rewrite (filter_ext
               (fun r => is_true (Likes_are_viewable_by_everyone (caller u) r)
                         && like_of_pair T u r)
               (like_of_pair T u)) by reflexivity.
    destruct (maybeSingle_at_most_one TutorialLikes.id (like_of_pair T u)
                (tutorial_likes s)) as (data & E1 & E2).
    { exact (NoDup_at_most_one TutorialLikes.tutorial_id TutorialLikes.user_id
               T u (tutorial_likes s) HL). }
    rewrite E1, E2. reflexivity.
  - unfold TutorialDetail.checkEnrollmentStatus. cbv zeta.
    rewrite (filter_ext
               (fun r => is_true (Users_can_view_their_own_enrollments (caller u) r)
                         && enrollment_of_pair T u r)
               (enrollment_of_pair T u)) by (intros r; apply own_enrollment_visible).
    destruct (maybeSingle_at_most_one Enrollments.id (enrollment_of_pair T u)
                (enrollments s)) as (data & E1 & E2).
    { exact (NoDup_at_most_one Enrollments.tutorial_id Enrollments.user_id
               T u (enrollments s) HE). }
    rewrite E1, E2. reflexivity.
Qed.

Lemma status_checks_read_the_tables_witness :
  TutorialDetail.checkLikeStatus "b" "x" scenario_db page_opened
  = ({| TutorialDetail.isLiked := true; TutorialDetail.isEnrolled := false |}, [])
  /\ TutorialDetail.checkEnrollmentStatus "b" "x" scenario_db page_opened
     = ({| TutorialDetail.isLiked := false; TutorialDetail.isEnrolled := true |}, []).
Proof.
  exact (status_checks_read_the_tables "b" "x" page_opened scenario_db
           scenario_reachable).
Defined.

Lemma delete_tutorial_likes_none j now w s :
  (forall r, In r (tutorial_likes s) ->
     is_true (Likes_are_viewable_by_everyone j r)
     && is_true (Users_can_unlike_tutorials j r) && w r = false) ->
  delete_tutorial_likes j now w s = Ok s.
Proof.
  intros H. unfold delete_tutorial_likes. cbv zeta.
  match goal with
  | |- context [for_each_row _ (filter ?h ?l) _] =>
      rewrite (filter_none h l) by exact H;
      rewrite (filter_all (fun r => negb (h r)) l)
        by (intros r Hr; cbv beta; now rewrite (H r Hr))
  end.
  cbn [for_each_row bind]. destruct s; reflexivity.
Qed.

Lemma delete_enrollments_none j now w s :
  (forall r, In r (enrollments s) ->
     is_true (Users_can_view_their_own_enrollments j r)
     && is_true (Users_can_unenroll_from_tutorials j r) && w r = false) ->
  delete_enrollments j now w s = Ok s.
Proof.
  intros H. unfold delete_enrollments. cbv zeta.
  match goal with
  | |- context [for_each_row _ (filter ?h ?l) _] =>
      rewrite (filter_none h l) by exact H;
      rewrite (filter_all (fun r => negb (h r)) l)
        by (intros r Hr; cbv beta; now rewrite (H r Hr))
  end.
  cbn [for_each_row bind]. destruct s; reflexivity.
Qed.

(** X15. A button that is out of step with the table.  When the page
    shows the tutorial as not liked while the user holds a like on it, a click
    is refused by the database and ends in the error toast, with state and
    database unchanged.  When it shows the tutorial as liked while there is no
    such like, the click deletes nothing and still reports success, with the
    database unchanged and [isLiked] now false.  The enroll button behaves the
    same way. *)
Theorem buttons_out_of_step (u T : uuid) (srv : TutorialDetail.server)
    (st : TutorialDetail.state) (s : db) :
  (TutorialDetail.isLiked st = false ->
   existsb (like_of_pair T u) (tutorial_likes s) = true ->
   TutorialDetail.handleLike (Some u) T srv st s
   = (st, s, [TutorialDetail.console_error "Error toggling like:";
              TutorialDetail.toast_error "Failed to update like status"]))
  /\ (TutorialDetail.isLiked st = true ->
      existsb (like_of_pair T u) (tutorial_likes s) = false ->
      TutorialDetail.handleLike (Some u) T srv st s
      = ({| TutorialDetail.isLiked := false;
            TutorialDetail.isEnrolled := TutorialDetail.isEnrolled st |}, s,
         [TutorialDetail.toast_success "Removed from favorites";
          TutorialDetail.fetchTutorial]))
  /\ (TutorialDetail.isEnrolled st = false ->
      existsb (enrollment_of_pair T u) (enrollments s) = true ->
      TutorialDetail.handleEnroll (Some u) T srv st s
      = (st, s, [TutorialDetail.console_error "Error toggling enrollment:";
                 TutorialDetail.toast_error "Failed to update enrollment"]))
  /\ (TutorialDetail.isEnrolled st = true ->
      existsb (enrollment_of_pair T u) (enrollments s) = false ->
      TutorialDetail.handleEnroll (Some u) T srv st s
      = ({| TutorialDetail.isLiked := TutorialDetail.isLiked st;
            TutorialDetail.isEnrolled := false |}, s,
         [TutorialDetail.toast_success "Unenrolled from tutorial";
          TutorialDetail.fetchTutorial])).
Proof.
  split; [ | split; [ | split]]; intros Hst Hrow.
  - unfold TutorialDetail.handleLike. cbv zeta. rewrite Hst.
    match goal with
    | |- context [insert_tutorial_like ?j ?now ?NEW s] =>
        destruct (duplicate_like_rejected j now NEW s) as (e & ->)
    end; [ | reflexivity].
    unfold likes_of. cbn [TutorialLikes.tutorial_id TutorialLikes.user_id].
    intros Hnil. apply filter_nil_existsb in Hnil.
    unfold like_of_pair in Hrow. congruence.
  - unfold TutorialDetail.handleLike. cbv zeta. rewrite Hst.
    rewrite delete_tutorial_likes_none; [reflexivity | ].
    intros r Hr. rewrite own_like_hit.
    exact (existsb_false_all _ _ Hrow r Hr).
  - unfold TutorialDetail.handleEnroll. cbv zeta. rewrite Hst.
    match goal with
    | |- context [insert_enrollment ?j ?now ?NEW s] =>
        destruct (duplicate_enrollment_rejected j now NEW s) as (e & ->)
    end; [ | reflexivity].
    unfold enrollments_of. cbn [Enrollments.tutorial_id Enrollments.user_id].
    intros Hnil. apply filter_nil_existsb in Hnil.
    unfold enrollment_of_pair in Hrow. congruence.
  - unfold TutorialDetail.handleEnroll. cbv zeta. rewrite Hst.
    rewrite delete_enrollments_none; [reflexivity | ].
    intros r Hr. rewrite own_enrollment_hit.
    exact (existsb_false_all _ _ Hrow r Hr).
Qed.

Lemma buttons_out_of_step_witness :
  TutorialDetail.handleLike (Some "b") "x" (click_at "l2" 50) page_opened scenario_db
  = (page_opened, scenario_db,
     [TutorialDetail.console_error "Error toggling like:";
      TutorialDetail.toast_error "Failed to update like status"])
  /\ TutorialDetail.handleEnroll (Some "b") "x" (click_at "e2" 50) page_opened scenario_db
     = (page_opened, scenario_db,
        [TutorialDetail.console_error "Error toggling enrollment:";
         TutorialDetail.toast_error "Failed to update enrollment"]).
Proof.
  pose proof (buttons_out_of_step "b" "x" (click_at "l2" 50) page_opened scenario_db)
    as (H1 & _ & _ & _).
  pose proof (buttons_out_of_step "b" "x" (click_at "e2" 50) page_opened scenario_db)
    as (_ & _ & H3 & _).
  split; [apply H1 | apply H3]; reflexivity.
Defined.

Lemma delete_tutorial_likes_total j now w s :
  counters_nonneg s -> counters_in_int4 s ->
  exists s', delete_tutorial_likes j now w s = Ok s'.
Proof.
  intros Hnn Hmx. unfold delete_tutorial_likes. cbv zeta.
  rewrite likes_delete_refs.
  match goal with
  | |- context [fire_deletes likes now ?D ?t] =>
      destruct (fire_deletes_total likes now D t) as (t' & E)
  end.
  { intros t Ht. split; [apply (Hnn t Ht likes) | apply (Hmx t Ht likes)]. }
  rewrite E. cbn [bind]. eexists; reflexivity.
Qed.

Lemma delete_enrollments_total j now w s :
  counters_nonneg s -> counters_in_int4 s ->
  exists s', delete_enrollments j now w s = Ok s'.
Proof.
  intros Hnn Hmx. unfold delete_enrollments. cbv zeta.
  rewrite enrollments_delete_refs.
  match goal with
  | |- context [fire_deletes enrollments_ now ?D ?t] =>
      destruct (fire_deletes_total enrollments_ now D t) as (t' & E)
  end.
  { intros t Ht. split; [apply (Hnn t Ht enrollments_) | apply (Hmx t Ht enrollments_)]. }
  rewrite E. cbn [bind]. eexists; reflexivity.
Qed.

(** X16. In every reachable state, withdrawing never fails: a click on a
    button that shows "liked" (or "enrolled") ends in the success toast, never
    in the error toast, whatever the tables hold. *)
Theorem withdrawing_never_fails (u T : uuid) (srv : TutorialDetail.server)
    (st : TutorialDetail.state) (s : db) :
  reachable s ->
  (TutorialDetail.isLiked st = true ->
   exists s',
     TutorialDetail.handleLike (Some u) T srv st s
     = ({| TutorialDetail.isLiked := false;
           TutorialDetail.isEnrolled := TutorialDetail.isEnrolled st |}, s',
        [TutorialDetail.toast_success "Removed from favorites";
         TutorialDetail.fetchTutorial]))
  /\ (TutorialDetail.isEnrolled st = true ->
      exists s',
        TutorialDetail.handleEnroll (Some u) T srv st s
        = ({| TutorialDetail.isLiked := TutorialDetail.isLiked st;
              TutorialDetail.isEnrolled := false |}, s',
           [TutorialDetail.toast_success "Unenrolled from tutorial";
            TutorialDetail.fetchTutorial])).
Proof.
  intros Hr. destruct (reachable_counting s Hr) as (_ & _ & Hnn & Hmx).
  split; intros Hst.
  - unfold TutorialDetail.handleLike. cbv zeta. rewrite Hst.
    destruct (delete_tutorial_likes_total (caller u) (TutorialDetail.NOW srv)
                (like_of_pair T u) s Hnn Hmx) as (s' & ->).
    exists s'. reflexivity.
  - unfold TutorialDetail.handleEnroll. cbv zeta. rewrite Hst.
    destruct (delete_enrollments_total (caller u) (TutorialDetail.NOW srv)
                (enrollment_of_pair T u) s Hnn Hmx) as (s' & ->).
    exists s'. reflexivity.
Qed.

Lemma withdrawing_never_fails_witness :
  (exists s',
     TutorialDetail.handleLike (Some "b") "x" (click_at "l2" 50)
       {| TutorialDetail.isLiked := true; TutorialDetail.isEnrolled := true |}
       scenario_db
     = ({| TutorialDetail.isLiked := false; TutorialDetail.isEnrolled := true |}, s',
        [TutorialDetail.toast_success "Removed from favorites";
         TutorialDetail.fetchTutorial]))
  /\ (exists s',
        TutorialDetail.handleEnroll (Some "b") "x" (click_at "l2" 50)
          {| TutorialDetail.isLiked := true; TutorialDetail.isEnrolled := true |}
          scenario_db
        = ({| TutorialDetail.isLiked := true; TutorialDetail.isEnrolled := false |}, s',
           [TutorialDetail.toast_success "Unenrolled from tutorial";
            TutorialDetail.fetchTutorial])).
Proof.
  destruct (withdrawing_never_fails "b" "x" (click_at "l2" 50)
              {| TutorialDetail.isLiked := true; TutorialDetail.isEnrolled := true |}
              scenario_db scenario_reachable) as [H1 H2].
  split; [apply H1 | apply H2]; reflexivity.
Defined.

(* ================================================================= *)
(** * The page's selects and the enum columns *)

Lemma offered_category_is_a_label c :
  In c CreateTutorial.categories -> tutorial_category_in c <> None.
Proof.
  intros H. repeat (destruct H as [<- | H]; [discriminate | ]). destruct H.
Qed.

Lemma offered_difficulty_is_a_label d :
  In d CreateTutorial.difficulties -> difficulty_level_in d <> None.
Proof.
  intros H. repeat (destruct H as [<- | H]; [discriminate | ]). destruct H.
Qed.

Lemma step_selects_hold_options user st e :
  picks_an_option e -> selects_hold_options st ->
  selects_hold_options (fst (CreateTutorial.step user st e)).
Proof.
  intros He [Hc Hd]. destruct e as [sel | v | v | t ds v r]; cbn.
  - unfold CreateTutorial.handleThumbnailChange.
    destruct sel as [f | ]; [ | now split].
    destruct (_ <? _); now split.
  - split; [right; exact He | exact Hd].
  - split; [exact Hc | right; exact He].
  - now split.
Qed.

Lemma session_inserts user es : forall st p,
  In (CreateTutorial.tutorials_insert p) (CreateTutorial.session user st es) ->
  Forall picks_an_option es -> selects_hold_options st ->
  exists st' t ds v r,
    selects_hold_options st'
    /\ In (CreateTutorial.tutorials_insert p)
          (CreateTutorial.handleSubmit user t ds v r st').
Proof.
  induction es as [ | e es IH]; intros st p Hin Hes Hst; [destruct Hin | ].
  inversion Hes as [ | e' es' He Hes']; subst.
  cbn [CreateTutorial.session] in Hin.
  pose proof (step_selects_hold_options user st e He Hst) as Hst'.
  destruct (CreateTutorial.step user st e) as [st1 effs] eqn:Es.
  cbn [fst] in Hst'. apply in_app_or in Hin. destruct Hin as [Hin | Hin].
  - destruct e as [sel | v | v | t ds v r]; cbn in Es.
    + unfold CreateTutorial.handleThumbnailChange in Es.
      destruct sel as [f | ]; [destruct (_ <? _) | ]; injection Es as <- <-;
        try destruct Hin as [Hin | []]; try discriminate; destruct Hin.
    + injection Es as <- <-. destruct Hin.
    + injection Es as <- <-. destruct Hin.
    + injection Es as <- <-. exists st, t, ds, v, r. split; assumption.
  - exact (IH st1 p Hin Hes' Hst').
Qed.

(** X17. The options of the page's two selects are the labels of the enum
    types [tutorial_category] and [difficulty_level], in the order of the
    migration.  Hence, over any use of the page in which the user picks from
    those options, every payload sent to the tutorials table carries a
    category and a difficulty that the enum columns accept. *)
Theorem selects_offer_the_enum_labels :
  CreateTutorial.categories = map tutorial_category_out tutorial_category_range
  /\ CreateTutorial.difficulties = map difficulty_level_out difficulty_level_range
  /\ (forall c, tutorial_category_in (tutorial_category_out c) = Some c)
  /\ (forall d, difficulty_level_in (difficulty_level_out d) = Some d)
  /\ (forall user es p,
        Forall picks_an_option es ->
        In (CreateTutorial.tutorials_insert p)
           (CreateTutorial.session user CreateTutorial.initial_state es) ->
        tutorial_category_in (CreateTutorial.p_category p) <> None
        /\ difficulty_level_in (CreateTutorial.p_difficulty p) <> None).
Proof.
  split; [reflexivity | ]. split; [reflexivity | ].
  split; [intros []; reflexivity | ]. split; [intros []; reflexivity | ].
  intros user es p Hes Hin.
  destruct (session_inserts user es CreateTutorial.initial_state p Hin Hes)
    as (st & t & ds & v & r & [Hc Hd] & Hsub).
  { split; left; reflexivity. }
  apply handleSubmit_payload in Hsub.
  destruct Hsub as (_ & _ & _ & Ec & Ed & _ & _ & Hnc & Hnd & _).
  rewrite Ec in Hnc |- *. rewrite Ed in Hnd |- *. split.
  - destruct Hc as [Hc | Hc]; [contradiction | ].
    now apply offered_category_is_a_label.
  - destruct Hd as [Hd | Hd]; [contradiction | ].
    now apply offered_difficulty_is_a_label.
Qed.

Lemma selects_offer_the_enum_labels_witness :
  In (CreateTutorial.tutorials_insert
        {| CreateTutorial.p_user_id := "a";
           CreateTutorial.p_title := "Introduction to React Hooks";
           CreateTutorial.p_description := "State and effects in function components.";
           CreateTutorial.p_category := "programming";
           CreateTutorial.p_difficulty := "beginner";
           CreateTutorial.p_video_url := None;
           CreateTutorial.p_thumbnail_url := None |})
     (CreateTutorial.session "a" CreateTutorial.initial_state
        [CreateTutorial.setCategory "programming";
         CreateTutorial.setDifficulty "beginner";
         CreateTutorial.submit (Some "Introduction to React Hooks")
           (Some "State and effects in function components.") None no_answer])
  /\ tutorial_category_in "programming" <> None
  /\ difficulty_level_in "beginner" <> None.
Proof.
  assert (Hin : In (CreateTutorial.tutorials_insert
        {| CreateTutorial.p_user_id := "a";
           CreateTutorial.p_title := "Introduction to React Hooks";
           CreateTutorial.p_description := "State and effects in function components.";
           CreateTutorial.p_category := "programming";
           CreateTutorial.p_difficulty := "beginner";
           CreateTutorial.p_video_url := None;
           CreateTutorial.p_thumbnail_url := None |})
     (CreateTutorial.session "a" CreateTutorial.initial_state
        [CreateTutorial.setCategory "programming";
         CreateTutorial.setDifficulty "beginner";
         CreateTutorial.submit (Some "Introduction to React Hooks")
           (Some "State and effects in function components.") None no_answer])).
  { left. reflexivity. }
  split; [exact Hin | ].
  destruct selects_offer_the_enum_labels as (_ & _ & _ & _ & H).
  refine (H "a" _ _ _ Hin).
  repeat constructor; cbn; auto 12.
Defined.
